(** * Al-Meezan fund tracker: a shallow embedding of [main.go]

    Definitions:

    - [GoStrings]: the byte strings of Go and the [strings] functions the
      program calls ([TrimSpace], [TrimRight]);
    - [GoTime]: [time.Parse] and [time.Format] for the reference elements
      that occur in the layouts of the program;
    - [Dom]: the node tree of [golang.org/x/net/html] and the goquery
      queries the extractor uses ([Find], [Eq], [Text]);
    - [Types]: [Fund], the [funds] table and the storage engine, requests
      and responses;
    - [Strconv]: [strconv.ParseFloat] on the words for the infinities and
      NaN, which it reads before it looks for a number;
    - [Main]: [parseFloat], [parseDate], [parseHTML], [storeFunds] and
      [uploadHandler];
    - [Samples]: a sample report with sample collaborators;
    - [Startup]: [getEnv] and the configuration that [main] builds;
    - [Notions], [MoreSamples]: what the further theorems are stated with.

    Theorems: [StringFacts] and [TimeFacts] about the library functions,
    then [NormalizerProofs], [ExtractProofs], [StoreProofs] and
    [UploadProofs] about the program, and [OnSamples], where the theorems
    are applied to the sample report; then [DateProofs], [ExtractMore],
    [StoreMore], [UploadMore] and [SelectorProofs] with further properties
    of the same functions, applied to the samples in [OnMoreSamples].

    What lives outside the repository and has no small closed description
    (the HTML tokenizer and tree builder, the numbers of
    [strconv.ParseFloat], [html.UnescapeString], the multipart reader, the
    JSON encoder and the failures of the storage engine) is a [Variable]
    of the section that needs it. *)

From Stdlib Require Import List Bool Arith ZArith NArith Lia.
From Stdlib Require Import Ascii String.
From Stdlib Require Import Floats.
Import ListNotations.

Local Open Scope Z_scope.

(* ================================================================= *)
(** ** Go strings *)

Module GoStrings.

(** A Go [string] is an immutable sequence of bytes. *)
Definition bytes := list ascii.

(** [B "..."] is the Go string literal with the same (ASCII) text. *)
Definition B (s : string) : bytes := list_ascii_of_string s.

Definition byte_of (n : N) : ascii := ascii_of_N n.

Definition bytes_eqb (a b : bytes) : bool :=
  if list_eq_dec ascii_dec a b then true else false.

(** [utf8.EncodeRune], for the code points of the white space table. *)
Definition EncodeRune (r : N) : bytes :=
  if (r <? 128)%N then [byte_of r]
  else if (r <? 2048)%N then
    [byte_of (N.lor 192 (N.shiftr r 6));
     byte_of (N.lor 128 (N.land r 63))]
  else if (r <? 65536)%N then
    [byte_of (N.lor 224 (N.shiftr r 12));
     byte_of (N.lor 128 (N.land (N.shiftr r 6) 63));
     byte_of (N.lor 128 (N.land r 63))]
  else
    [byte_of (N.lor 240 (N.shiftr r 18));
     byte_of (N.lor 128 (N.land (N.shiftr r 12) 63));
     byte_of (N.lor 128 (N.land (N.shiftr r 6) 63));
     byte_of (N.lor 128 (N.land r 63))].

(** The code points for which [unicode.IsSpace] holds: the Latin-1 ones
    listed in its [switch], and the rest of the [White_Space] range table. *)
Definition White_Space : list N :=
  [ 9; 10; 11; 12; 13; 32; 133; 160;
    5760;
    8192; 8193; 8194; 8195; 8196; 8197; 8198; 8199; 8200; 8201; 8202;
    8232; 8233; 8239; 8287; 12288 ]%N.

(** Their UTF-8 encodings.  [utf8.DecodeRuneInString] returns a rune other
    than [RuneError] only when the string starts with the shortest encoding
    of that rune, and [utf8.DecodeLastRuneInString] only when the string
    ends with it; [RuneError] is not white space.  So the first (last) rune
    of a string is white space exactly when the string starts (ends) with
    one of these byte sequences. *)
Definition spaceEncodings : list bytes :=
  Eval vm_compute in map EncodeRune White_Space.

(** A run of white space: the encodings of white space runes, one after
    the other. *)
Inductive WhiteSpace : bytes -> Prop :=
| WhiteSpace_nil : WhiteSpace []
| WhiteSpace_cons (r : N) (s : bytes) :
    In r White_Space -> WhiteSpace s -> WhiteSpace (EncodeRune r ++ s).

(** The encoding of a white space rune, and the same read backwards. *)
Definition spaceToken (t : bytes) : Prop :=
  exists r, In r White_Space /\ t = EncodeRune r.

Definition spaceTokenRev (t : bytes) : Prop :=
  exists r, In r White_Space /\ t = rev (EncodeRune r).

(** [stripPrefix p s] is [Some rest] when [s = p ++ rest]. *)
Fixpoint stripPrefix (p s : bytes) : option bytes :=
  match p with
  | [] => Some s
  | c :: p' =>
      match s with
      | [] => None
      | d :: s' => if Ascii.eqb c d then stripPrefix p' s' else None
      end
  end.

Fixpoint firstStrip (tab : list bytes) (s : bytes) : option bytes :=
  match tab with
  | [] => None
  | p :: tab' =>
      match stripPrefix p s with
      | Some rest => Some rest
      | None => firstStrip tab' s
      end
  end.

(** One step of [TrimLeftFunc(s, unicode.IsSpace)]: the string after its
    first rune, when that rune is white space. *)
Definition dropSpace (s : bytes) : option bytes :=
  firstStrip spaceEncodings s.

(** The same from the end, on the reversed string. *)
Definition dropSpaceRev (r : bytes) : option bytes :=
  firstStrip (map (@rev ascii) spaceEncodings) r.

Fixpoint trimLoop (step : bytes -> option bytes) (fuel : nat) (s : bytes)
  : bytes :=
  match fuel with
  | O => s
  | S fuel' =>
      match step s with
      | Some rest => trimLoop step fuel' rest
      | None => s
      end
  end.

Definition TrimLeftSpace (s : bytes) : bytes :=
  trimLoop dropSpace (List.length s) s.

Definition TrimRightSpace (s : bytes) : bytes :=
  rev (trimLoop dropSpaceRev (List.length s) (rev s)).

(** [strings.TrimSpace]: all leading and trailing white space removed, as
    defined by Unicode. *)
Definition TrimSpace (s : bytes) : bytes :=
  TrimRightSpace (TrimLeftSpace s).

Definition inSet (cutset : bytes) (c : ascii) : bool :=
  existsb (Ascii.eqb c) cutset.

Fixpoint dropWhile (f : ascii -> bool) (s : bytes) : bytes :=
  match s with
  | [] => []
  | c :: s' => if f c then dropWhile f s' else s
  end.

(** [strings.TrimRight(s, cutset)] for a cutset of ASCII bytes, which is
    what the program passes (["*%"] and ["*"]): Go then trims byte by byte
    ([trimRightByte], [trimRightASCII]). *)
Definition TrimRight (s cutset : bytes) : bytes :=
  rev (dropWhile (inSet cutset) (rev s)).

(** [strings.Contains]. *)
Fixpoint Contains (s sub : bytes) : bool :=
  match stripPrefix sub s with
  | Some _ => true
  | None =>
      match s with
      | [] => false
      | _ :: s' => Contains s' sub
      end
  end.

End GoStrings.

(* ================================================================= *)
(** ** The [time] package *)

Module GoTime.
Import GoStrings.

(** A [time.Time]: the civil date, the time of day in nanoseconds, and the
    offset of its zone in seconds east of UTC. *)
Record Time := mkTime {
  Year : Z;
  Month : Z;
  Day : Z;
  Clock : Z;
  Offset : Z
}.

(** [time.Date(year, month, day, 0, 0, 0, 0, time.UTC)] for a month and a
    day that are in range (which is all that [Parse] passes). *)
Definition Date (year month day : Z) : Time := mkTime year month day 0 0.

Definition code (c : ascii) : Z := Z.of_N (N_of_ascii c).

Definition shortMonthNames : list bytes :=
  map B ["Jan"; "Feb"; "Mar"; "Apr"; "May"; "Jun";
         "Jul"; "Aug"; "Sep"; "Oct"; "Nov"; "Dec"]%string.

Definition longMonthNames : list bytes :=
  map B ["January"; "February"; "March"; "April"; "May"; "June"; "July";
         "August"; "September"; "October"; "November"; "December"]%string.

(** The reference elements of a layout that the layouts of the program
    use.  [stdEnd] is Go's [0]: no reference element is left. *)
Inductive Std :=
| stdEnd
| stdLongMonth   (* "January" *)
| stdMonth       (* "Jan" *)
| stdZeroMonth   (* "01" *)
| stdDay         (* "2" *)
| stdZeroDay     (* "02" *)
| stdLongYear.   (* "2006" *)

Definition hasPrefix (s p : bytes) : bool :=
  match stripPrefix p s with Some _ => true | None => false end.

Definition startsWithLowerCase (s : bytes) : bool :=
  match s with
  | [] => false
  | c :: _ => (code "a" <=? code c) && (code c <=? code "z")
  end.

(** The reference element that starts at the head of [layout], with what
    follows it: the cases ['J'], ['2'] and ['0'] of the [switch] of
    [nextStdChunk].  The program's layouts are ["Jan 2, 2006"],
    ["2 Jan, 2006"], ["January 2, 2006"], ["2 January, 2006"] and
    ["2006-01-02"]; no other case of that [switch] applies to them. *)
Definition stdAt (layout : bytes) : option (Std * bytes) :=
  match layout with
  | [] => None
  | c :: _ =>
      if Ascii.eqb c "J" then
        if hasPrefix layout (B "Jan") then
          if hasPrefix layout (B "January") then
            Some (stdLongMonth, skipn 7 layout)
          else if negb (startsWithLowerCase (skipn 3 layout)) then
            Some (stdMonth, skipn 3 layout)
          else None
        else None
      else if Ascii.eqb c "2" then
        if hasPrefix layout (B "2006") then Some (stdLongYear, skipn 4 layout)
        else Some (stdDay, skipn 1 layout)
      else if Ascii.eqb c "0" then
        if hasPrefix layout (B "01") then Some (stdZeroMonth, skipn 2 layout)
        else if hasPrefix layout (B "02") then Some (stdZeroDay, skipn 2 layout)
        else None
      else None
  end.

(** [nextStdChunk]: the text before the first reference element, the
    element, and the text after it. *)
Fixpoint nextStdChunk (layout : bytes) : bytes * Std * bytes :=
  match layout with
  | [] => ([], stdEnd, [])
  | c :: rest =>
      match stdAt layout with
      | Some (std, suffix) => ([], std, suffix)
      | None =>
          let '(prefix, std, suffix) := nextStdChunk rest in
          (c :: prefix, std, suffix)
      end
  end.

Definition isSpaceByte (c : ascii) : bool := Ascii.eqb c " ".

(** [cutspace]: leading spaces removed. *)
Definition cutspace (s : bytes) : bytes := dropWhile isSpaceByte s.

(** [skip]: removes [prefix] from [value], a run of spaces of the one
    standing for a run of spaces of the other. *)
Fixpoint skipLoop (fuel : nat) (value prefix : bytes) : option bytes :=
  match fuel with
  | O => None
  | S fuel' =>
      match prefix with
      | [] => Some value
      | c :: prefix' =>
          if isSpaceByte c then
            match value with
            | d :: _ =>
                if negb (isSpaceByte d) then None
                else skipLoop fuel' (cutspace value) (cutspace prefix)
            | [] => skipLoop fuel' (cutspace value) (cutspace prefix)
            end
          else
            match value with
            | [] => None
            | d :: value' =>
                if Ascii.eqb d c then skipLoop fuel' value' prefix' else None
            end
      end
  end.

Definition skip (value prefix : bytes) : option bytes :=
  skipLoop (S (List.length prefix)) value prefix.

(** [match]: equality of two strings of the same length, ASCII case
    ignored. *)
Definition matchByte (c1 c2 : ascii) : bool :=
  if Ascii.eqb c1 c2 then true
  else
    let l1 := Z.lor (code c1) 32 in
    let l2 := Z.lor (code c2) 32 in
    (l1 =? l2) && (code "a" <=? l1) && (l1 <=? code "z").

Fixpoint matchPrefix (v val : bytes) : option bytes :=
  match v with
  | [] => Some val
  | c2 :: v' =>
      match val with
      | [] => None
      | c1 :: val' => if matchByte c1 c2 then matchPrefix v' val' else None
      end
  end.

(** [lookup]: the index of the first name of [tab] that [val] starts
    with, and the rest of [val]. *)
Fixpoint lookupFrom (i : Z) (tab : list bytes) (val : bytes)
  : option (Z * bytes) :=
  match tab with
  | [] => None
  | v :: tab' =>
      match matchPrefix v val with
      | Some rest => Some (i, rest)
      | None => lookupFrom (i + 1) tab' val
      end
  end.

Definition lookup (tab : list bytes) (val : bytes) : option (Z * bytes) :=
  lookupFrom 0 tab val.

Definition isDigitByte (c : ascii) : bool :=
  (code "0" <=? code c) && (code c <=? code "9").

Definition digitVal (c : ascii) : Z := code c - code "0".

(** [getnum]: a number of one or two digits, of two when [fixed]. *)
Definition getnum (s : bytes) (fixed : bool) : option (Z * bytes) :=
  match s with
  | c0 :: s1 =>
      if isDigitByte c0 then
        match s1 with
        | c1 :: s2 =>
            if isDigitByte c1 then Some (digitVal c0 * 10 + digitVal c1, s2)
            else if fixed then None else Some (digitVal c0, s1)
        | [] => if fixed then None else Some (digitVal c0, s1)
        end
      else None
  | [] => None
  end.

(** The case [stdLongYear] of [Parse]: four bytes, the first a digit, that
    [atoi] accepts, which then are four digits. *)
Definition getyear (value : bytes) : option (Z * bytes) :=
  match value with
  | c0 :: c1 :: c2 :: c3 :: rest =>
      if isDigitByte c0 && isDigitByte c1 && isDigitByte c2 && isDigitByte c3
      then Some (((digitVal c0 * 10 + digitVal c1) * 10 + digitVal c2) * 10
                 + digitVal c3, rest)
      else None
  | _ => None
  end.

Definition isLeap (year : Z) : bool :=
  (year mod 4 =? 0) && (negb (year mod 100 =? 0) || (year mod 400 =? 0)).

Definition daysIn (month year : Z) : Z :=
  if (month =? 2) && isLeap year then 29
  else if month =? 2 then 28
  else if (month =? 4) || (month =? 6) || (month =? 9) || (month =? 11)
  then 30 else 31.

(** The variables [year], [month] and [day] of [Parse]; [month] and [day]
    start at [-1]. *)
Record fields := mkFields { f_year : Z; f_month : Z; f_day : Z }.

(** The [switch std & stdMask] of [Parse]: the value and the variables
    after the reference element [std] is read off [value]. *)
Definition parseStd (std : Std) (value : bytes) (st : fields)
  : option (bytes * fields) :=
  match std with
  | stdEnd => None
  | stdLongYear =>
      match getyear value with
      | Some (y, value) => Some (value, mkFields y (f_month st) (f_day st))
      | None => None
      end
  | stdMonth =>
      match lookup shortMonthNames value with
      | Some (m, value) => Some (value, mkFields (f_year st) (m + 1) (f_day st))
      | None => None
      end
  | stdLongMonth =>
      match lookup longMonthNames value with
      | Some (m, value) => Some (value, mkFields (f_year st) (m + 1) (f_day st))
      | None => None
      end
  | stdZeroMonth =>
      match getnum value true with
      | Some (m, value) =>
          if (m <=? 0) || (12 <? m) then None
          else Some (value, mkFields (f_year st) m (f_day st))
      | None => None
      end
  | stdDay =>
      match getnum value false with
      | Some (d, value) => Some (value, mkFields (f_year st) (f_month st) d)
      | None => None
      end
  | stdZeroDay =>
      match getnum value true with
      | Some (d, value) => Some (value, mkFields (f_year st) (f_month st) d)
      | None => None
      end
  end.

(** The loop of [Parse]: the literal text before the next reference
    element is skipped, the element is read, and at the end of the layout
    nothing of the value may be left. *)
Fixpoint parseLoop (fuel : nat) (layout value : bytes) (st : fields)
  : option fields :=
  match fuel with
  | O => None
  | S fuel' =>
      let '(prefix, std, suffix) := nextStdChunk layout in
      match skip value prefix with
      | None => None
      | Some value =>
          match std with
          | stdEnd => match value with [] => Some st | _ :: _ => None end
          | _ =>
              match parseStd std value st with
              | Some (value, st) => parseLoop fuel' suffix value st
              | None => None
              end
          end
      end
  end.

(** The end of [Parse]: a month or a day that the layout does not
    mention is the first, and the day has to exist in its month. *)
Definition finish (st : fields) : option Time :=
  let month := if f_month st <? 0 then 1 else f_month st in
  let day := if f_day st <? 0 then 1 else f_day st in
  if (day <? 1) || (daysIn month (f_year st) <? day) then None
  else Some (Date (f_year st) month day).

(** [time.Parse(layout, value)]; [None] stands for a non-nil error.  Every
    turn of the loop but the last takes a reference element off the
    layout, so [S (length layout)] turns are enough. *)
Definition Parse (layout value : bytes) : option Time :=
  match parseLoop (S (List.length layout)) layout value (mkFields 0 (-1) (-1))
  with
  | None => None
  | Some st => finish st
  end.

Definition digitByte (d : Z) : ascii := byte_of (Z.to_N (code "0" + d)).

Fixpoint decimalLoop (fuel : nat) (u : Z) : bytes :=
  match fuel with
  | O => []
  | S fuel' =>
      if u <? 10 then [digitByte u]
      else decimalLoop fuel' (u / 10) ++ [digitByte (u mod 10)]
  end.

(** The decimal digits of [u >= 0]; a number has no more decimal digits
    than binary ones. *)
Definition decimal (u : Z) : bytes :=
  decimalLoop (S (Z.to_nat (Z.log2 u))) u.

(** [appendInt]: [x] in decimal, zero-padded to [width] digits. *)
Definition appendInt (x : Z) (width : nat) : bytes :=
  let ds := decimal (Z.abs x) in
  (if x <? 0 then B "-" else [])
    ++ repeat "0"%char (width - List.length ds) ++ ds.

Definition monthString (m : Z) : bytes :=
  nth (Z.to_nat (m - 1)) longMonthNames [].

Fixpoint formatLoop (fuel : nat) (layout : bytes) (t : Time) : bytes :=
  match fuel with
  | O => []
  | S fuel' =>
      let '(prefix, std, suffix) := nextStdChunk layout in
      prefix ++
      match std with
      | stdEnd => []
      | stdLongYear => appendInt (Year t) 4 ++ formatLoop fuel' suffix t
      | stdMonth => firstn 3 (monthString (Month t)) ++ formatLoop fuel' suffix t
      | stdLongMonth => monthString (Month t) ++ formatLoop fuel' suffix t
      | stdZeroMonth => appendInt (Month t) 2 ++ formatLoop fuel' suffix t
      | stdDay => appendInt (Day t) 0 ++ formatLoop fuel' suffix t
      | stdZeroDay => appendInt (Day t) 2 ++ formatLoop fuel' suffix t
      end
  end.

(** [t.Format(layout)], for a month in [1..12]. *)
Definition Format (t : Time) (layout : bytes) : bytes :=
  formatLoop (S (List.length layout)) layout t.

End GoTime.

(* ================================================================= *)
(** ** The node tree and the goquery queries *)

Module Dom.
Import GoStrings.

(** [html.NodeType]. *)
Inductive NodeType :=
| ErrorNode | TextNode | DocumentNode | ElementNode
| CommentNode | DoctypeNode | RawNode.

(** [html.Attribute]. *)
Record Attribute := mkAttr { Namespace : bytes; Key : bytes; Val : bytes }.

(** [html.Node], the children in sibling order. *)
#[local] Unset Elimination Schemes.
Inductive Node :=
| mkNode (type : NodeType) (data : bytes) (attr : list Attribute)
         (children : list Node).
#[local] Set Elimination Schemes.

Definition Type_ (n : Node) : NodeType :=
  match n with mkNode t _ _ _ => t end.
Definition Data (n : Node) : bytes :=
  match n with mkNode _ d _ _ => d end.
Definition Attr (n : Node) : list Attribute :=
  match n with mkNode _ _ a _ => a end.
Definition Children (n : Node) : list Node :=
  match n with mkNode _ _ _ c => c end.

Definition isElement (n : Node) : bool :=
  match Type_ n with ElementNode => true | _ => false end.

Definition isText (n : Node) : bool :=
  match Type_ n with TextNode => true | _ => false end.

(** A compiled cascadia selector. *)
Definition Matcher := Node -> bool.

(** The type selector [tag]. *)
Definition tagSelector (tag : bytes) : Matcher :=
  fun n => isElement n && bytes_eqb (Data n) tag.

(** The attribute selector [[key='val']]. *)
Definition attributeEqualsSelector (key val : bytes) : Matcher :=
  fun n =>
    isElement n
    && existsb (fun a => bytes_eqb (Key a) key && bytes_eqb (Val a) val)
         (Attr n).

(** A compound selector: every part matches. *)
Definition compoundSelector (parts : list Matcher) : Matcher :=
  fun n => forallb (fun m => m n) parts.

(** The selector ["tr[align='center']"]. *)
Definition sel_tr_align_center : Matcher :=
  compoundSelector
    [tagSelector (B "tr"); attributeEqualsSelector (B "align") (B "center")].

(** The selector ["td"]. *)
Definition sel_td : Matcher := tagSelector (B "td").

(** [Matcher.MatchAll]: the nodes of the subtree of [n] that match, [n]
    included, in document order. *)
Fixpoint MatchAll (m : Matcher) (n : Node) : list Node :=
  match n with
  | mkNode _ _ _ children =>
      (if m n then [n] else []) ++ flat_map (MatchAll m) children
  end.

(** [Selection.Find] on the selection of one node (the document, or the
    row that [Each] hands to its callback): the matching descendants, in
    document order. *)
Definition Find (n : Node) (m : Matcher) : list Node :=
  flat_map (fun c => if isElement c then MatchAll m c else []) (Children n).

(** The text of one node: the data of the text nodes of its subtree. *)
Fixpoint nodeText (n : Node) : bytes :=
  match n with
  | mkNode _ data _ children =>
      (if isText n then data else []) ++ flat_map nodeText children
  end.

(** [Selection.Text]. *)
Definition Text (sel : list Node) : bytes := flat_map nodeText sel.

(** [Selection.Eq]: the selection of the node at [idx], empty when there
    is none. *)
Definition Eq (sel : list Node) (idx : nat) : list Node :=
  match nth_error sel idx with Some n => [n] | None => [] end.

End Dom.

(* ================================================================= *)
(** ** The types of the program *)

Module Types.
Import GoStrings GoTime.

(** A Go result [(value, error)]; an error is its message. *)
Inductive result (A : Type) :=
| Ok (a : A)
| Err (msg : bytes).
Arguments Ok {A} a.
Arguments Err {A} msg.

Definition float64 := PrimFloat.float.

(** [Fund]: a pointer field is an [option]. *)
Record Fund := mkFund {
  Name : bytes;
  LaunchDate : option Time;
  ValidityDate : option Time;
  Repurchase : option float64;
  Offer : option float64;
  NAV : option float64;
  MTD : option float64;
  FYTD : option float64;
  CYTD : option float64;
  FY24 : option float64;
  FY23 : option float64;
  SinceInception : option float64;
  UploadDate : Time
}.

(** The thirteen values bound to the [INSERT] statement; [None] is SQL
    [NULL]. *)
Record Values := mkValues {
  v_name : bytes;
  v_launch_date : option bytes;
  v_validity_date : option bytes;
  v_repurchase : option float64;
  v_offer : option float64;
  v_nav : option float64;
  v_mtd : option float64;
  v_fytd : option float64;
  v_cytd : option float64;
  v_fy24 : option float64;
  v_fy23 : option float64;
  v_since_inception : option float64;
  v_upload_date : bytes
}.

(** The table [funds] (a row is its [id] and its values as they read
    back) with the counter that [AUTOINCREMENT] keeps in
    [sqlite_sequence]. *)
Record Table := mkTable {
  rows : list (Z * Values);
  sequence : Z
}.

(** The storage engine behind [s.db]: what is committed, and the working
    copy of the transaction in progress, if any. *)
Record DB := mkDB {
  committed : Table;
  tx : option Table
}.

Record Config := mkConfig {
  APIKey : bytes;
  Port : bytes;
  DatabasePath : bytes
}.

Record Server := mkServer {
  config : Config;
  db : DB
}.

(** [multipart.FileHeader], with the outcome of opening and of reading
    the file; [Size] is the length of the content. *)
Record FileHeader := mkFileHeader {
  Filename : bytes;
  Content : bytes;
  OpenErr : option bytes;
  ReadErr : option bytes
}.

Definition Size (fh : FileHeader) : Z := Z.of_nat (List.length (Content fh)).

(** The parsed form of a request: [r.Form] and [r.MultipartForm.File]. *)
Record Form := mkForm {
  FormValues : bytes -> list bytes;
  FormFiles : bytes -> list FileHeader
}.

(** [http.Request]: [Header] is [r.Header.Get]. *)
Record Request := mkRequest {
  Header : bytes -> bytes;
  Method : bytes;
  Body : bytes
}.

(** What the handler wrote to its [http.ResponseWriter]. *)
Record Response := mkResponse {
  StatusCode : Z;
  ContentType : bytes;
  ResponseBody : bytes
}.

End Types.

(* ================================================================= *)
(** ** [strconv.ParseFloat]: the words for the infinities and NaN *)

Module Strconv.
Import GoStrings GoTime Types.

(** [lower] of [commonPrefixLenIgnoreCase]: an upper case ASCII letter
    becomes the lower case one. *)
Definition lower (c : ascii) : ascii :=
  if (65 <=? code c) && (code c <=? 90)
  then byte_of (N_of_ascii c + 32)
  else c.

(** [commonPrefixLenIgnoreCase(s, prefix)], for a [prefix] in lower
    case. *)
Fixpoint commonPrefixLenIgnoreCase (s prefix : bytes) : nat :=
  match s, prefix with
  | c :: s', p :: prefix' =>
      if Ascii.eqb (lower c) p
      then S (commonPrefixLenIgnoreCase s' prefix')
      else O
  | _, _ => O
  end.

(** The [case 'i', 'I'] of [special], which the [case '+', '-'] falls
    through to: how much of [s] spells [inf] or [infinity]. *)
Definition infinityLen (s : bytes) : option nat :=
  let n := commonPrefixLenIgnoreCase s (B "infinity") in
  let n := if (3 <? n)%nat && (n <? 8)%nat then 3%nat else n in
  if (n =? 3)%nat || (n =? 8)%nat then Some n else None.

(** [special]: the value and the length of the prefix of [s] that spells
    an infinity, with or without a sign, or NaN, without one; the case of
    the letters is ignored. *)
Definition special (s : bytes) : option (float64 * nat) :=
  match s with
  | [] => None
  | c :: rest =>
      if Ascii.eqb c "+" then
        match infinityLen rest with
        | Some n => Some (PrimFloat.infinity, S n)
        | None => None
        end
      else if Ascii.eqb c "-" then
        match infinityLen rest with
        | Some n => Some (PrimFloat.neg_infinity, S n)
        | None => None
        end
      else if Ascii.eqb c "i" || Ascii.eqb c "I" then
        match infinityLen s with
        | Some n => Some (PrimFloat.infinity, n)
        | None => None
        end
      else if Ascii.eqb c "n" || Ascii.eqb c "N" then
        if (commonPrefixLenIgnoreCase s (B "nan") =? 3)%nat
        then Some (PrimFloat.nan, 3%nat)
        else None
      else None
  end.

Section ParseFloat.

(** What [ParseFloat] returns on a text that [special] does not read: the
    number that [readFloat] finds in the whole of it (decimal or
    hexadecimal, with or without an exponent), rounded to a [float64];
    [None] is a non-nil error, which a text that is no such number and a
    number out of the range of [float64] give. *)
Variable number : bytes -> option float64.

(** [strconv.ParseFloat(s, 64)]; [None] is a non-nil error.  [atof64]
    asks [special] first, and [ParseFloat] refuses a text of which only a
    prefix was read. *)
Definition ParseFloat (s : bytes) : option float64 :=
  match special s with
  | Some (f, n) => if (n =? List.length s)%nat then Some f else None
  | None => number s
  end.

End ParseFloat.

(** A digit. *)
Definition isDigit (c : ascii) : bool := (48 <=? code c) && (code c <=? 57).

(** A decimal number as a report writes one: digits with at most one
    point among them, after at most one sign. *)
Definition decimalNumber (s : bytes) : bool :=
  let body :=
    match s with
    | c :: s' => if Ascii.eqb c "+" || Ascii.eqb c "-" then s' else s
    | [] => []
    end in
  forallb (fun c => isDigit c || Ascii.eqb c ".") body
  && existsb isDigit body
  && (List.length (filter (Ascii.eqb ".") body) <=? 1)%nat.

End Strconv.

(* ================================================================= *)
(** ** The program *)

Module Main.
Import GoStrings GoTime Dom Types.

Definition maxFileSize : Z := 512 * 1024.

Definition newline : bytes := [byte_of 10].

(** A qualifying row: a candidate row with at least twelve [td]
    descendants. *)
Definition qualifies (row : Node) : bool :=
  (12 <=? List.length (Find row sel_td))%nat.

(** The candidate rows of a document, and those of them that qualify, in
    document order. *)
Definition candidateRows (doc : Node) : list Node :=
  Find doc sel_tr_align_center.

Definition qualifyingRows (doc : Node) : list Node :=
  filter qualifies (candidateRows doc).

(** A printable ASCII byte other than the space. *)
Definition isGraphic (c : ascii) : bool :=
  (32 <? code c) && (code c <? 127).

(** The marker bytes that [parseFloat] strips. *)
Definition isMarker (c : ascii) : bool :=
  Ascii.eqb c "*" || Ascii.eqb c "%".

(** A text that starts and ends the way a written number does: with a
    printable byte that is no white space, the last one no marker. *)
Definition numberLike (s : bytes) : bool :=
  match s with
  | [] => false
  | c :: _ =>
      isGraphic c && isGraphic (last s c) && negb (isMarker (last s c))
  end.

(** A civil date whose year the element ["2006"] writes with four
    digits. *)
Definition validDate (year month day : Z) : Prop :=
  0 <= year <= 9999 /\ 1 <= month <= 12 /\ 1 <= day <= daysIn month year.

Section Program.

(** [strconv.ParseFloat(value, 64)]; [None] is a non-nil error. *)
Variable ParseFloat : bytes -> option float64.

(** [goquery.NewDocumentFromReader(strings.NewReader(htmlContent))]: the
    root of the tree that the HTML parser builds, or its error. *)
Variable NewDocumentFromReader : bytes -> result Node.

(** [t.Format(time.RFC3339)]. *)
Variable FormatRFC3339 : Time -> bytes.

(** The failures of the storage engine: of [BeginTx] on the committed
    table, and of [PrepareContext], of [ExecContext] with the values it
    is given, and of [Commit] on the working copy of the transaction. *)
Variable begin_fails : Table -> option bytes.
Variable prepare_fails : Table -> option bytes.
Variable exec_fails : Table -> Values -> option bytes.
Variable commit_fails : Table -> option bytes.

(** [html.UnescapeString]. *)
Variable UnescapeString : bytes -> bytes.

(** [r.ParseMultipartForm(maxMemory)]. *)
Variable ParseMultipartForm : Request -> Z -> result Form.

(** [json.NewEncoder(w).Encode(funds)]: the bytes written, or the error. *)
Variable jsonEncode : list Fund -> result bytes.

(** *** The field normalizers *)

(** [parseFloat]. *)
Definition parseFloat (value : bytes) : option float64 :=
  let value := TrimSpace value in
  let value := TrimRight value (B "*%") in
  match value with
  | [] => None
  | _ :: _ => ParseFloat value
  end.

Definition formats : list bytes :=
  map B ["Jan 2, 2006"; "2 Jan, 2006"; "January 2, 2006"; "2 January, 2006"]%string.

(** The [for _, format := range formats] loop of [parseDate]. *)
Fixpoint parseDateLoop (formats : list bytes) (date : bytes) : option Time :=
  match formats with
  | [] => None
  | format :: formats' =>
      match Parse format date with
      | Some t => Some t
      | None => parseDateLoop formats' date
      end
  end.

(** [parseDate]. *)
Definition parseDate (date : bytes) : option Time :=
  let date := TrimSpace date in
  match date with
  | [] => None
  | _ :: _ => parseDateLoop formats date
  end.

(** *** The table extractor *)

(** [cleanText] of the callback of [parseHTML]. *)
Definition cleanText (columns : list Node) (idx : nat) : bytes :=
  TrimSpace (Text (Eq columns idx)).

(** The [Fund] literal of the callback. *)
Definition rowFund (uploadDate : Time) (columns : list Node) : Fund :=
  {| Name := TrimRight (cleanText columns 0) (B "*");
     LaunchDate := parseDate (cleanText columns 1);
     ValidityDate := parseDate (cleanText columns 2);
     Repurchase := parseFloat (cleanText columns 3);
     Offer := parseFloat (cleanText columns 4);
     NAV := parseFloat (cleanText columns 5);
     MTD := parseFloat (cleanText columns 6);
     FYTD := parseFloat (cleanText columns 7);
     CYTD := parseFloat (cleanText columns 8);
     FY24 := parseFloat (cleanText columns 9);
     FY23 := parseFloat (cleanText columns 10);
     SinceInception := parseFloat (cleanText columns 11);
     UploadDate := uploadDate |}.

(** The callback that [Each] runs on a row: [funds] before, [funds]
    after. *)
Definition eachRow (uploadDate : Time) (funds : list Fund) (row : Node)
  : list Fund :=
  let columns := Find row sel_td in
  if (List.length columns <? 12)%nat then funds
  else funds ++ [rowFund uploadDate columns].

(** [parseHTML], the logger left out. *)
Definition parseHTML (htmlContent : bytes) (uploadDate : Time)
  : result (list Fund) :=
  match NewDocumentFromReader htmlContent with
  | Err err => Err (B "failed to parse HTML document: " ++ err)
  | Ok doc =>
      Ok (fold_left (eachRow uploadDate) (Find doc sel_tr_align_center) [])
  end.

(** *** The persistence layer *)

(** [s.db.BeginTx]: the transaction starts on a copy of what is
    committed.  The pool holds one connection and this model serves one
    request after the other. *)
Definition BeginTx (d : DB) : DB * option bytes :=
  match begin_fails (committed d) with
  | Some err => (d, Some err)
  | None => (mkDB (committed d) (Some (committed d)), None)
  end.

Definition ErrTxDone : bytes :=
  B "sql: transaction has already been committed or rolled back".

(** [tx.PrepareContext]. *)
Definition PrepareContext (d : DB) : DB * option bytes :=
  match tx d with
  | None => (d, Some ErrTxDone)
  | Some w =>
      match prepare_fails w with
      | Some err => (d, Some err)
      | None => (d, None)
      end
  end.

(** The [id] that [AUTOINCREMENT] gives to a new row: one more than the
    largest ever used. *)
Definition nextId (w : Table) : Z :=
  1 + fold_left Z.max (map fst (rows w)) (sequence w).

(** What the engine keeps of a value bound to a [REAL] column, as it reads
    back: a NaN is stored as [NULL], and a zero as the integer 0, so that
    the negative zero reads back as [0.0]; the infinities and every other
    number are kept. *)
Definition storedReal (x : option float64) : option float64 :=
  match x with
  | None => None
  | Some f =>
      if PrimFloat.is_nan f then None
      else if PrimFloat.is_zero f then Some PrimFloat.zero
      else Some f
  end.

(** The row that the [INSERT] keeps of the bound values: the [TEXT]
    columns as they are bound, the [REAL] columns by [storedReal]. *)
Definition storedValues (v : Values) : Values :=
  {| v_name := v_name v;
     v_launch_date := v_launch_date v;
     v_validity_date := v_validity_date v;
     v_repurchase := storedReal (v_repurchase v);
     v_offer := storedReal (v_offer v);
     v_nav := storedReal (v_nav v);
     v_mtd := storedReal (v_mtd v);
     v_fytd := storedReal (v_fytd v);
     v_cytd := storedReal (v_cytd v);
     v_fy24 := storedReal (v_fy24 v);
     v_fy23 := storedReal (v_fy23 v);
     v_since_inception := storedReal (v_since_inception v);
     v_upload_date := v_upload_date v |}.

Definition insertRow (w : Table) (v : Values) : Table :=
  let i := nextId w in
  mkTable (rows w ++ [(i, storedValues v)]) i.

(** [stmt.ExecContext] of the [INSERT]. *)
Definition ExecContext (d : DB) (v : Values) : DB * option bytes :=
  match tx d with
  | None => (d, Some ErrTxDone)
  | Some w =>
      match exec_fails w v with
      | Some err => (d, Some err)
      | None => (mkDB (committed d) (Some (insertRow w v)), None)
      end
  end.

(** [tx.Commit]: the working copy becomes what is committed; when the
    commit fails the transaction is over all the same and nothing of it
    is kept. *)
Definition Commit (d : DB) : DB * option bytes :=
  match tx d with
  | None => (d, Some ErrTxDone)
  | Some w =>
      match commit_fails w with
      | Some err => (mkDB (committed d) None, Some err)
      | None => (mkDB w None, None)
      end
  end.

(** [tx.Rollback]: the working copy is dropped; nothing happens when the
    transaction is over. *)
Definition Rollback (d : DB) : DB := mkDB (committed d) None.

(** [formatDate] of [storeFunds]. *)
Definition formatDate (t : option Time) : option bytes :=
  match t with
  | None => None
  | Some t => Some (FormatRFC3339 t)
  end.

(** The arguments of [stmt.ExecContext] for one fund. *)
Definition fundValues (fund : Fund) : Values :=
  {| v_name := Name fund;
     v_launch_date := formatDate (LaunchDate fund);
     v_validity_date := formatDate (ValidityDate fund);
     v_repurchase := Repurchase fund;
     v_offer := Offer fund;
     v_nav := NAV fund;
     v_mtd := MTD fund;
     v_fytd := FYTD fund;
     v_cytd := CYTD fund;
     v_fy24 := FY24 fund;
     v_fy23 := FY23 fund;
     v_since_inception := SinceInception fund;
     v_upload_date := FormatRFC3339 (UploadDate fund) |}.

(** The [for _, fund := range funds] loop of [storeFunds]. *)
Fixpoint insertLoop (d : DB) (funds : list Fund) : DB * option bytes :=
  match funds with
  | [] => (d, None)
  | fund :: funds' =>
      match ExecContext d (fundValues fund) with
      | (d, Some err) =>
          (d, Some (B "failed to insert fund '" ++ Name fund ++ B "': " ++ err))
      | (d, None) => insertLoop d funds'
      end
  end.

(** [storeFunds]: the state of the engine after the call, and the error
    returned.  The deferred [tx.Rollback()] runs on every return that
    follows a [BeginTx] that succeeded. *)
Definition storeFunds (d : DB) (funds : list Fund) : DB * option bytes :=
  match BeginTx d with
  | (d, Some err) => (d, Some (B "failed to begin transaction: " ++ err))
  | (d, None) =>
      let '(d, r) :=
        match PrepareContext d with
        | (d, Some err) => (d, Some (B "failed to prepare statement: " ++ err))
        | (d, None) =>
            match insertLoop d funds with
            | (d, Some err) => (d, Some err)
            | (d, None) =>
                match Commit d with
                | (d, Some err) =>
                    (d, Some (B "failed to commit transaction: " ++ err))
                | (d, None) => (d, None)
                end
            end
        end in
      (Rollback d, r)
  end.

(** The working copy after the inserts of [funds] on [w], when none of
    them fails. *)
Fixpoint execAll (w : Table) (funds : list Fund) : option Table :=
  match funds with
  | [] => Some w
  | fund :: funds' =>
      match exec_fails w (fundValues fund) with
      | Some _ => None
      | None => execAll (insertRow w (fundValues fund)) funds'
      end
  end.

(** The rows that a batch leaves in the table when it is stored: for each
    snapshot the values bound for it, as the engine keeps them. *)
Definition storedRows (funds : list Fund) : list Values :=
  map (fun fund => storedValues (fundValues fund)) funds.

(** *** The ingestion endpoint *)

(** [http.Error]. *)
Definition httpError (error : bytes) (code : Z) : Response :=
  mkResponse code (B "text/plain; charset=utf-8") (error ++ newline).

(** [r.FormFile(key)] once the form is parsed: the content behind the
    first file of the key, and its header. *)
Definition FormFile (form : Form) (key : bytes) : result FileHeader :=
  match FormFiles form key with
  | fh :: _ =>
      match OpenErr fh with
      | Some err => Err err
      | None => Ok fh
      end
  | [] => Err (B "http: no such file")
  end.

(** [r.FormValue(key)] once the form is parsed. *)
Definition FormValue (form : Form) (key : bytes) : bytes :=
  match FormValues form key with
  | v :: _ => v
  | [] => []
  end.

(** The first [n] bytes of [s]. *)
Fixpoint take (n : Z) (s : bytes) : bytes :=
  match s with
  | [] => []
  | c :: s' => if n <=? 0 then [] else c :: take (n - 1) s'
  end.

(** [io.ReadAll(io.LimitReader(file, maxFileSize))]. *)
Definition readLimited (fh : FileHeader) : result bytes :=
  match ReadErr fh with
  | Some err => Err err
  | None => Ok (take maxFileSize (Content fh))
  end.

Definition setDb (s : Server) (d : DB) : Server := mkServer (config s) d.

(** [uploadHandler], the logger left out: the server after the request
    and the response written.  [now] is what [time.Now()] returns. *)
Definition uploadHandler (s : Server) (now : Time) (r : Request)
  : Server * Response :=
  if negb (bytes_eqb (Header r (B "X-API-Key")) (APIKey (config s))) then
    (s, httpError (B "Unauthorized") 401)
  else if negb (bytes_eqb (Method r) (B "POST")) then
    (s, httpError (B "Method not allowed") 405)
  else
    match ParseMultipartForm r maxFileSize with
    | Err _ => (s, httpError (B "Invalid request format") 400)
    | Ok form =>
        match FormFile form (B "file") with
        | Err _ => (s, httpError (B "Invalid file upload") 400)
        | Ok fileHeader =>
            let dateStr := FormValue form (B "date") in
            match
              match dateStr with
              | [] => Some now
              | _ :: _ => Parse (B "2006-01-02") dateStr
              end
            with
            | None =>
                (s, httpError (B "Invalid date format. Please use YYYY-MM-DD") 400)
            | Some uploadDate =>
                if maxFileSize <? Size fileHeader then
                  (s, httpError (B "File too large") 413)
                else
                  match readLimited fileHeader with
                  | Err _ => (s, httpError (B "Failed to read file") 500)
                  | Ok fileBytes =>
                      let htmlContent := UnescapeString fileBytes in
                      match parseHTML htmlContent uploadDate with
                      | Err err =>
                          (s, httpError (B "Failed to parse HTML: " ++ err) 500)
                      | Ok funds =>
                          match funds with
                          | [] =>
                              (s, httpError
                                    (B "No funds found in the provided HTML") 400)
                          | _ :: _ =>
                              match storeFunds (db s) funds with
                              | (d, Some err) =>
                                  (setDb s d,
                                   httpError
                                     (B "Failed to store funds in database: "
                                        ++ err) 500)
                              | (d, None) =>
                                  match jsonEncode funds with
                                  | Err _ =>
                                      (setDb s d,
                                       httpError
                                         (B "Failed to generate response") 500)
                                  | Ok out =>
                                      (setDb s d,
                                       mkResponse 200 (B "application/json") out)
                                  end
                              end
                          end
                      end
                  end
            end
        end
    end.

End Program.

End Main.

(* ================================================================= *)
(** ** A sample report and sample collaborators *)

Module Samples.
Import GoStrings GoTime Dom Types Main.

Definition text (s : string) : Node := mkNode TextNode (B s) [] [].

Definition elem (tag : string) (attr : list Attribute) (children : list Node)
  : Node :=
  mkNode ElementNode (B tag) attr children.

Definition td (s : string) : Node := elem "td" [] [text s].

Definition center : list Attribute := [mkAttr [] (B "align") (B "center")].

(** The tree that the HTML parser builds around the content of a body. *)
Definition document (body : list Node) : Node :=
  mkNode DocumentNode [] []
    [elem "html" [] [elem "head" [] []; elem "body" [] body]].

(** A report with one data row and one header row. *)
Definition report : bytes :=
  B ("<table><tr align='center'><td>Meezan Cash Fund**</td>"
     ++ "<td>Jun 15, 2009</td><td>5 March, 2024</td><td>50.5 </td>"
     ++ "<td>50.75</td><td>50.25*</td><td>1.5%</td><td>N/A</td><td>-</td>"
     ++ "<td>12.5</td><td>-3</td><td>7%*</td></tr>"
     ++ "<tr align='center'><td>Fund</td><td>NAV</td></tr></table>").

Definition dataRow : Node :=
  elem "tr" center
    [td "Meezan Cash Fund**"; td "Jun 15, 2009"; td "5 March, 2024";
     td "50.5 "; td "50.75"; td "50.25*"; td "1.5%"; td "N/A"; td "-";
     td "12.5"; td "-3"; td "7%*"].

Definition headerRow : Node := elem "tr" center [td "Fund"; td "NAV"].

Definition reportDoc : Node :=
  document [elem "table" [] [elem "tbody" [] [dataRow; headerRow]]].

(** A report whose one row has twelve empty cells. *)
Definition blankReport : bytes :=
  B ("<table><tr align='center'><td></td><td></td><td></td><td></td>"
     ++ "<td></td><td></td><td></td><td></td><td></td><td></td><td></td>"
     ++ "<td></td></tr></table>").

Definition blankRow : Node :=
  elem "tr" center (repeat (elem "td" [] []) 12).

Definition blankDoc : Node :=
  document [elem "table" [] [elem "tbody" [] [blankRow]]].

(** The report as an attachment that spells its markup with entities. *)
Definition escape (s : bytes) : bytes :=
  flat_map (fun c =>
    if Ascii.eqb c "<" then B "&lt;"
    else if Ascii.eqb c ">" then B "&gt;"
    else [c]) s.

Definition escapedReport : bytes := escape report.

(** [html.UnescapeString] on the texts of this module. *)
Definition UnescapeString (s : bytes) : bytes :=
  if bytes_eqb s escapedReport then report else s.

(** The HTML parser on the texts of this module; any other text is taken
    for an empty body. *)
Definition NewDocumentFromReader (s : bytes) : result Node :=
  if bytes_eqb s report then Ok reportDoc
  else if bytes_eqb s blankReport then Ok blankDoc
  else Ok (document []).

Definition floats : list (bytes * float64) :=
  [ (B "50.5", 50.5%float); (B "50.75", 50.75%float);
    (B "50.25", 50.25%float); (B "1.5", 1.5%float);
    (B "12.5", 12.5%float); (B "-3", (-3)%float); (B "7", 7%float) ].

(** [strconv.ParseFloat] on the numbers of this module. *)
Definition ParseFloat (s : bytes) : option float64 :=
  match find (fun p => bytes_eqb (fst p) s) floats with
  | Some p => Some (snd p)
  | None => None
  end.

(** [Format(time.RFC3339)] of a date at midnight UTC. *)
Definition FormatRFC3339 (t : Time) : bytes :=
  Format t (B "2006-01-02") ++ B "T00:00:00Z".

(** An engine that refuses one fund and otherwise works. *)
Definition begin_fails (_ : Table) : option bytes := None.
Definition prepare_fails (_ : Table) : option bytes := None.
Definition exec_fails (_ : Table) (v : Values) : option bytes :=
  if bytes_eqb (v_name v) (B "Broken Fund") then Some (B "disk I/O error")
  else None.
Definition commit_fails (_ : Table) : option bytes := None.

(** A multipart reader that takes the body for the content of the file
    and finds the date 2024-03-01 in the form. *)
Definition ParseMultipartForm (r : Request) (_ : Z) : result Form :=
  match Body r with
  | [] => Err (B "request Content-Type isn't multipart/form-data")
  | _ :: _ =>
      Ok {| FormValues := fun key =>
              if bytes_eqb key (B "date") then [B "2024-03-01"] else [];
            FormFiles := fun key =>
              if bytes_eqb key (B "file")
              then [mkFileHeader (B "report.html") (Body r) None None]
              else [] |}
  end.

(** An encoder that writes the names, one on a line. *)
Definition jsonEncode (funds : list Fund) : result bytes :=
  Ok (flat_map (fun fund => Name fund ++ newline) funds).

Definition emptyTable : Table := mkTable [] 0.

Definition server : Server :=
  mkServer (mkConfig (B "secret") (B "8089") (B "./funds.db"))
           (mkDB emptyTable None).

Definition now : Time := mkTime 2024 3 2 0 0.

Definition upload : Request :=
  {| Header := fun key =>
       if bytes_eqb key (B "X-API-Key") then B "secret" else [];
     Method := B "POST";
     Body := escapedReport |}.

Definition anonymousUpload : Request :=
  {| Header := fun _ => []; Method := B "POST"; Body := escapedReport |}.

Definition fundNamed (name : string) : Fund :=
  {| Name := B name; LaunchDate := None; ValidityDate := None;
     Repurchase := None; Offer := None; NAV := Some 50.25%float;
     MTD := None; FYTD := None; CYTD := None; FY24 := None; FY23 := None;
     SinceInception := None; UploadDate := Date 2024 3 1 |}.

End Samples.

(* ================================================================= *)
(** ** Start-up: [getEnv] and the configuration of [main] *)

Module Startup.
Import GoStrings Types.

(** The environment of the process: [os.LookupEnv] on a key gives the
    value, which may be empty, when the variable is set. *)
Definition Environ := bytes -> option bytes.

(** [getEnv]. *)
Definition getEnv (environ : Environ) (key fallback : bytes) : bytes :=
  match environ key with
  | Some value => value
  | None => fallback
  end.

Definition defaultAPIKey : bytes := B "your-secret-api-key".

(** The [Config] literal of [main]. *)
Definition mainConfig (environ : Environ) : Config :=
  {| APIKey := getEnv environ (B "API_KEY") defaultAPIKey;
     Port := getEnv environ (B "PORT") (B "8089");
     DatabasePath := getEnv environ (B "DB_PATH") (B "./funds.db") |}.

(** The test of [main] that guards the warning about the default key. *)
Definition warnsDefaultKey (config : Config) : bool :=
  bytes_eqb (APIKey config) defaultAPIKey.

(** [addr] of [main]. *)
Definition listenAddr (config : Config) : bytes := B ":" ++ Port config.

End Startup.

(* ================================================================= *)
(** ** Notions used to state what the program does *)

Module Notions.
Import GoStrings GoTime Dom Types Main.

(** [Within c n]: the node [c] is [n] or lies in the subtree of [n]. *)
Inductive Within : Node -> Node -> Prop :=
| Within_self (n : Node) : Within n n
| Within_child (c k n : Node) :
    In k (Children n) -> Within c k -> Within c n.

(** [Inside c n]: [c] lies in the subtree of an element child of [n], which
    is where [Find] on [n] looks. *)
Definition Inside (c n : Node) : Prop :=
  exists k, In k (Children n) /\ isElement k = true /\ Within c k.

(** Rows with the ids [n], [n + 1], ... in this order. *)
Fixpoint numbered (n : Z) (values : list Values) : list (Z * Values) :=
  match values with
  | [] => []
  | v :: values' => (n, v) :: numbered (n + 1) values'
  end.

(** What the loop of [Parse] keeps true of its variables: the month is
    unset or a month, the year has at most four digits. *)
Definition fieldsOk (st : fields) : Prop :=
  (f_month st = -1 \/ 1 <= f_month st <= 12) /\ 0 <= f_year st <= 9999.

(** The numbers that two and four digits write. *)
Definition val2 (a b : ascii) : Z := digitVal a * 10 + digitVal b.

Definition val4 (a b c e : ascii) : Z :=
  ((digitVal a * 10 + digitVal b) * 10 + digitVal c) * 10 + digitVal e.

(** The layout of the [date] field of the upload form. *)
Definition dateLayout : bytes := B "2006-01-02".

(** The ten digits. *)
Definition digits : list ascii :=
  ["0"; "1"; "2"; "3"; "4"; "5"; "6"; "7"; "8"; "9"]%char.

(** The status codes that [uploadHandler] writes. *)
Definition uploadStatuses : list Z := [200; 400; 401; 405; 413; 500].

End Notions.

(* ================================================================= *)
(** ** More samples *)

Module MoreSamples.
Import GoStrings GoTime Dom Types Main Samples Startup.

(** A row of the sample report inside a cell of an outer row: the report
    as a nested table. *)
Definition outerRow : Node :=
  elem "tr" center
    [elem "td" [] [elem "table" [] [elem "tbody" [] [dataRow]]]].

Definition nestedDoc : Node :=
  document [elem "table" [] [elem "tbody" [] [outerRow]]].

(** An environment that sets [API_KEY] to the empty string. *)
Definition emptyKeyEnviron : Environ :=
  fun key => if bytes_eqb key (B "API_KEY") then Some [] else None.

(** An environment that sets nothing. *)
Definition noEnviron : Environ := fun _ => None.

(** An engine that never fails. *)
Definition exec_ok (_ : Table) (_ : Values) : option bytes := None.

(** An encoder that fails. *)
Definition jsonFails (_ : list Fund) : result bytes :=
  Err (B "json: unsupported value: NaN").

Definition batch : list Fund :=
  [fundNamed "Meezan Cash Fund"; fundNamed "Meezan Gold Fund"].

(** A snapshot with a NaN and a negative zero, which [parseFloat] returns
    for the cells [NaN] and [-0.00%]. *)
Definition oddFund : Fund :=
  {| Name := B "Meezan Odd Fund"; LaunchDate := None; ValidityDate := None;
     Repurchase := None; Offer := None; NAV := Some PrimFloat.nan;
     MTD := Some PrimFloat.neg_zero; FYTD := Some PrimFloat.infinity;
     CYTD := None; FY24 := None; FY23 := None;
     SinceInception := None; UploadDate := Date 2024 3 1 |}.

Definition oddBatch : list Fund := [fundNamed "Meezan Cash Fund"; oddFund].

(** [strconv.ParseFloat] on the numbers of [Samples] and on the words for
    the infinities and NaN. *)
Definition ParseFloat : bytes -> option float64 :=
  Strconv.ParseFloat Samples.ParseFloat.

(** 511 [div] elements, each inside the one before, none of them
    closed. *)
Definition deepDivs : bytes := List.concat (repeat (B "<div>") 511).

(** The HTML parser on the texts of [Samples] and on [deepDivs], which it
    gives up: with [html] and [body] around them the 511 elements take
    its stack of open elements past the 512 nodes that it allows. *)
Definition NewDocumentFromReader (s : bytes) : result Node :=
  if bytes_eqb s deepDivs
  then Err (B "html: open stack of elements exceeds 512 nodes")
  else Samples.NewDocumentFromReader s.

(** A table that holds two rows, the larger id below the counter. *)
Definition oldTable : Table :=
  mkTable [(3, fundValues FormatRFC3339 (fundNamed "Meezan Cash Fund"));
           (7, fundValues FormatRFC3339 (fundNamed "Meezan Gold Fund"))] 9.

End MoreSamples.

(* ================================================================= *)
(** ** Facts about the string functions *)

Module StringFacts.
Import GoStrings GoTime Main.

Lemma stripPrefix_app (p s : bytes) : stripPrefix p (p ++ s) = Some s.
Proof.
  induction p as [|c p IH]; simpl; [reflexivity|].
  now rewrite Ascii.eqb_refl.
Qed.

(** Every white space rune is dropped from the front of what it starts. *)
Lemma dropSpace_rune (r : N) (s : bytes) :
  In r White_Space -> dropSpace (EncodeRune r ++ s) = Some s.
Proof.
  intros H. unfold White_Space in H. simpl in H.
  repeat (destruct H as [<-|H]; [reflexivity|]). contradiction.
Qed.

Lemma dropSpaceRev_rune (r : N) (s : bytes) :
  In r White_Space -> dropSpaceRev (rev (EncodeRune r) ++ s) = Some s.
Proof.
  intros H. unfold White_Space in H. simpl in H.
  repeat (destruct H as [<-|H]; [reflexivity|]). contradiction.
Qed.

Lemma EncodeRune_length (r : N) :
  In r White_Space -> (1 <= List.length (EncodeRune r))%nat.
Proof.
  intros H. unfold White_Space in H. simpl in H.
  repeat (destruct H as [<-|H]; [simpl; lia|]). contradiction.
Qed.

(** A printable byte starts no white space rune, from either end. *)
Lemma dropSpace_graphic (c : ascii) (s : bytes) :
  isGraphic c = true -> dropSpace (c :: s) = None.
Proof.
  destruct c as [[] [] [] [] [] [] [] []]; intros H;
    solve [discriminate H | reflexivity].
Qed.

Lemma dropSpaceRev_graphic (c : ascii) (s : bytes) :
  isGraphic c = true -> dropSpaceRev (c :: s) = None.
Proof.
  destruct c as [[] [] [] [] [] [] [] []]; intros H;
    solve [discriminate H | reflexivity].
Qed.


Section TrimLoop.
Variable step : bytes -> option bytes.
Variable T : bytes -> Prop.
Hypothesis step_token : forall t s, T t -> step (t ++ s) = Some s.
Hypothesis token_length : forall t, T t -> (1 <= List.length t)%nat.

(** The loop removes a run of tokens and stops where [step] does. *)
Lemma trimLoop_tokens (toks : list bytes) (rest : bytes) :
  Forall T toks -> step rest = None ->
  forall fuel, (List.length (List.concat toks ++ rest) <= fuel)%nat ->
  trimLoop step fuel (List.concat toks ++ rest) = rest.
Proof.
  intros Htoks Hrest. induction Htoks as [|t toks Ht _ IH]; intros fuel Hfuel.
  - destruct fuel; simpl; [reflexivity|]. now rewrite Hrest.
  - simpl List.concat in *. rewrite <- app_assoc in *.
    pose proof (token_length t Ht) as Hlen.
    rewrite length_app in Hfuel.
    destruct fuel as [|fuel]; [lia|].
    simpl. rewrite (step_token _ _ Ht). apply IH. lia.
Qed.
End TrimLoop.

Lemma WhiteSpace_tokens (s : bytes) :
  WhiteSpace s -> exists toks, Forall spaceToken toks /\ s = List.concat toks.
Proof.
  induction 1 as [|r s Hr _ (toks & Htoks & ->)].
  - exists []. split; [constructor | reflexivity].
  - exists (EncodeRune r :: toks). split; [|reflexivity].
    constructor; [now exists r | assumption].
Qed.

Lemma rev_concat_tokens (toks : list bytes) :
  rev (List.concat toks) = List.concat (map (@rev ascii) (rev toks)).
Proof.
  induction toks as [|t toks IH]; [reflexivity|].
  simpl. rewrite rev_app_distr, IH, map_app, List.concat_app. simpl.
  now rewrite app_nil_r.
Qed.

Lemma spaceTokenRev_rev (toks : list bytes) :
  Forall spaceToken toks -> Forall spaceTokenRev (map (@rev ascii) (rev toks)).
Proof.
  intros H. apply Forall_forall. intros t Ht.
  apply in_map_iff in Ht as (t0 & <- & Ht0). apply in_rev in Ht0.
  rewrite Forall_forall in H. destruct (H _ Ht0) as (r & Hr & ->).
  now exists r.
Qed.

Lemma TrimLeftSpace_strip (ws rest : bytes) :
  WhiteSpace ws -> dropSpace rest = None -> TrimLeftSpace (ws ++ rest) = rest.
Proof.
  intros Hws Hrest. destruct (WhiteSpace_tokens _ Hws) as (toks & Htoks & ->).
  unfold TrimLeftSpace.
  apply (trimLoop_tokens dropSpace spaceToken); try assumption; try lia.
  - intros t s (r & Hr & ->). now apply dropSpace_rune.
  - intros t (r & Hr & ->). now apply EncodeRune_length.
Qed.

Lemma TrimRightSpace_strip (ws rest : bytes) :
  WhiteSpace ws -> dropSpaceRev (rev rest) = None ->
  TrimRightSpace (rest ++ ws) = rest.
Proof.
  intros Hws Hrest. destruct (WhiteSpace_tokens _ Hws) as (toks & Htoks & ->).
  unfold TrimRightSpace.
  rewrite <- (length_rev (rest ++ List.concat toks)).
  rewrite rev_app_distr, rev_concat_tokens.
  rewrite (trimLoop_tokens dropSpaceRev spaceTokenRev);
    try assumption; try lia.
  - apply rev_involutive.
  - intros t s (r & Hr & ->). now apply dropSpaceRev_rune.
  - intros t (r & Hr & ->). rewrite length_rev. now apply EncodeRune_length.
  - now apply spaceTokenRev_rev.
Qed.

Lemma rev_last (d : ascii) (s : bytes) :
  s <> [] -> rev s = last s d :: rev (removelast s).
Proof.
  intros Hs. rewrite (app_removelast_last d Hs) at 1.
  now rewrite rev_app_distr.
Qed.

(** [TrimSpace] on a text that has white space only around a core that
    starts and ends with a printable byte. *)
Lemma TrimSpace_strip (ws1 ws2 : bytes) (c : ascii) (mid : bytes) :
  WhiteSpace ws1 -> WhiteSpace ws2 ->
  isGraphic c = true -> isGraphic (last (c :: mid) c) = true ->
  TrimSpace (ws1 ++ (c :: mid) ++ ws2) = c :: mid.
Proof.
  intros H1 H2 Hc Hl. unfold TrimSpace.
  rewrite TrimLeftSpace_strip; [|assumption|now apply dropSpace_graphic].
  apply TrimRightSpace_strip; [assumption|].
  rewrite (rev_last c) by discriminate.
  now apply dropSpaceRev_graphic.
Qed.

Lemma TrimSpace_blank (ws : bytes) : WhiteSpace ws -> TrimSpace ws = [].
Proof.
  intros H. unfold TrimSpace.
  rewrite <- (app_nil_r ws). rewrite TrimLeftSpace_strip; auto.
Qed.

Lemma WhiteSpace_app (a b : bytes) :
  WhiteSpace a -> WhiteSpace b -> WhiteSpace (a ++ b).
Proof.
  induction 1 as [|r s Hr _ IH]; intros Hb; [assumption|].
  rewrite <- app_assoc. constructor; auto.
Qed.

(** [TrimRight] removes a run of cutset bytes and stops at another byte. *)
Lemma TrimRight_strip (cutset core marks : bytes) :
  Forall (fun c => inSet cutset c = true) marks ->
  (forall d, inSet cutset (last core d) = false) ->
  core <> [] ->
  TrimRight (core ++ marks) cutset = core.
Proof.
  intros Hm Hl Hc. unfold TrimRight. rewrite rev_app_distr.
  assert (Hdrop : forall t, dropWhile (inSet cutset) (rev marks ++ t)
                            = dropWhile (inSet cutset) t).
  { intros t. induction Hm as [|m marks Hm0 _ IH] in t |- *; [reflexivity|].
    simpl. rewrite <- app_assoc, IH. simpl. now rewrite Hm0. }
  rewrite Hdrop. rewrite (rev_last " "%char core) by assumption.
  cbn [dropWhile]. rewrite Hl.
  rewrite <- (rev_last " "%char core) by assumption.
  apply rev_involutive.
Qed.

Lemma TrimRight_all (cutset marks : bytes) :
  Forall (fun c => inSet cutset c = true) marks -> TrimRight marks cutset = [].
Proof.
  intros Hm. unfold TrimRight.
  assert (Hdrop : forall t, dropWhile (inSet cutset) (rev marks ++ t)
                            = dropWhile (inSet cutset) t).
  { intros t. induction Hm as [|m marks Hm0 _ IH] in t |- *; [reflexivity|].
    simpl. rewrite <- app_assoc, IH. simpl. now rewrite Hm0. }
  rewrite <- (app_nil_r (rev marks)), Hdrop. reflexivity.
Qed.

(** What [TrimRight] returns does not end with a byte of the cutset, and
    what it removed is a run of such bytes. *)
Lemma dropWhile_split (f : ascii -> bool) (s : bytes) :
  exists run, Forall (fun c => f c = true) run /\ s = run ++ dropWhile f s
              /\ (forall c t, dropWhile f s = c :: t -> f c = false).
Proof.
  induction s as [|c s (run & Hrun & Hs & Hstop)]; simpl.
  - exists []. repeat split; [constructor | discriminate].
  - destruct (f c) eqn:Hc.
    + exists (c :: run). repeat split; [now constructor | | assumption].
      simpl. now rewrite <- Hs.
    + exists []. repeat split; [constructor|]. intros c' t [= <- <-]. assumption.
Qed.

Lemma TrimRight_spec (s cutset : bytes) :
  exists run,
    Forall (fun c => inSet cutset c = true) run /\
    s = TrimRight s cutset ++ run /\
    (forall t c, TrimRight s cutset = t ++ [c] -> inSet cutset c = false).
Proof.
  destruct (dropWhile_split (inSet cutset) (rev s)) as (run & Hrun & Hs & Hstop).
  exists (rev run). unfold TrimRight. repeat split.
  - apply Forall_forall. intros c Hc. apply in_rev in Hc.
    rewrite Forall_forall in Hrun. auto.
  - rewrite <- rev_app_distr, <- Hs. symmetry. apply rev_involutive.
  - intros t c Ht. apply (Hstop c (rev t)).
    rewrite <- (rev_involutive (dropWhile _ _)), Ht, rev_app_distr. reflexivity.
Qed.

Lemma Contains_infix (a s b : bytes) : Contains (a ++ s ++ b) s = true.
Proof.
  induction a as [|c a IH].
  - simpl app. destruct s; simpl.
    + destruct b; reflexivity.
    + rewrite Ascii.eqb_refl, stripPrefix_app. reflexivity.
  - simpl app. simpl. rewrite IH. destruct (stripPrefix s (c :: a ++ s ++ b)); reflexivity.
Qed.

End StringFacts.

(* ================================================================= *)
(** ** Facts about [Parse] and [Format] on the layouts of [parseDate] *)

Module TimeFacts.
Import GoStrings GoTime Main.

Lemma parseLoop_S (fuel : nat) (layout value : bytes) (st : fields) :
  parseLoop (S fuel) layout value st =
  let '(prefix, std, suffix) := nextStdChunk layout in
  match skip value prefix with
  | None => None
  | Some value =>
      match std with
      | stdEnd => match value with [] => Some st | _ :: _ => None end
      | _ =>
          match parseStd std value st with
          | Some (value, st) => parseLoop fuel suffix value st
          | None => None
          end
      end
  end.
Proof. reflexivity. Qed.

Lemma skip_nil (value : bytes) : skip value [] = Some value.
Proof. reflexivity. Qed.

Lemma skip_space (rest : bytes) :
  skip (" "%char :: rest) (B " ") = Some (cutspace rest).
Proof. reflexivity. Qed.

Lemma skip_comma_space (rest : bytes) :
  skip (","%char :: " "%char :: rest) (B ", ") = Some (cutspace rest).
Proof. reflexivity. Qed.

Lemma cutspace_head (c : ascii) (rest : bytes) :
  isSpaceByte c = false -> cutspace (c :: rest) = c :: rest.
Proof. intros H. unfold cutspace. simpl. now rewrite H. Qed.

(** One turn of the loop on a layout that is known. *)
Ltac turn :=
  rewrite parseLoop_S;
  match goal with
  | |- context [nextStdChunk ?l] =>
      let c := eval vm_compute in (nextStdChunk l) in
      change (nextStdChunk l) with c
  end;
  cbv beta iota zeta; cbv [parseStd]; cbn [f_year f_month f_day].

Ltac enum H :=
  simpl in H; repeat (destruct H as [<-|H]); [..|contradiction].

Lemma in_range (lo n : nat) (x : Z) :
  Z.of_nat lo <= x < Z.of_nat lo + Z.of_nat n -> In x (map Z.of_nat (seq lo n)).
Proof.
  intros H. apply in_map_iff. exists (Z.to_nat x). split; [lia|].
  apply in_seq. lia.
Qed.

(** The names of a month: the short one is a prefix of the long one, both
    start with a letter, and [lookup] finds each of them in its table. *)
Lemma month_names (m : Z) :
  1 <= m <= 12 ->
  exists c t tail,
    firstn 3 (monthString m) = c :: t /\
    monthString m = c :: t ++ tail /\
    isDigitByte c = false /\ isSpaceByte c = false /\ isGraphic c = true /\
    (forall R, lookup shortMonthNames (c :: t ++ R) = Some (m - 1, R)) /\
    (forall R, lookup longMonthNames (c :: t ++ tail ++ R) = Some (m - 1, R)) /\
    (tail = [] /\ m = 5 \/
     exists e tl, tail = e :: tl /\ isSpaceByte e = false
                  /\ Ascii.eqb e ","%char = false).
Proof.
  intros Hm. assert (H : In m (map Z.of_nat (seq 1 12))) by (apply in_range; lia).
  exists (hd " "%char (monthString m)), (firstn 2 (tl (monthString m))),
         (skipn 3 (monthString m)).
  clear Hm. enum H.
  all: repeat split; try reflexivity.
  all: first [ left; split; reflexivity
             | right; eexists _, _; repeat split; reflexivity ].
Qed.

(** The day as [Format] writes it for the element ["2"]. *)
Lemma day_text (d : Z) :
  1 <= d <= 31 ->
  exists c t,
    appendInt d 0 = c :: t /\
    isDigitByte c = true /\ isSpaceByte c = false /\ isGraphic c = true /\
    (forall e R, isDigitByte e = false ->
       getnum (c :: t ++ e :: R) false = Some (d, e :: R)).
Proof.
  intros Hd. assert (H : In d (map Z.of_nat (seq 1 31))) by (apply in_range; lia).
  exists (hd " "%char (appendInt d 0)), (tl (appendInt d 0)).
  clear Hd. enum H.
  all: repeat split; try reflexivity.
  all: intros e R He; cbn; rewrite ?He; reflexivity.
Qed.

Lemma year_check :
  forallb (fun n =>
     let y := Z.of_nat n in
     match appendInt y 4 with
     | c :: t =>
         isDigitByte c && negb (isSpaceByte c) && isGraphic c
         && isGraphic (last (c :: t) c)
         && match getyear (c :: t) with
            | Some (y', []) => y' =? y
            | _ => false
            end
     | [] => false
     end) (seq 0 (Z.to_nat 10000)) = true.
Proof. vm_compute. reflexivity. Qed.

(** The year as [Format] writes it for the element ["2006"]. *)
Lemma year_text (y : Z) :
  0 <= y <= 9999 ->
  exists c t,
    appendInt y 4 = c :: t /\
    isDigitByte c = true /\ isSpaceByte c = false /\ isGraphic c = true /\
    isGraphic (last (c :: t) c) = true /\
    getyear (c :: t) = Some (y, []).
Proof.
  intros Hy. pose proof year_check as H. rewrite forallb_forall in H.
  specialize (H (Z.to_nat y)). rewrite Z2Nat.id in H by lia.
  cbv zeta in H. 
  assert (Hin : In (Z.to_nat y) (seq 0 (Z.to_nat 10000))).
  { apply in_seq. lia. }
  specialize (H Hin).
  destruct (appendInt y 4) as [|c t]; [discriminate|].
  exists c, t.
  repeat rewrite andb_true_iff in H. destruct H as ((((H1 & H2) & H3) & H4) & H5).
  apply negb_true_iff in H2.
  repeat split; try assumption.
  destruct (getyear (c :: t)) as [[y' [|]]|]; try discriminate.
  apply Z.eqb_eq in H5. now subst.
Qed.


Lemma skip_space_fail (e : ascii) (R : bytes) :
  isSpaceByte e = false -> skip (e :: R) (B " ") = None.
Proof. intros H. unfold skip. simpl. now rewrite H. Qed.

Lemma skip_comma_fail (e : ascii) (R : bytes) :
  Ascii.eqb e ","%char = false -> skip (e :: R) (B ", ") = None.
Proof. intros H. unfold skip. simpl. now rewrite H. Qed.

(** No month name starts with a digit. *)
Lemma lookup_digit (c : ascii) (R : bytes) :
  isDigitByte c = true ->
  lookup shortMonthNames (c :: R) = None /\ lookup longMonthNames (c :: R) = None.
Proof.
  destruct c as [[] [] [] [] [] [] [] []]; intros H;
    solve [discriminate H | split; reflexivity].
Qed.

Lemma getnum_not_digit (c : ascii) (R : bytes) (fixed : bool) :
  isDigitByte c = false -> getnum (c :: R) fixed = None.
Proof. intros H. unfold getnum. now rewrite H. Qed.

Ltac start :=
  unfold Parse;
  match goal with
  | |- context [S (List.length ?l)] =>
      let n := eval vm_compute in (S (List.length l)) in
      change (S (List.length l)) with n
  end.

Section Pieces.
(** A month name [M] that [lookup] finds in [tab], a day [dc :: dt] and a
    year [yc :: yt] as [Format] writes them. *)
Variables (M : bytes) (dc : ascii) (dt : bytes) (yc : ascii) (yt : bytes).
Variables (y m d : Z).
Hypothesis day_space : isSpaceByte dc = false.
Hypothesis day_num : forall e R, isDigitByte e = false ->
  getnum (dc :: dt ++ e :: R) false = Some (d, e :: R).
Hypothesis year_space : isSpaceByte yc = false.
Hypothesis year_num : getyear (yc :: yt) = Some (y, []).

Lemma Parse_short_month_first :
  (forall R, lookup shortMonthNames (M ++ R) = Some (m - 1, R)) ->
  Parse (B "Jan 2, 2006") (M ++ B " " ++ (dc :: dt) ++ B ", " ++ yc :: yt)
  = finish (mkFields y m d).
Proof.
  intros Hm. start. turn. rewrite skip_nil, Hm.
  turn. simpl app. rewrite skip_space, cutspace_head, day_num by easy.
  turn. rewrite skip_comma_space, cutspace_head, year_num by easy.
  turn. rewrite skip_nil. now rewrite Z.sub_add.
Qed.

Lemma Parse_long_month_first :
  (forall R, lookup longMonthNames (M ++ R) = Some (m - 1, R)) ->
  Parse (B "January 2, 2006") (M ++ B " " ++ (dc :: dt) ++ B ", " ++ yc :: yt)
  = finish (mkFields y m d).
Proof.
  intros Hm. start. turn. rewrite skip_nil, Hm.
  turn. simpl app. rewrite skip_space, cutspace_head, day_num by easy.
  turn. rewrite skip_comma_space, cutspace_head, year_num by easy.
  turn. rewrite skip_nil. now rewrite Z.sub_add.
Qed.

Lemma Parse_short_day_first (mc : ascii) (mt : bytes) :
  M = mc :: mt -> isSpaceByte mc = false ->
  (forall R, lookup shortMonthNames (M ++ R) = Some (m - 1, R)) ->
  Parse (B "2 Jan, 2006") ((dc :: dt) ++ B " " ++ M ++ B ", " ++ yc :: yt)
  = finish (mkFields y m d).
Proof.
  intros -> Hmc Hm. start. turn. simpl app. rewrite skip_nil, day_num by easy.
  turn. rewrite skip_space, cutspace_head by easy.
  change (mc :: mt ++ ?R) with ((mc :: mt) ++ R). rewrite Hm.
  turn. rewrite skip_comma_space, cutspace_head, year_num by easy.
  turn. rewrite skip_nil. now rewrite Z.sub_add.
Qed.

Lemma Parse_long_day_first (mc : ascii) (mt : bytes) :
  M = mc :: mt -> isSpaceByte mc = false ->
  (forall R, lookup longMonthNames (M ++ R) = Some (m - 1, R)) ->
  Parse (B "2 January, 2006") ((dc :: dt) ++ B " " ++ M ++ B ", " ++ yc :: yt)
  = finish (mkFields y m d).
Proof.
  intros -> Hmc Hm. start. turn. simpl app. rewrite skip_nil, day_num by easy.
  turn. rewrite skip_space, cutspace_head by easy.
  change (mc :: mt ++ ?R) with ((mc :: mt) ++ R). rewrite Hm.
  turn. rewrite skip_comma_space, cutspace_head, year_num by easy.
  turn. rewrite skip_nil. now rewrite Z.sub_add.
Qed.

(** The short layouts on a long month name that goes on after its first
    three letters. *)
Lemma Parse_short_month_first_long (e : ascii) (tl R : bytes) :
  (forall R, lookup shortMonthNames (M ++ R) = Some (m - 1, R)) ->
  isSpaceByte e = false ->
  Parse (B "Jan 2, 2006") (M ++ (e :: tl) ++ R) = None.
Proof.
  intros Hm He. start. turn. rewrite skip_nil, Hm.
  turn. simpl app. now rewrite skip_space_fail.
Qed.

Lemma Parse_short_day_first_long (mc e : ascii) (mt tl R : bytes) :
  M = mc :: mt -> isSpaceByte mc = false ->
  (forall R, lookup shortMonthNames (M ++ R) = Some (m - 1, R)) ->
  Ascii.eqb e ","%char = false ->
  Parse (B "2 Jan, 2006") ((dc :: dt) ++ B " " ++ M ++ (e :: tl) ++ R) = None.
Proof.
  intros -> Hmc Hm He. start. turn. simpl app. rewrite skip_nil, day_num by easy.
  turn. rewrite skip_space, cutspace_head by easy.
  change (mc :: mt ++ ?R) with ((mc :: mt) ++ R). rewrite Hm.
  turn. simpl app. now rewrite skip_comma_fail.
Qed.
End Pieces.

(** A layout that starts with a month name, on a text that starts with a
    digit; and the layout that starts with the day, on a text that does
    not. *)
Lemma Parse_short_month_first_digit (c : ascii) (t R : bytes) :
  isDigitByte c = true -> Parse (B "Jan 2, 2006") ((c :: t) ++ R) = None.
Proof.
  intros H. start. turn. rewrite skip_nil. simpl app.
  now rewrite (proj1 (lookup_digit c (t ++ R) H)).
Qed.

Lemma Parse_long_month_first_digit (c : ascii) (t R : bytes) :
  isDigitByte c = true -> Parse (B "January 2, 2006") ((c :: t) ++ R) = None.
Proof.
  intros H. start. turn. rewrite skip_nil. simpl app.
  now rewrite (proj2 (lookup_digit c (t ++ R) H)).
Qed.

Lemma Parse_short_day_first_letter (c : ascii) (t R : bytes) :
  isDigitByte c = false -> Parse (B "2 Jan, 2006") ((c :: t) ++ R) = None.
Proof.
  intros H. start. turn. rewrite skip_nil.
  simpl app. now rewrite getnum_not_digit.
Qed.

Lemma finish_valid (y m d : Z) :
  validDate y m d -> finish (mkFields y m d) = Some (Date y m d).
Proof.
  intros (Hy & Hm & Hd). unfold finish. cbn [f_year f_month f_day].
  replace (m <? 0) with false by lia. replace (d <? 0) with false by lia.
  replace (d <? 1) with false by lia.
  replace (daysIn m y <? d) with false by lia. reflexivity.
Qed.

End TimeFacts.

(* ================================================================= *)
(** ** The field normalizers *)

Module NormalizerProofs.
Import GoStrings GoTime Types Strconv Main StringFacts TimeFacts.

Lemma last_indep (d d' : ascii) (s : bytes) : s <> [] -> last s d = last s d'.
Proof.
  induction s as [|c [|c' s] IH]; intros Hs; [contradiction| reflexivity |].
  change (last (c' :: s) d = last (c' :: s) d'). apply IH. discriminate.
Qed.

Lemma last_app_cons (a : bytes) (c : ascii) (s : bytes) (d : ascii) :
  last (a ++ c :: s) d = last (c :: s) c.
Proof.
  induction a as [|x a IH].
  - apply last_indep. discriminate.
  - simpl app. rewrite <- IH. destruct a; reflexivity.
Qed.

Lemma TrimSpace_graphic (c : ascii) (mid : bytes) :
  isGraphic c = true -> isGraphic (last (c :: mid) c) = true ->
  TrimSpace (c :: mid) = c :: mid.
Proof.
  intros Hc Hl.
  rewrite <- (TrimSpace_strip [] [] c mid) at 2; try assumption; try constructor.
  now rewrite app_nil_r.
Qed.

Lemma inSet_markers (c : ascii) : inSet (B "*%") c = isMarker c.
Proof. unfold inSet, isMarker. simpl. now rewrite orb_false_r. Qed.

Lemma isMarker_graphic (c : ascii) : isMarker c = true -> isGraphic c = true.
Proof.
  unfold isMarker. intros [H|H]%orb_true_iff; apply Ascii.eqb_eq in H;
    subst; reflexivity.
Qed.

Section ParseFloat.
Variable ParseFloat : bytes -> option float64.
Local Abbreviation parseFloat := (Main.parseFloat ParseFloat).

(** What the two trimmings of [parseFloat] leave of a number-like text
    with white space around it and markers after it, and of the markers
    alone. *)
Lemma parseFloat_strip (ws1 core marks ws2 : bytes) :
  WhiteSpace ws1 -> WhiteSpace ws2 ->
  Forall (fun c => isMarker c = true) marks ->
  numberLike core = true ->
  parseFloat (ws1 ++ core ++ marks ++ ws2) = ParseFloat core
  /\ parseFloat (ws1 ++ marks ++ ws2) = None.
Proof.
  intros Hws1 Hws2 Hmarks Hcore.
  assert (Hset : Forall (fun c => inSet (B "*%") c = true) marks).
  { eapply Forall_impl; [|exact Hmarks]. intros c Hc.
    now rewrite inSet_markers. }
  split.
  - destruct core as [|c core]; [discriminate|].
    cbn [numberLike] in Hcore.
    apply andb_true_iff in Hcore as [Hcore Hnm].
    apply andb_true_iff in Hcore as [Hc Hl].
    apply negb_true_iff in Hnm.
    assert (Htrim : TrimSpace (ws1 ++ (c :: core) ++ marks ++ ws2)
                    = (c :: core) ++ marks).
    { rewrite (app_assoc (c :: core) marks ws2).
      change ((c :: core) ++ marks) with (c :: core ++ marks).
      apply TrimSpace_strip; try assumption.
      destruct marks as [|k marks].
      - now rewrite app_nil_r.
        - change (c :: core ++ k :: marks) with ((c :: core) ++ k :: marks).
        rewrite last_app_cons, (last_indep k c) by discriminate.
        apply isMarker_graphic.
        rewrite Forall_forall in Hmarks. apply Hmarks.
        rewrite (last_indep c k) by discriminate.
        destruct (exists_last (l := k :: marks)) as (l' & a & Hl');
          [discriminate|].
        rewrite Hl', last_last. apply in_or_app. right. now left. }
    unfold Main.parseFloat. rewrite Htrim.
    rewrite TrimRight_strip; [reflexivity | assumption | | discriminate].
    intros d. rewrite inSet_markers, (last_indep d c) by discriminate.
    assumption.
  - unfold Main.parseFloat.
    destruct marks as [|k marks].
    + rewrite TrimSpace_blank by (now apply WhiteSpace_app). reflexivity.
    + assert (Hk : isMarker k = true) by (now inversion Hmarks).
      rewrite TrimSpace_strip; try assumption.
      * now rewrite TrimRight_all.
      * now apply isMarker_graphic.
      * apply isMarker_graphic.
        rewrite Forall_forall in Hmarks. apply Hmarks.
        destruct (exists_last (l := k :: marks)) as (l' & a & Hl');
          [discriminate|].
        rewrite Hl', last_last. apply in_or_app. right. now left.
Qed.

Lemma parseFloat_nil (text : bytes) :
  parseFloat text = None <->
  TrimRight (TrimSpace text) (B "*%") = []
  \/ ParseFloat (TrimRight (TrimSpace text) (B "*%")) = None.
Proof.
  unfold Main.parseFloat.
  destruct (TrimRight (TrimSpace text) (B "*%")) eqn:E; split.
  - now left.
  - reflexivity.
  - now right.
  - intros [H|H]; [discriminate | exact H].
Qed.
End ParseFloat.

(** A byte that [lower] sends to a lower case letter is a letter. *)
Lemma lower_letter (c : ascii) :
  (97 <=? code (lower c)) && (code (lower c) <=? 122) = true ->
  isGraphic c = true /\ isMarker c = false.
Proof.
  destruct c as [[] [] [] [] [] [] [] []]; vm_compute; intros H;
    try discriminate H; split; reflexivity.
Qed.

Lemma digit_no_letter (d : ascii) :
  isDigit d || Ascii.eqb d "." = true ->
  Ascii.eqb (lower d) "i" = false
  /\ Ascii.eqb d "i" || Ascii.eqb d "I" = false
  /\ Ascii.eqb d "n" || Ascii.eqb d "N" = false
  /\ Ascii.eqb d "+" || Ascii.eqb d "-" = false.
Proof.
  destruct d as [[] [] [] [] [] [] [] []]; vm_compute; intros H;
    try discriminate H; repeat split.
Qed.

Lemma commonPrefixLen_le (s prefix : bytes) :
  (commonPrefixLenIgnoreCase s prefix <= List.length s)%nat.
Proof.
  revert prefix. induction s as [|c s IH]; intros [|p prefix]; simpl; try lia.
  destruct (Ascii.eqb (lower c) p); [|lia].
  specialize (IH prefix). lia.
Qed.

(** A text that is all of it a prefix of lower case letters, the case
    ignored, is made of letters. *)
Lemma commonPrefixLen_full (s prefix : bytes) :
  Forall (fun p => (97 <=? code p) && (code p <=? 122) = true) prefix ->
  commonPrefixLenIgnoreCase s prefix = List.length s ->
  Forall (fun c => isGraphic c = true /\ isMarker c = false) s.
Proof.
  revert prefix. induction s as [|c s IH]; intros prefix Hp H; [constructor|].
  destruct prefix as [|p prefix]; [discriminate H|].
  simpl in H. destruct (Ascii.eqb_spec (lower c) p) as [E|E]; [|discriminate H].
  inversion Hp as [|? ? Hp1 Hp2]. subst. constructor.
  - now apply lower_letter.
  - apply (IH prefix); [assumption | now injection H].
Qed.

Lemma infinityLen_full (s : bytes) :
  infinityLen s = Some (List.length s) ->
  s <> [] /\ Forall (fun c => isGraphic c = true /\ isMarker c = false) s.
Proof.
  unfold infinityLen. intros H.
  pose proof (commonPrefixLen_le s (B "infinity")) as Hle.
  set (m := commonPrefixLenIgnoreCase s (B "infinity")) in *.
  assert (Hm : m = List.length s /\ (3 <= m)%nat).
  { destruct (Nat.ltb_spec 3 m) as [H3|H3];
      destruct (Nat.ltb_spec m 8) as [H8|H8]; cbn [andb] in H.
    - change ((3 =? 3)%nat || (3 =? 8)%nat) with true in H. cbv iota in H.
      injection H as H. lia.
    - destruct (Nat.eqb_spec m 3); destruct (Nat.eqb_spec m 8);
        cbn [orb] in H; cbv iota in H; try discriminate H;
        injection H as H; lia.
    - destruct (Nat.eqb_spec m 3); destruct (Nat.eqb_spec m 8);
        cbn [orb] in H; cbv iota in H; try discriminate H;
        injection H as H; lia.
    - lia. }
  destruct Hm as [Hm H3]. split.
  - intros ->. simpl in Hm. lia.
  - apply (commonPrefixLen_full s (B "infinity")); [|exact Hm].
    repeat constructor.
Qed.

Lemma Forall_last (A : Type) (P : A -> Prop) (s : list A) (d : A) :
  Forall P s -> s <> [] -> P (last s d).
Proof.
  intros H Hs. destruct (exists_last Hs) as (l & a & ->).
  rewrite last_last. rewrite Forall_forall in H. apply H.
  apply in_or_app. right. now left.
Qed.

(** A text that [special] reads to its end starts and ends the way a
    written number does. *)
Lemma special_numberLike (word : bytes) (v : float64) :
  special word = Some (v, List.length word) -> numberLike word = true.
Proof.
  destruct word as [|c rest]; [discriminate|].
  assert (Hlast : forall s : bytes,
            s <> [] ->
            Forall (fun c => isGraphic c = true /\ isMarker c = false) s ->
            forall d, isGraphic (last s d) = true
                      /\ isMarker (last s d) = false).
  { intros s Hs Hall d. now apply (Forall_last _ _ s d Hall). }
  assert (Hsign : forall f : float64,
            isGraphic c = true ->
            match infinityLen rest with
            | Some n => Some (f, S n)
            | None => None
            end = Some (v, List.length (c :: rest)) ->
            numberLike (c :: rest) = true).
  { intros f Hc H. destruct (infinityLen rest) as [n|] eqn:E; [|discriminate H].
    injection H as _ ->.
    apply infinityLen_full in E as [Hne Hall].
    cbn [numberLike]. rewrite Hc.
    destruct rest as [|r rest]; [contradiction|].
    change (last (c :: r :: rest) c) with (last (r :: rest) c).
    destruct (Hlast (r :: rest) Hne Hall c) as [-> ->]. reflexivity. }
  assert (Hword : Forall (fun c => isGraphic c = true /\ isMarker c = false)
                    (c :: rest) ->
                  numberLike (c :: rest) = true).
  { intros Hall. cbn [numberLike].
    destruct (Hlast (c :: rest) ltac:(discriminate) Hall c) as [-> ->].
    destruct (Forall_inv Hall) as [-> _]. reflexivity. }
  unfold special.
  destruct (Ascii.eqb_spec c "+") as [->|_]; [now apply Hsign|].
  destruct (Ascii.eqb_spec c "-") as [->|_]; [now apply Hsign|].
  destruct (Ascii.eqb c "i" || Ascii.eqb c "I").
  - destruct (infinityLen (c :: rest)) as [n|] eqn:E; [|discriminate].
    intros [= _ ->]. apply Hword. now apply infinityLen_full in E.
  - destruct (Ascii.eqb c "n" || Ascii.eqb c "N"); [|discriminate].
    destruct (Nat.eqb_spec (commonPrefixLenIgnoreCase (c :: rest) (B "nan")) 3)
      as [E|E]; [|discriminate].
    intros [= _ Hn]. apply Hword.
    apply (commonPrefixLen_full _ (B "nan")); [repeat constructor|].
    rewrite E. cbn [List.length]. now rewrite <- Hn.
Qed.

(** [special] reads no decimal number. *)
Lemma special_decimal (core : bytes) :
  decimalNumber core = true -> special core = None.
Proof.
  destruct core as [|c rest]; [reflexivity|].
  unfold decimalNumber.
  destruct (Ascii.eqb c "+" || Ascii.eqb c "-") eqn:Hs; intros H.
  - apply andb_true_iff in H as [H _]. apply andb_true_iff in H as [Hall Hex].
    destruct rest as [|d rest]; [discriminate Hex|].
    cbn [forallb] in Hall. apply andb_true_iff in Hall as [Hd _].
    apply digit_no_letter in Hd as (Hi & _).
    assert (E : infinityLen (d :: rest) = None).
    { unfold infinityLen. cbn [commonPrefixLenIgnoreCase B list_ascii_of_string].
      now rewrite Hi. }
    unfold special. rewrite E.
    destruct (Ascii.eqb c "+"); [reflexivity|].
    destruct (Ascii.eqb c "-"); [reflexivity | discriminate Hs].
  - apply andb_true_iff in H as [H _]. apply andb_true_iff in H as [Hall _].
    cbn [forallb] in Hall. apply andb_true_iff in Hall as [Hc _].
    apply digit_no_letter in Hc as (_ & Hi & Hn & _).
    apply orb_false_iff in Hs as [Hplus Hminus].
    unfold special. now rewrite Hplus, Hminus, Hi, Hn.
Qed.

Section Special.
Variable number : bytes -> option float64.
Local Abbreviation ParseFloat := (Strconv.ParseFloat number).
Local Abbreviation parseFloat := (Main.parseFloat (Strconv.ParseFloat number)).

(** Claim C3, amended.  On a number-like text with white space around it
    and markers ([*], [%]) after it, [parseFloat] returns what
    [strconv.ParseFloat] returns on the text alone, and on a decimal
    number that is the number read.  It returns [nil] when nothing is
    left between the white space and the markers, and in all exactly when
    what is left after the stripping is empty or is refused by
    [strconv.ParseFloat].  That is less than all that is no decimal
    number: for a word that [strconv.ParseFloat] reads as an infinity or
    as NaN ([inf], [infinity], [nan], in any case, the infinities with a
    sign or without), [parseFloat] returns that value. *)
Theorem parseFloat_strips_markers (ws1 core marks ws2 : bytes) :
  WhiteSpace ws1 -> WhiteSpace ws2 ->
  Forall (fun c => isMarker c = true) marks ->
  numberLike core = true ->
  parseFloat (ws1 ++ core ++ marks ++ ws2) = ParseFloat core
  /\ (decimalNumber core = true ->
      parseFloat (ws1 ++ core ++ marks ++ ws2) = number core)
  /\ parseFloat (ws1 ++ marks ++ ws2) = None
  /\ (forall text,
        parseFloat text = None <->
        TrimRight (TrimSpace text) (B "*%") = []
        \/ ParseFloat (TrimRight (TrimSpace text) (B "*%")) = None)
  /\ (forall word v,
        special word = Some (v, List.length word) ->
        parseFloat (ws1 ++ word ++ marks ++ ws2) = Some v).
Proof.
  intros Hws1 Hws2 Hmarks Hcore.
  destruct (parseFloat_strip ParseFloat ws1 core marks ws2 Hws1 Hws2 Hmarks
              Hcore) as [Hnum Hnil].
  split; [exact Hnum|]. split; [|split; [exact Hnil|split]].
  - intros Hdec. rewrite Hnum. unfold Strconv.ParseFloat.
    now rewrite (special_decimal core Hdec).
  - apply parseFloat_nil.
  - intros word v Hword.
    destruct (parseFloat_strip ParseFloat ws1 word marks ws2 Hws1 Hws2 Hmarks
                (special_numberLike word v Hword)) as [-> _].
    unfold Strconv.ParseFloat. now rewrite Hword, Nat.eqb_refl.
Qed.
End Special.

(** What [Format] writes for the four layouts of [parseDate]. *)
Lemma Format_short_month_first (y m d : Z) :
  Format (Date y m d) (B "Jan 2, 2006")
  = firstn 3 (monthString m) ++ B " " ++ appendInt d 0 ++ B ", " ++ appendInt y 4.
Proof. rewrite <- (app_nil_r (appendInt y 4)). reflexivity. Qed.

Lemma Format_short_day_first (y m d : Z) :
  Format (Date y m d) (B "2 Jan, 2006")
  = appendInt d 0 ++ B " " ++ firstn 3 (monthString m) ++ B ", " ++ appendInt y 4.
Proof. rewrite <- (app_nil_r (appendInt y 4)). reflexivity. Qed.

Lemma Format_long_month_first (y m d : Z) :
  Format (Date y m d) (B "January 2, 2006")
  = monthString m ++ B " " ++ appendInt d 0 ++ B ", " ++ appendInt y 4.
Proof. rewrite <- (app_nil_r (appendInt y 4)). reflexivity. Qed.

Lemma Format_long_day_first (y m d : Z) :
  Format (Date y m d) (B "2 January, 2006")
  = appendInt d 0 ++ B " " ++ monthString m ++ B ", " ++ appendInt y 4.
Proof. rewrite <- (app_nil_r (appendInt y 4)). reflexivity. Qed.

(** The loop returns what the first layout that parses returns. *)
Lemma parseDateLoop_first (pre : list bytes) (layout : bytes)
    (post : list bytes) (date : bytes) (t : Time) :
  Forall (fun l => Parse l date = None) pre ->
  Parse layout date = Some t ->
  parseDateLoop (pre ++ layout :: post) date = Some t.
Proof.
  intros Hpre Hl. induction Hpre as [|l pre Hnone _ IH]; simpl.
  - now rewrite Hl.
  - now rewrite Hnone.
Qed.

Lemma Parse_empty (layout : bytes) : In layout formats -> Parse layout [] = None.
Proof.
  intros H. unfold formats in H. simpl in H.
  repeat (destruct H as [<-|H]; [reflexivity|]). contradiction.
Qed.

(** [parseDate] on a text that [TrimSpace] leaves as it is. *)
Lemma parseDate_trimmed (c : ascii) (mid text : bytes) :
  text = c :: mid ->
  isGraphic c = true -> isGraphic (last (c :: mid) c) = true ->
  parseDate text =
  match Parse (B "Jan 2, 2006") text with
  | Some t => Some t
  | None =>
      match Parse (B "2 Jan, 2006") text with
      | Some t => Some t
      | None =>
          match Parse (B "January 2, 2006") text with
          | Some t => Some t
          | None =>
              match Parse (B "2 January, 2006") text with
              | Some t => Some t
              | None => None
              end
          end
      end
  end.
Proof.
  intros -> Hc Hl. unfold parseDate. rewrite TrimSpace_graphic by assumption.
  reflexivity.
Qed.

Ltac trimmed Hlast :=
  match goal with
  | |- context [parseDate ((?c :: ?t) ++ ?R)] =>
      rewrite (parseDate_trimmed c (t ++ R));
      [| reflexivity | assumption
       | rewrite ?app_comm_cons, ?app_assoc; apply Hlast]
  end.

(** Claim C4.  A civil date written in any of the four layouts of
    [parseDate] (["Jan 2, 2006"], ["2 Jan, 2006"], ["January 2, 2006"],
    ["2 January, 2006"]) is read back by [parseDate] as the same date.
    The layouts are tried in this order and the first one that parses
    gives the result; a text that is empty or all white space gives
    [nil]. *)
Theorem parseDate_round_trip (y m d : Z) (layout : bytes) :
  validDate y m d ->
  In layout formats ->
  parseDate (Format (Date y m d) layout) = Some (Date y m d)
  /\ formats = [B "Jan 2, 2006"; B "2 Jan, 2006";
                B "January 2, 2006"; B "2 January, 2006"]
  /\ (forall text pre first post t,
        formats = pre ++ first :: post ->
        Forall (fun l => Parse l (TrimSpace text) = None) pre ->
        Parse first (TrimSpace text) = Some t ->
        parseDate text = Some t)
  /\ (forall ws, WhiteSpace ws -> parseDate ws = None).
Proof.
  intros Hvalid Hin. split; [|split; [reflexivity|split]].
  - pose proof (finish_valid y m d Hvalid) as Hfin.
    destruct Hvalid as (Hy & Hm & Hd).
    assert (Hd31 : 1 <= d <= 31).
    { split; [lia|]. unfold daysIn in Hd.
      repeat match type of Hd with
             | context [if ?b then _ else _] => destruct b
             end; lia. }
    destruct (month_names m Hm)
      as (mc & mt & tail & Hshort & Hlong & Hmd & Hms & Hmg & Hls & Hll & Htail).
    destruct (day_text d Hd31) as (dc & dt & Hday & Hdd & Hds & Hdg & Hnum).
    destruct (year_text y Hy) as (yc & yt & Hyear & Hyd & Hys & Hyg & Hyl & Hget).
    assert (Hlast : forall a x, isGraphic (last (a ++ yc :: yt) x) = true)
      by (intros a x; now rewrite last_app_cons).
    unfold formats in Hin. simpl in Hin.
    destruct Hin as [<-|[<-|[<-|[<-|[]]]]].
    + rewrite Format_short_month_first, Hshort, Hday, Hyear.
      trimmed Hlast.
      rewrite (Parse_short_month_first _ _ _ _ _ y m d) by assumption.
      now rewrite Hfin.
    + rewrite Format_short_day_first, Hshort, Hday, Hyear.
      trimmed Hlast.
      rewrite Parse_short_month_first_digit by assumption.
      rewrite (Parse_short_day_first _ _ _ _ _ y m d) with (mc := mc) (mt := mt);
        try assumption; try reflexivity.
      now rewrite Hfin.
    + rewrite Format_long_month_first, Hlong, Hday, Hyear.
      trimmed Hlast.
      change (mc :: mt ++ tail) with ((mc :: mt) ++ tail).
      destruct Htail as [[-> _]|(e & tl & -> & Hes & Hec)].
      * rewrite app_nil_r.
        rewrite (Parse_short_month_first _ _ _ _ _ y m d) by assumption.
        now rewrite Hfin.
      * rewrite <- (app_assoc (mc :: mt) (e :: tl)).
        rewrite (Parse_short_month_first_long (mc :: mt) m) by assumption.
        rewrite Parse_short_day_first_letter by assumption.
        rewrite (app_assoc (mc :: mt) (e :: tl)).
        rewrite (Parse_long_month_first _ _ _ _ _ y m d); try assumption.
        -- now rewrite Hfin.
        -- intros R. rewrite <- app_assoc. apply Hll.
    + rewrite Format_long_day_first, Hlong, Hday, Hyear.
      trimmed Hlast.
      change (mc :: mt ++ tail) with ((mc :: mt) ++ tail).
      rewrite Parse_short_month_first_digit by assumption.
      destruct Htail as [[-> _]|(e & tl & -> & Hes & Hec)].
      * rewrite app_nil_r.
        rewrite (Parse_short_day_first _ _ _ _ _ y m d) with (mc := mc) (mt := mt);
          try assumption; try reflexivity.
        now rewrite Hfin.
      * rewrite <- (app_assoc (mc :: mt) (e :: tl)).
        rewrite (Parse_short_day_first_long (mc :: mt) dc dt m d)
          with (mc := mc) (mt := mt); try assumption; try reflexivity.
        rewrite Parse_long_month_first_digit by assumption.
        rewrite (app_assoc (mc :: mt) (e :: tl)).
        rewrite (Parse_long_day_first _ _ _ _ _ y m d)
          with (mc := mc) (mt := mt ++ e :: tl);
          try assumption; try reflexivity.
        -- now rewrite Hfin.
        -- intros R. rewrite <- app_assoc. apply Hll.
  - intros text pre first post t Hformats Hpre Hfirst.
    unfold parseDate.
    destruct (TrimSpace text) as [|c mid] eqn:E.
    + rewrite Parse_empty in Hfirst; [discriminate|].
      rewrite Hformats. apply in_or_app. right. now left.
    + rewrite Hformats. now apply parseDateLoop_first.
  - intros ws Hws. unfold parseDate. now rewrite TrimSpace_blank.
Qed.

End NormalizerProofs.

(* ================================================================= *)
(** ** The table extractor *)

Module ExtractProofs.
Import GoStrings GoTime Dom Types Main StringFacts.

Section Extract.
Variable ParseFloat : bytes -> option float64.
Variable NewDocumentFromReader : bytes -> result Node.

Local Abbreviation rowFund := (Main.rowFund ParseFloat).
Local Abbreviation eachRow := (Main.eachRow ParseFloat).
Local Abbreviation parseHTML :=
  (Main.parseHTML ParseFloat NewDocumentFromReader).

(** The snapshot of a row. *)
Local Abbreviation snapshot uploadDate :=
  (fun row => rowFund uploadDate (Find row sel_td)).

Lemma eachRow_short (uploadDate : Time) (funds : list Fund) (row : Node) :
  (List.length (Find row sel_td) < 12)%nat ->
  eachRow uploadDate funds row = funds.
Proof.
  intros H. unfold Main.eachRow.
  now replace (List.length (Find row sel_td) <? 12)%nat with true
    by (symmetry; apply Nat.ltb_lt; exact H).
Qed.

Lemma eachRow_qualifies (uploadDate : Time) (funds : list Fund) (row : Node) :
  eachRow uploadDate funds row
  = funds ++ (if qualifies row then [snapshot uploadDate row] else []).
Proof.
  unfold Main.eachRow, qualifies.
  destruct (Nat.ltb_spec (List.length (Find row sel_td)) 12) as [H|H].
  - replace (12 <=? List.length (Find row sel_td))%nat with false
      by (symmetry; apply Nat.leb_gt; exact H).
    now rewrite app_nil_r.
  - now replace (12 <=? List.length (Find row sel_td))%nat with true
      by (symmetry; apply Nat.leb_le; exact H).
Qed.

(** What [Each] leaves in [funds]: the snapshots of the qualifying
    rows, appended in the order of the rows. *)
Lemma each_rows (uploadDate : Time) (rows : list Node) (funds : list Fund) :
  fold_left (eachRow uploadDate) rows funds
  = funds ++ map (snapshot uploadDate) (filter qualifies rows).
Proof.
  revert funds. induction rows as [|row rows IH]; intros funds; simpl.
  - now rewrite app_nil_r.
  - rewrite IH, eachRow_qualifies.
    destruct (qualifies row); simpl.
    + now rewrite <- app_assoc.
    + now rewrite app_nil_r.
Qed.

Lemma parseHTML_document (htmlContent : bytes) (uploadDate : Time)
    (doc : Node) :
  NewDocumentFromReader htmlContent = Ok doc ->
  parseHTML htmlContent uploadDate
  = Ok (map (snapshot uploadDate) (qualifyingRows doc)).
Proof.
  intros H. unfold Main.parseHTML. rewrite H.
  now rewrite each_rows.
Qed.

(** Claim C1.  On a document that the HTML parser accepts and
    that has K qualifying rows (candidate rows, matched by
    [tr[align='center']], with at least twelve [td] descendants),
    [parseHTML] returns K snapshots: the snapshots of the qualifying
    rows in document order, each with the upload date it was given,
    whatever the cells hold. *)
Theorem parseHTML_qualifying_rows (htmlContent : bytes) (uploadDate : Time)
    (doc : Node) :
  NewDocumentFromReader htmlContent = Ok doc ->
  exists funds,
    parseHTML htmlContent uploadDate = Ok funds
    /\ List.length funds = List.length (qualifyingRows doc)
    /\ funds = map (snapshot uploadDate) (qualifyingRows doc)
    /\ Forall (fun fund => UploadDate fund = uploadDate) funds.
Proof.
  intros H. exists (map (snapshot uploadDate) (qualifyingRows doc)).
  split; [now apply parseHTML_document|].
  split; [apply length_map|]. split; [reflexivity|].
  apply Forall_forall. intros fund Hin.
  apply in_map_iff in Hin as (row & <- & _). reflexivity.
Qed.

(** Claim C5.  A candidate row with fewer than twelve columns is
    skipped without an error: the callback leaves [funds] as it was,
    the result is the same as if the row were not in the document, and
    every snapshot returned is the snapshot of a candidate row with at
    least twelve columns. *)
Theorem parseHTML_skips_short_rows (htmlContent : bytes) (uploadDate : Time)
    (doc : Node) :
  NewDocumentFromReader htmlContent = Ok doc ->
  exists funds,
    parseHTML htmlContent uploadDate = Ok funds
    /\ (forall fund, In fund funds ->
          exists row,
            In row (candidateRows doc)
            /\ (12 <= List.length (Find row sel_td))%nat
            /\ fund = snapshot uploadDate row)
    /\ (forall before row after,
          candidateRows doc = before ++ row :: after ->
          (List.length (Find row sel_td) < 12)%nat ->
          funds = fold_left (eachRow uploadDate) (before ++ after) [])
    /\ (forall acc row,
          (List.length (Find row sel_td) < 12)%nat ->
          eachRow uploadDate acc row = acc).
Proof.
  intros H. exists (map (snapshot uploadDate) (qualifyingRows doc)).
  split; [now apply parseHTML_document|].
  split; [|split].
  - intros fund Hin. apply in_map_iff in Hin as (row & <- & Hrow).
    apply filter_In in Hrow as [Hrow Hq]. exists row.
    split; [exact Hrow|]. split; [|reflexivity].
    now apply Nat.leb_le.
  - intros before row after Hrows Hshort.
    rewrite each_rows. simpl. unfold qualifyingRows. rewrite Hrows.
    rewrite !filter_app. simpl.
    now replace (qualifies row) with false
      by (symmetry; apply Nat.leb_gt; exact Hshort).
  - intros acc row. apply eachRow_short.
Qed.

(** Claim C6, amended.  The name of every snapshot is the trimmed text of
    the first cell of its row with the asterisks at its end removed:
    the cell text is the name followed by asterisks only, and the name
    does not end with an asterisk.  The name may be empty. *)
Theorem parseHTML_name_stripped (htmlContent : bytes) (uploadDate : Time)
    (doc : Node) :
  NewDocumentFromReader htmlContent = Ok doc ->
  exists funds,
    parseHTML htmlContent uploadDate = Ok funds
    /\ forall fund, In fund funds ->
         exists row stars,
           In row (qualifyingRows doc)
           /\ Forall (fun c => c = "*"%char) stars
           /\ TrimSpace (Text (Eq (Find row sel_td) 0)) = Name fund ++ stars
           /\ (forall t, Name fund <> t ++ ["*"%char]).
Proof.
  intros H. exists (map (snapshot uploadDate) (qualifyingRows doc)).
  split; [now apply parseHTML_document|].
  intros fund Hin. apply in_map_iff in Hin as (row & <- & Hrow).
  cbn [Name Main.rowFund]. unfold cleanText.
  destruct (TrimRight_spec (TrimSpace (Text (Eq (Find row sel_td) 0))) (B "*"))
    as (stars & Hstars & Hsplit & Hstop).
  exists row, stars. split; [exact Hrow|]. split; [|split].
  - eapply Forall_impl; [|exact Hstars]. intros c Hc.
    unfold inSet in Hc. simpl in Hc. rewrite orb_false_r in Hc.
    now apply Ascii.eqb_eq in Hc.
  - exact Hsplit.
  - intros t Ht. apply Hstop in Ht. discriminate Ht.
Qed.

(** The error of [parseHTML] is the error of the HTML parser. *)
Lemma parseHTML_error (htmlContent : bytes) (uploadDate : Time) (err : bytes) :
  parseHTML htmlContent uploadDate = Err err <->
  exists e, NewDocumentFromReader htmlContent = Err e
            /\ err = B "failed to parse HTML document: " ++ e.
Proof.
  unfold Main.parseHTML.
  destruct (NewDocumentFromReader htmlContent) as [doc|e]; split.
  - discriminate.
  - intros (e & He & _). discriminate.
  - intros [= <-]. now exists e.
  - intros (e' & [= <-] & ->). reflexivity.
Qed.

(** Claim C8, amended.  [parseHTML] returns a list of snapshots, which
    may be empty, and no error on every input that the HTML parser
    accepts, and on no other: it returns an error exactly when the parser
    returns one, and the error is then the parser's after the words
    [failed to parse HTML document: ].  (The parser does return one for
    some strings, so that this branch is taken.) *)
Theorem parseHTML_fails_with_parser (htmlContent : bytes) (uploadDate : Time) :
  ((exists funds, parseHTML htmlContent uploadDate = Ok funds) <->
   (exists doc, NewDocumentFromReader htmlContent = Ok doc))
  /\ (forall err,
        parseHTML htmlContent uploadDate = Err err <->
        exists e, NewDocumentFromReader htmlContent = Err e
                  /\ err = B "failed to parse HTML document: " ++ e)
  /\ (forall doc,
        NewDocumentFromReader htmlContent = Ok doc ->
        parseHTML htmlContent uploadDate
        = Ok (map (snapshot uploadDate) (qualifyingRows doc)))
  /\ (forall e,
        NewDocumentFromReader htmlContent = Err e ->
        forall funds, parseHTML htmlContent uploadDate <> Ok funds).
Proof.
  split; [|split; [|split]].
  - split.
    + intros (funds & H).
      destruct (NewDocumentFromReader htmlContent) as [doc|e] eqn:Hdoc;
        [now exists doc|].
      unfold Main.parseHTML in H. rewrite Hdoc in H. discriminate H.
    + intros (doc & Hdoc). rewrite (parseHTML_document _ _ _ Hdoc).
      now eexists.
  - apply parseHTML_error.
  - apply parseHTML_document.
  - intros e He funds. unfold Main.parseHTML. rewrite He. discriminate.
Qed.
End Extract.

End ExtractProofs.

(* ================================================================= *)
(** ** The persistence layer *)

Module StoreProofs.
Import GoStrings GoTime Types Main StringFacts.

Section Store.
Variable FormatRFC3339 : Time -> bytes.
Variable begin_fails : Table -> option bytes.
Variable prepare_fails : Table -> option bytes.
Variable exec_fails : Table -> Values -> option bytes.
Variable commit_fails : Table -> option bytes.

Local Abbreviation fundValues := (Main.fundValues FormatRFC3339).
Local Abbreviation ExecContext := (Main.ExecContext exec_fails).
Local Abbreviation insertLoop := (Main.insertLoop FormatRFC3339 exec_fails).
Local Abbreviation execAll := (Main.execAll FormatRFC3339 exec_fails).
Local Abbreviation storeFunds :=
  (Main.storeFunds FormatRFC3339 begin_fails prepare_fails exec_fails
     commit_fails).

Lemma ExecContext_committed (d : DB) (v : Values) :
  committed (fst (ExecContext d v)) = committed d.
Proof.
  unfold Main.ExecContext. destruct (tx d) as [w|]; [|reflexivity].
  destruct (exec_fails w v); reflexivity.
Qed.

Lemma insertLoop_committed (funds : list Fund) (d : DB) :
  committed (fst (insertLoop d funds)) = committed d.
Proof.
  revert d. induction funds as [|fund funds IH]; intros d; [reflexivity|].
  cbn [Main.insertLoop].
  pose proof (ExecContext_committed d (fundValues fund)) as H.
  destruct (ExecContext d (fundValues fund)) as [d1 [err|]]; [exact H|].
  rewrite IH. exact H.
Qed.

(** The loop stops at the first insert that fails, with an error that
    names the fund. *)
Lemma insertLoop_failure (before : list Fund) (fund : Fund)
    (after : list Fund) (c w0 w : Table) (err : bytes) :
  execAll w0 before = Some w ->
  exec_fails w (fundValues fund) = Some err ->
  insertLoop (mkDB c (Some w0)) (before ++ fund :: after)
  = (mkDB c (Some w),
     Some (B "failed to insert fund '" ++ Name fund ++ B "': " ++ err)).
Proof.
  revert w0. induction before as [|f before IH]; intros w0 Hall Hfail.
  - injection Hall as ->. cbn [app Main.insertLoop].
    unfold Main.ExecContext. cbn [tx]. now rewrite Hfail.
  - cbn [Main.execAll] in Hall. cbn [app Main.insertLoop].
    unfold Main.ExecContext. cbn [tx committed].
    destruct (exec_fails w0 (fundValues f)); [discriminate|].
    now apply IH.
Qed.

Lemma insertLoop_success (funds : list Fund) (c w0 : Table) (d : DB) :
  insertLoop (mkDB c (Some w0)) funds = (d, None) ->
  exists w, execAll w0 funds = Some w /\ d = mkDB c (Some w).
Proof.
  revert w0. induction funds as [|f funds IH]; intros w0.
  - intros [= <-]. now exists w0.
  - cbn [Main.insertLoop Main.execAll]. unfold Main.ExecContext. cbn [tx committed].
    destruct (exec_fails w0 (fundValues f)); [discriminate|].
    apply IH.
Qed.

(** Whatever [storeFunds] returns, an error leaves what is committed as
    it was. *)
Lemma storeFunds_error (d d' : DB) (funds : list Fund) (err : bytes) :
  storeFunds d funds = (d', Some err) -> committed d' = committed d.
Proof.
  unfold Main.storeFunds, Main.BeginTx.
  destruct (begin_fails (committed d)); [now intros [= <- _]|].
  unfold Main.PrepareContext. cbn [tx].
  destruct (prepare_fails (committed d)); [now intros [= <- _]|].
  pose proof (insertLoop_committed funds
                (mkDB (committed d) (Some (committed d)))) as Hc.
  destruct (insertLoop _ funds) as [d1 [e|]]; [now intros [= <- _]|].
  cbn [fst committed] in Hc.
  unfold Main.Commit. destruct (tx d1) as [w|]; [|now intros [= <- _]].
  destruct (commit_fails w); [now intros [= <- _]|discriminate].
Qed.

(** Claim C2.  When the insert of a snapshot of the batch fails
    (the transaction was begun, the statement prepared and the inserts
    before it done), [storeFunds] returns an error that contains the
    name of that snapshot, the transaction is over, and the table is
    what it was before the call.  More generally every error of
    [storeFunds] leaves the table as it was. *)
Theorem storeFunds_insert_failure (d : DB) (before : list Fund)
    (fund : Fund) (after : list Fund) (w : Table) (err : bytes) :
  begin_fails (committed d) = None ->
  prepare_fails (committed d) = None ->
  execAll (committed d) before = Some w ->
  exec_fails w (fundValues fund) = Some err ->
  (exists msg,
     storeFunds d (before ++ fund :: after)
     = (mkDB (committed d) None, Some msg)
     /\ msg = B "failed to insert fund '" ++ Name fund ++ B "': " ++ err
     /\ Contains msg (Name fund) = true)
  /\ (forall funds d' e,
        storeFunds d funds = (d', Some e) -> committed d' = committed d).
Proof.
  intros Hbegin Hprepare Hbefore Hfail. split.
  - eexists. split; [|split; [reflexivity|apply Contains_infix]].
    unfold Main.storeFunds, Main.BeginTx. rewrite Hbegin.
    unfold Main.PrepareContext. cbn [tx]. rewrite Hprepare.
    now rewrite (insertLoop_failure before fund after _ _ w err).
  - intros funds d' e. apply storeFunds_error.
Qed.

(** Claim C10.  [storeFunds] on an empty list leaves the table as
    it was, whatever the table; and when the engine begins, prepares
    and commits without an error, the call returns [nil], having
    inserted no row. *)
Theorem storeFunds_empty (d : DB) :
  committed (fst (storeFunds d [])) = committed d
  /\ (begin_fails (committed d) = None ->
      prepare_fails (committed d) = None ->
      commit_fails (committed d) = None ->
      storeFunds d [] = (mkDB (committed d) None, None)).
Proof.
  split.
  - unfold Main.storeFunds, Main.BeginTx.
    destruct (begin_fails (committed d)); [reflexivity|].
    unfold Main.PrepareContext. cbn [tx].
    destruct (prepare_fails (committed d)); [reflexivity|].
    cbn [Main.insertLoop]. unfold Main.Commit. cbn [tx].
    destruct (commit_fails (committed d)); reflexivity.
  - intros Hbegin Hprepare Hcommit.
    unfold Main.storeFunds, Main.BeginTx. rewrite Hbegin.
    unfold Main.PrepareContext. cbn [tx]. rewrite Hprepare.
    cbn [Main.insertLoop]. unfold Main.Commit. cbn [tx].
    now rewrite Hcommit.
Qed.
End Store.

End StoreProofs.

(* ================================================================= *)
(** ** The ingestion endpoint *)

Module UploadProofs.
Import GoStrings GoTime Dom Types Main StringFacts ExtractProofs StoreProofs.

Lemma take_all (s : bytes) (n : Z) :
  Z.of_nat (List.length s) <= n -> take n s = s.
Proof.
  revert n. induction s as [|c s IH]; intros n H; [reflexivity|].
  cbn [take]. cbn [List.length] in H.
  replace (n <=? 0) with false by lia.
  rewrite IH by lia. reflexivity.
Qed.

Section Upload.
Variable ParseFloat : bytes -> option float64.
Variable NewDocumentFromReader : bytes -> result Node.
Variable FormatRFC3339 : Time -> bytes.
Variable begin_fails : Table -> option bytes.
Variable prepare_fails : Table -> option bytes.
Variable exec_fails : Table -> Values -> option bytes.
Variable commit_fails : Table -> option bytes.
Variable UnescapeString : bytes -> bytes.
Variable ParseMultipartForm : Request -> Z -> result Form.
Variable jsonEncode : list Fund -> result bytes.

Local Abbreviation parseHTML :=
  (Main.parseHTML ParseFloat NewDocumentFromReader).
Local Abbreviation storeFunds :=
  (Main.storeFunds FormatRFC3339 begin_fails prepare_fails exec_fails
     commit_fails).
Local Abbreviation uploadHandler :=
  (Main.uploadHandler ParseFloat NewDocumentFromReader FormatRFC3339
     begin_fails prepare_fails exec_fails commit_fails UnescapeString
     ParseMultipartForm jsonEncode).

(** The upload date of a request: the [date] field of the form when it
    is there, else the time of the request. *)
Local Abbreviation uploadDateOf now form :=
  (match FormValue form (B "date") with
   | [] => Some now
   | _ :: _ => Parse (B "2006-01-02") (FormValue form (B "date"))
   end).

Ltac branches H :=
  repeat match type of H with
         | context [match ?x with _ => _ end] => destruct x eqn:?
         end.

(** Claim C7.  A request that [uploadHandler] answers with a
    status from 400 to 499 leaves the server, and with it the [funds]
    table, as it was. *)
Theorem uploadHandler_4xx_no_state_change (s : Server) (now : Time)
    (r : Request) (s' : Server) (resp : Response) :
  uploadHandler s now r = (s', resp) ->
  400 <= StatusCode resp < 500 ->
  s' = s /\ committed (db s') = committed (db s).
Proof.
  intros H Hstatus.
  assert (Hs : s' = s); [|now subst].
  unfold Main.uploadHandler in H. branches H.
  all: injection H as <- <-; try reflexivity.
  all: cbn [StatusCode httpError] in Hstatus; lia.
Qed.

(** Claim C9.  On a request that passes the checks before the
    extraction (API key, method, form, file, date, size, read),
    [uploadHandler] extracts from the content of the uploaded file after
    [html.UnescapeString]: its answer is decided by [parseHTML] on the
    unescaped text, and the snapshots it stores and returns are the
    snapshots of the qualifying rows of the document that the HTML parser
    builds from the unescaped text, whatever the markup of the file as
    uploaded looked like. *)
Theorem uploadHandler_unescapes (s : Server) (now : Time) (r : Request)
    (form : Form) (fileHeader : FileHeader) (uploadDate : Time) :
  bytes_eqb (Header r (B "X-API-Key")) (APIKey (config s)) = true ->
  bytes_eqb (Method r) (B "POST") = true ->
  ParseMultipartForm r maxFileSize = Ok form ->
  FormFile form (B "file") = Ok fileHeader ->
  uploadDateOf now form = Some uploadDate ->
  Size fileHeader <= maxFileSize ->
  ReadErr fileHeader = None ->
  uploadHandler s now r =
    match parseHTML (UnescapeString (Content fileHeader)) uploadDate with
    | Err err => (s, httpError (B "Failed to parse HTML: " ++ err) 500)
    | Ok [] => (s, httpError (B "No funds found in the provided HTML") 400)
    | Ok (fund :: funds) =>
        match storeFunds (db s) (fund :: funds) with
        | (d, Some err) =>
            (setDb s d,
             httpError (B "Failed to store funds in database: " ++ err) 500)
        | (d, None) =>
            match jsonEncode (fund :: funds) with
            | Err _ => (setDb s d, httpError (B "Failed to generate response") 500)
            | Ok out => (setDb s d, mkResponse 200 (B "application/json") out)
            end
        end
    end
  /\ (forall doc,
        NewDocumentFromReader (UnescapeString (Content fileHeader)) = Ok doc ->
        parseHTML (UnescapeString (Content fileHeader)) uploadDate
        = Ok (map (fun row => Main.rowFund ParseFloat uploadDate (Find row sel_td))
                  (qualifyingRows doc))).
Proof.
  intros Hkey Hmethod Hform Hfile Hdate Hsize Hread. split.
  - unfold Main.uploadHandler.
    rewrite Hkey, Hmethod, Hform, Hfile. cbn [negb].
    rewrite Hdate.
    replace (maxFileSize <? Size fileHeader) with false by lia.
    unfold readLimited. rewrite Hread.
    rewrite take_all by (unfold Size in Hsize; lia).
    destruct (parseHTML (UnescapeString (Content fileHeader)) uploadDate)
      as [[|fund funds]|err]; reflexivity.
  - intros doc Hdoc. now apply parseHTML_document.
Qed.
End Upload.

End UploadProofs.

(* ================================================================= *)
(** ** The theorems on the sample report *)

Module OnSamples.
Import GoStrings GoTime Dom Types Main.

Local Abbreviation parseHTML :=
  (Main.parseHTML Samples.ParseFloat Samples.NewDocumentFromReader).
Local Abbreviation snapshot uploadDate :=
  (fun row => Main.rowFund Samples.ParseFloat uploadDate (Find row sel_td)).
Local Abbreviation storeFunds :=
  (Main.storeFunds Samples.FormatRFC3339 Samples.begin_fails
     Samples.prepare_fails Samples.exec_fails Samples.commit_fails).
Local Abbreviation uploadHandler :=
  (Main.uploadHandler Samples.ParseFloat Samples.NewDocumentFromReader
     Samples.FormatRFC3339 Samples.begin_fails Samples.prepare_fails
     Samples.exec_fails Samples.commit_fails Samples.UnescapeString
     Samples.ParseMultipartForm Samples.jsonEncode).

Ltac white_space :=
  repeat first [ apply WhiteSpace_nil
               | apply WhiteSpace_cons;
                 [unfold White_Space; simpl;
                  repeat first [left; reflexivity | right] |] ].

(** The sample report has one qualifying row, and one snapshot comes out
    of it. *)
Lemma parseHTML_qualifying_rows_witness :
  Samples.NewDocumentFromReader Samples.report = Ok Samples.reportDoc
  /\ exists funds,
       parseHTML Samples.report (Date 2024 3 1) = Ok funds
       /\ List.length funds = List.length (qualifyingRows Samples.reportDoc)
       /\ funds = map (snapshot (Date 2024 3 1)) (qualifyingRows Samples.reportDoc)
       /\ Forall (fun fund => UploadDate fund = Date 2024 3 1) funds.
Proof.
  split; [reflexivity|].
  apply (ExtractProofs.parseHTML_qualifying_rows Samples.ParseFloat
           Samples.NewDocumentFromReader Samples.report (Date 2024 3 1)
           Samples.reportDoc).
  reflexivity.
Defined.

(** The insert of the second of three funds fails. *)
Lemma storeFunds_insert_failure_witness :
  let d := db Samples.server in
  let w := insertRow Samples.emptyTable
             (fundValues Samples.FormatRFC3339 (Samples.fundNamed "Meezan Cash Fund")) in
  let batch := [Samples.fundNamed "Meezan Cash Fund"]
               ++ Samples.fundNamed "Broken Fund"
               :: [Samples.fundNamed "Meezan Gold Fund"] in
  Samples.begin_fails (committed d) = None
  /\ Samples.prepare_fails (committed d) = None
  /\ Main.execAll Samples.FormatRFC3339 Samples.exec_fails (committed d)
       [Samples.fundNamed "Meezan Cash Fund"] = Some w
  /\ Samples.exec_fails w
       (fundValues Samples.FormatRFC3339 (Samples.fundNamed "Broken Fund"))
     = Some (B "disk I/O error")
  /\ (exists msg,
        storeFunds d batch = (mkDB (committed d) None, Some msg)
        /\ msg = B "failed to insert fund '" ++ B "Broken Fund" ++ B "': "
                 ++ B "disk I/O error"
        /\ Contains msg (B "Broken Fund") = true)
  /\ (forall funds d' e,
        storeFunds d funds = (d', Some e) -> committed d' = committed d).
Proof.
  intros d w batch.
  split; [reflexivity|]. split; [reflexivity|]. split; [reflexivity|].
  split; [reflexivity|].
  apply (StoreProofs.storeFunds_insert_failure Samples.FormatRFC3339
           Samples.begin_fails Samples.prepare_fails Samples.exec_fails
           Samples.commit_fails d [Samples.fundNamed "Meezan Cash Fund"]
           (Samples.fundNamed "Broken Fund")
           [Samples.fundNamed "Meezan Gold Fund"] w (B "disk I/O error"));
    reflexivity.
Defined.

(** The text [NaN] is no decimal number, and [parseFloat] returns a value
    for it. *)
Lemma parseFloat_reads_NaN :
  Strconv.decimalNumber (TrimRight (TrimSpace (B "NaN")) (B "*%")) = false
  /\ Main.parseFloat MoreSamples.ParseFloat (B "NaN") = Some PrimFloat.nan
  /\ Main.parseFloat MoreSamples.ParseFloat (B "NaN") <> None.
Proof. split; [reflexivity|]. split; [reflexivity | discriminate]. Qed.

(** [12.5] and [-Infinity] between a space and a no-break space before and
    the markers [*%], a tab and a thin space after: read as [12.5] and as
    the negative infinity. *)
Lemma parseFloat_strips_markers_witness :
  let ws1 := EncodeRune 32 ++ EncodeRune 160 ++ [] in
  let ws2 := EncodeRune 9 ++ EncodeRune 8201 ++ [] in
  WhiteSpace ws1 /\ WhiteSpace ws2
  /\ Forall (fun c => isMarker c = true) (B "*%")
  /\ numberLike (B "12.5") = true
  /\ Strconv.decimalNumber (B "12.5") = true
  /\ Strconv.special (B "-Infinity") = Some (PrimFloat.neg_infinity, 9%nat)
  /\ Main.parseFloat MoreSamples.ParseFloat (ws1 ++ B "12.5" ++ B "*%" ++ ws2)
     = Some 12.5%float
  /\ Main.parseFloat MoreSamples.ParseFloat (ws1 ++ B "*%" ++ ws2) = None
  /\ Main.parseFloat MoreSamples.ParseFloat
       (ws1 ++ B "-Infinity" ++ B "*%" ++ ws2)
     = Some PrimFloat.neg_infinity.
Proof.
  intros ws1 ws2.
  assert (H1 : WhiteSpace ws1) by (unfold ws1; white_space).
  assert (H2 : WhiteSpace ws2) by (unfold ws2; white_space).
  assert (H3 : Forall (fun c => isMarker c = true) (B "*%"))
    by (repeat constructor).
  assert (H4 : numberLike (B "12.5") = true) by reflexivity.
  assert (H5 : Strconv.decimalNumber (B "12.5") = true) by reflexivity.
  assert (H6 : Strconv.special (B "-Infinity")
               = Some (PrimFloat.neg_infinity, 9%nat)) by reflexivity.
  repeat (split; [assumption|]).
  destruct (NormalizerProofs.parseFloat_strips_markers Samples.ParseFloat
              ws1 (B "12.5") (B "*%") ws2 H1 H2 H3 H4)
    as (_ & Hdec & Hnil & _ & Hword).
  split; [exact (Hdec H5)|]. split; [exact Hnil|].
  exact (Hword (B "-Infinity") PrimFloat.neg_infinity H6).
Defined.

(** 5 January 2024, written ["January 5, 2024"]. *)
Lemma parseDate_round_trip_witness :
  validDate 2024 1 5
  /\ In (B "January 2, 2006") formats
  /\ parseDate (Format (Date 2024 1 5) (B "January 2, 2006"))
     = Some (Date 2024 1 5)
  /\ formats = [B "Jan 2, 2006"; B "2 Jan, 2006";
                B "January 2, 2006"; B "2 January, 2006"]
  /\ (forall text pre first post t,
        formats = pre ++ first :: post ->
        Forall (fun l => Parse l (TrimSpace text) = None) pre ->
        Parse first (TrimSpace text) = Some t ->
        parseDate text = Some t)
  /\ (forall ws, WhiteSpace ws -> parseDate ws = None).
Proof.
  assert (H1 : validDate 2024 1 5)
    by (unfold validDate; change (daysIn 1 2024) with 31; lia).
  assert (H2 : In (B "January 2, 2006") formats)
    by (right; right; left; reflexivity).
  split; [exact H1|]. split; [exact H2|].
  exact (NormalizerProofs.parseDate_round_trip 2024 1 5
           (B "January 2, 2006") H1 H2).
Defined.

(** The header row of the sample report has two columns. *)
Lemma parseHTML_skips_short_rows_witness :
  Samples.NewDocumentFromReader Samples.report = Ok Samples.reportDoc
  /\ exists funds,
       parseHTML Samples.report (Date 2024 3 1) = Ok funds
       /\ (forall fund, In fund funds ->
             exists row,
               In row (candidateRows Samples.reportDoc)
               /\ (12 <= List.length (Find row sel_td))%nat
               /\ fund = snapshot (Date 2024 3 1) row)
       /\ (forall before row after,
             candidateRows Samples.reportDoc = before ++ row :: after ->
             (List.length (Find row sel_td) < 12)%nat ->
             funds = fold_left (Main.eachRow Samples.ParseFloat (Date 2024 3 1))
                       (before ++ after) [])
       /\ (forall acc row,
             (List.length (Find row sel_td) < 12)%nat ->
             Main.eachRow Samples.ParseFloat (Date 2024 3 1) acc row = acc).
Proof.
  split; [reflexivity|].
  apply (ExtractProofs.parseHTML_skips_short_rows Samples.ParseFloat
           Samples.NewDocumentFromReader Samples.report (Date 2024 3 1)
           Samples.reportDoc).
  reflexivity.
Defined.

(** A name can be empty: a row of twelve empty cells qualifies, and its
    snapshot has the empty name. *)
Lemma parseHTML_name_may_be_empty :
  exists fund,
    parseHTML Samples.blankReport (Date 2024 3 1) = Ok [fund]
    /\ Name fund = [].
Proof. eexists. split; reflexivity. Qed.

Lemma parseHTML_name_stripped_witness :
  Samples.NewDocumentFromReader Samples.report = Ok Samples.reportDoc
  /\ exists funds,
       parseHTML Samples.report (Date 2024 3 1) = Ok funds
       /\ forall fund, In fund funds ->
            exists row stars,
              In row (qualifyingRows Samples.reportDoc)
              /\ Forall (fun c => c = "*"%char) stars
              /\ TrimSpace (Text (Eq (Find row sel_td) 0)) = Name fund ++ stars
              /\ (forall t, Name fund <> t ++ ["*"%char]).
Proof.
  split; [reflexivity|].
  apply (ExtractProofs.parseHTML_name_stripped Samples.ParseFloat
           Samples.NewDocumentFromReader Samples.report (Date 2024 3 1)
           Samples.reportDoc).
  reflexivity.
Defined.

(** An upload without the API key: 401, and the server as it was. *)
Lemma uploadHandler_4xx_no_state_change_witness :
  let resp := httpError (B "Unauthorized") 401 in
  uploadHandler Samples.server Samples.now Samples.anonymousUpload
  = (Samples.server, resp)
  /\ 400 <= StatusCode resp < 500
  /\ Samples.server = Samples.server
  /\ committed (db Samples.server) = committed (db Samples.server).
Proof.
  intros resp.
  assert (H1 : uploadHandler Samples.server Samples.now Samples.anonymousUpload
               = (Samples.server, resp)) by reflexivity.
  assert (H2 : 400 <= StatusCode resp < 500) by (cbn; lia).
  split; [exact H1|]. split; [exact H2|].
  exact (UploadProofs.uploadHandler_4xx_no_state_change Samples.ParseFloat
           Samples.NewDocumentFromReader Samples.FormatRFC3339
           Samples.begin_fails Samples.prepare_fails Samples.exec_fails
           Samples.commit_fails Samples.UnescapeString
           Samples.ParseMultipartForm Samples.jsonEncode
           Samples.server Samples.now Samples.anonymousUpload
           Samples.server resp H1 H2).
Defined.

(** 511 [div] elements, each inside the one before: the parser gives the
    document up, and [parseHTML] returns an error. *)
Lemma parseHTML_deep_document_fails :
  exists err,
    Main.parseHTML Samples.ParseFloat MoreSamples.NewDocumentFromReader
      MoreSamples.deepDivs (Date 2024 3 1) = Err err
    /\ Contains err (B "failed to parse HTML document: ") = true
    /\ forall funds,
         Main.parseHTML Samples.ParseFloat MoreSamples.NewDocumentFromReader
           MoreSamples.deepDivs (Date 2024 3 1) <> Ok funds.
Proof.
  exists (B "failed to parse HTML document: "
          ++ B "html: open stack of elements exceeds 512 nodes").
  split; [vm_compute; reflexivity|]. split; [vm_compute; reflexivity|].
  intros funds.
  replace (Main.parseHTML Samples.ParseFloat MoreSamples.NewDocumentFromReader
             MoreSamples.deepDivs (Date 2024 3 1))
    with (@Err (list Fund)
            (B "failed to parse HTML document: "
             ++ B "html: open stack of elements exceeds 512 nodes"))
    by (vm_compute; reflexivity).
  discriminate.
Qed.

(** The sample report and the empty text, which the parser accepts: one
    snapshot, and none. *)
Lemma parseHTML_fails_with_parser_witness :
  MoreSamples.NewDocumentFromReader Samples.report = Ok Samples.reportDoc
  /\ MoreSamples.NewDocumentFromReader [] = Ok (Samples.document [])
  /\ Main.parseHTML Samples.ParseFloat MoreSamples.NewDocumentFromReader
       Samples.report (Date 2024 3 1)
     = Ok (map (snapshot (Date 2024 3 1)) (qualifyingRows Samples.reportDoc))
  /\ Main.parseHTML Samples.ParseFloat MoreSamples.NewDocumentFromReader
       [] (Date 2024 3 1)
     = Ok [].
Proof.
  assert (H1 : MoreSamples.NewDocumentFromReader Samples.report
               = Ok Samples.reportDoc) by (vm_compute; reflexivity).
  assert (H2 : MoreSamples.NewDocumentFromReader []
               = Ok (Samples.document [])) by (vm_compute; reflexivity).
  split; [exact H1|]. split; [exact H2|]. split.
  - exact (proj1 (proj2 (proj2
             (ExtractProofs.parseHTML_fails_with_parser Samples.ParseFloat
                MoreSamples.NewDocumentFromReader Samples.report
                (Date 2024 3 1)))) Samples.reportDoc H1).
  - exact (proj1 (proj2 (proj2
             (ExtractProofs.parseHTML_fails_with_parser Samples.ParseFloat
                MoreSamples.NewDocumentFromReader [] (Date 2024 3 1))))
             (Samples.document []) H2).
Defined.

(** The sample report uploaded with its markup spelled with entities:
    200, and the one qualifying row stored and returned. *)
Lemma uploadHandler_unescapes_witness :
  let form :=
    {| FormValues := fun key =>
         if bytes_eqb key (B "date") then [B "2024-03-01"] else [];
       FormFiles := fun key =>
         if bytes_eqb key (B "file")
         then [mkFileHeader (B "report.html") Samples.escapedReport None None]
         else [] |} in
  let fileHeader :=
    mkFileHeader (B "report.html") Samples.escapedReport None None in
  let funds := [snapshot (Date 2024 3 1) Samples.dataRow] in
  bytes_eqb (Header Samples.upload (B "X-API-Key")) (APIKey (config Samples.server))
  = true
  /\ bytes_eqb (Method Samples.upload) (B "POST") = true
  /\ Samples.ParseMultipartForm Samples.upload maxFileSize = Ok form
  /\ FormFile form (B "file") = Ok fileHeader
  /\ Parse (B "2006-01-02") (FormValue form (B "date")) = Some (Date 2024 3 1)
  /\ Size fileHeader <= maxFileSize
  /\ ReadErr fileHeader = None
  /\ Samples.UnescapeString (Content fileHeader) = Samples.report
  /\ parseHTML Samples.report (Date 2024 3 1) = Ok funds
  /\ uploadHandler Samples.server Samples.now Samples.upload
     = (setDb Samples.server (fst (storeFunds (db Samples.server) funds)),
        mkResponse 200 (B "application/json") (B "Meezan Cash Fund" ++ newline)).
Proof.
  intros form fileHeader funds.
  assert (H1 : bytes_eqb (Header Samples.upload (B "X-API-Key"))
                 (APIKey (config Samples.server)) = true) by reflexivity.
  assert (H2 : bytes_eqb (Method Samples.upload) (B "POST") = true)
    by reflexivity.
  assert (H3 : Samples.ParseMultipartForm Samples.upload maxFileSize = Ok form)
    by reflexivity.
  assert (H4 : FormFile form (B "file") = Ok fileHeader) by reflexivity.
  assert (H5 : Parse (B "2006-01-02") (FormValue form (B "date"))
               = Some (Date 2024 3 1)) by reflexivity.
  assert (H6 : Size fileHeader <= maxFileSize) by (vm_compute; discriminate).
  assert (H7 : ReadErr fileHeader = None) by reflexivity.
  assert (H8 : Samples.UnescapeString (Content fileHeader) = Samples.report)
    by (vm_compute; reflexivity).
  assert (H9 : parseHTML Samples.report (Date 2024 3 1) = Ok funds)
    by (vm_compute; reflexivity).
  repeat (split; [assumption|]).
  destruct (UploadProofs.uploadHandler_unescapes Samples.ParseFloat
              Samples.NewDocumentFromReader Samples.FormatRFC3339
              Samples.begin_fails Samples.prepare_fails Samples.exec_fails
              Samples.commit_fails Samples.UnescapeString
              Samples.ParseMultipartForm Samples.jsonEncode
              Samples.server Samples.now Samples.upload form fileHeader
              (Date 2024 3 1) H1 H2 H3 H4 H5 H6 H7) as [Hrun _].
  rewrite Hrun, H8, H9. reflexivity.
Defined.

(** The uploaded bytes hold no markup before they are unescaped, and one
    qualifying row after. *)
Example escaped_report_rows :
  existsb (Ascii.eqb "<"%char) Samples.escapedReport = false
  /\ Samples.UnescapeString Samples.escapedReport = Samples.report
  /\ List.length (qualifyingRows Samples.reportDoc) = 1%nat.
Proof. repeat split; vm_compute; reflexivity. Qed.

(** An empty batch on the sample engine. *)
Lemma storeFunds_empty_witness :
  let d := db Samples.server in
  committed (fst (storeFunds d [])) = committed d
  /\ (Samples.begin_fails (committed d) = None ->
      Samples.prepare_fails (committed d) = None ->
      Samples.commit_fails (committed d) = None ->
      storeFunds d [] = (mkDB (committed d) None, None))
  /\ storeFunds d [] = (mkDB (committed d) None, None).
Proof.
  intros d.
  pose proof (StoreProofs.storeFunds_empty Samples.FormatRFC3339
                Samples.begin_fails Samples.prepare_fails Samples.exec_fails
                Samples.commit_fails d) as [H1 H2].
  split; [exact H1|]. split; [exact H2|].
  exact (H2 eq_refl eq_refl eq_refl).
Defined.

End OnSamples.

(* ================================================================= *)
(** ** More about the dates *)

Module DateProofs.
Import GoStrings GoTime Types Main Notions StringFacts TimeFacts.

Lemma digitVal_range (c : ascii) :
  isDigitByte c = true -> 0 <= digitVal c <= 9.
Proof.
  unfold isDigitByte, digitVal. intros H.
  apply andb_true_iff in H as [H1 H2].
  change (code "0") with 48 in *. change (code "9") with 57 in *. lia.
Qed.

Lemma lookupFrom_range (tab : list bytes) (i j : Z) (val rest : bytes) :
  lookupFrom i tab val = Some (j, rest) ->
  i <= j < i + Z.of_nat (List.length tab).
Proof.
  revert i. induction tab as [|v tab IH]; intros i; [discriminate|].
  cbn [lookupFrom List.length].
  destruct (matchPrefix v val).
  - intros [= <- _]. lia.
  - intros H. apply IH in H. lia.
Qed.

Lemma getyear_range (value rest : bytes) (y : Z) :
  getyear value = Some (y, rest) -> 0 <= y <= 9999.
Proof.
  destruct value as [|c0 [|c1 [|c2 [|c3 v]]]]; try discriminate.
  cbn [getyear].
  destruct (isDigitByte c0) eqn:H0; [|discriminate].
  destruct (isDigitByte c1) eqn:H1; [|discriminate].
  destruct (isDigitByte c2) eqn:H2; [|discriminate].
  destruct (isDigitByte c3) eqn:H3; [|discriminate].
  intros [= <- _].
  apply digitVal_range in H0, H1, H2, H3. lia.
Qed.

Lemma parseStd_fieldsOk (std : Std) (value value' : bytes) (st st' : fields) :
  fieldsOk st -> parseStd std value st = Some (value', st') -> fieldsOk st'.
Proof.
  intros [Hm Hy]. unfold parseStd.
  destruct std; try discriminate.
  - destruct (lookup longMonthNames value) as [[m v]|] eqn:E; [|discriminate].
    intros [= _ <-]. apply lookupFrom_range in E.
    change (Z.of_nat (List.length longMonthNames)) with 12 in E.
    split; cbn; [right; lia | exact Hy].
  - destruct (lookup shortMonthNames value) as [[m v]|] eqn:E; [|discriminate].
    intros [= _ <-]. apply lookupFrom_range in E.
    change (Z.of_nat (List.length shortMonthNames)) with 12 in E.
    split; cbn; [right; lia | exact Hy].
  - destruct (getnum value true) as [[m v]|]; [|discriminate].
    destruct ((m <=? 0) || (12 <? m)) eqn:E; [discriminate|].
    intros [= _ <-]. split; cbn; [right; lia | exact Hy].
  - destruct (getnum value false) as [[d v]|]; [|discriminate].
    intros [= _ <-]. split; cbn; assumption.
  - destruct (getnum value true) as [[d v]|]; [|discriminate].
    intros [= _ <-]. split; cbn; assumption.
  - destruct (getyear value) as [[y v]|] eqn:E; [|discriminate].
    intros [= _ <-]. apply getyear_range in E. split; cbn; assumption.
Qed.

Lemma parseLoop_fieldsOk (fuel : nat) (layout value : bytes) (st st' : fields) :
  fieldsOk st -> parseLoop fuel layout value st = Some st' -> fieldsOk st'.
Proof.
  revert layout value st. induction fuel as [|fuel IH]; intros layout value st Hst;
    [discriminate|].
  rewrite parseLoop_S.
  destruct (nextStdChunk layout) as [[prefix std] suffix].
  destruct (skip value prefix) as [v|]; [|discriminate].
  assert (Hstep : match parseStd std v st with
                  | Some (v', st1) => parseLoop fuel suffix v' st1
                  | None => None
                  end = Some st' -> fieldsOk st').
  { destruct (parseStd std v st) as [[v' st1]|] eqn:E; [|discriminate].
    apply IH. eapply parseStd_fieldsOk; eassumption. }
  destruct std; try exact Hstep.
  destruct v; [|discriminate]. now intros [= <-].
Qed.

(** Whatever the layout, [Parse] returns a day that exists, at midnight
    UTC. *)
Lemma Parse_valid (layout value : bytes) (t : Time) :
  Parse layout value = Some t ->
  validDate (Year t) (Month t) (Day t) /\ Clock t = 0 /\ Offset t = 0.
Proof.
  unfold Parse.
  destruct (parseLoop _ layout value _) as [st|] eqn:E; [|discriminate].
  apply parseLoop_fieldsOk in E; [|split; cbn; [now left | lia]].
  destruct E as [Hm Hy]. unfold finish.
  destruct ((_ <? 1) || (_ <? _)) eqn:Hd; [discriminate|].
  intros [= <-]. cbn [Year Month Day Clock Offset Date].
  apply orb_false_iff in Hd as [Hd1 Hd2].
  unfold validDate. repeat split; try lia;
    destruct (f_month st <? 0) eqn:Hneg; lia.
Qed.

Lemma parseDateLoop_some (layouts : list bytes) (date : bytes) (t : Time) :
  parseDateLoop layouts date = Some t ->
  exists layout, In layout layouts /\ Parse layout date = Some t.
Proof.
  induction layouts as [|l layouts IH]; [discriminate|].
  cbn [parseDateLoop]. destruct (Parse l date) as [t'|] eqn:E.
  - intros [= <-]. exists l. split; [now left | exact E].
  - intros H. destruct (IH H) as (l' & Hin & Hp). exists l'.
    split; [now right | exact Hp].
Qed.

(** X1.  A date that [parseDate] returns is a day that exists: the month
    is from 1 to 12, the day is a day of that month (29 February in leap
    years only), the year has at most four digits, and the time is
    midnight UTC.  A text such as ["Feb 30, 2024"] gives [nil]. *)
Theorem parseDate_valid (text : bytes) (t : Time) :
  parseDate text = Some t ->
  validDate (Year t) (Month t) (Day t) /\ Clock t = 0 /\ Offset t = 0.
Proof.
  unfold parseDate. destruct (TrimSpace text) as [|c mid]; [discriminate|].
  intros H. apply parseDateLoop_some in H as (layout & _ & H).
  now apply Parse_valid in H.
Qed.

Lemma bytes_eqb_eq (a b : bytes) : bytes_eqb a b = true <-> a = b.
Proof.
  unfold bytes_eqb. destruct (list_eq_dec ascii_dec a b); split;
    congruence.
Qed.

Lemma digit_in (c : ascii) : isDigitByte c = true -> In c digits.
Proof.
  destruct c as [[] [] [] [] [] [] [] []]; intros H;
    try discriminate H; unfold digits; simpl; tauto.
Qed.

Lemma four_digits_check :
  forallb (fun a => forallb (fun b => forallb (fun c => forallb (fun e =>
    bytes_eqb (appendInt (val4 a b c e) 4) [a; b; c; e])
    digits) digits) digits) digits = true.
Proof. vm_compute. reflexivity. Qed.

Lemma two_digits_check :
  forallb (fun a => forallb (fun b =>
    bytes_eqb (appendInt (val2 a b) 2) [a; b]) digits) digits = true.
Proof. vm_compute. reflexivity. Qed.

(** [appendInt] writes back the digits of a number. *)
Lemma appendInt_four (a b c e : ascii) :
  isDigitByte a = true -> isDigitByte b = true ->
  isDigitByte c = true -> isDigitByte e = true ->
  appendInt (val4 a b c e) 4 = [a; b; c; e].
Proof.
  intros Ha Hb Hc He. apply digit_in in Ha, Hb, Hc, He.
  pose proof four_digits_check as H.
  rewrite forallb_forall in H. specialize (H a Ha).
  rewrite forallb_forall in H. specialize (H b Hb).
  rewrite forallb_forall in H. specialize (H c Hc).
  rewrite forallb_forall in H. specialize (H e He).
  now apply bytes_eqb_eq.
Qed.

Lemma appendInt_two (a b : ascii) :
  isDigitByte a = true -> isDigitByte b = true ->
  appendInt (val2 a b) 2 = [a; b].
Proof.
  intros Ha Hb. apply digit_in in Ha, Hb.
  pose proof two_digits_check as H.
  rewrite forallb_forall in H. specialize (H a Ha).
  rewrite forallb_forall in H. specialize (H b Hb).
  now apply bytes_eqb_eq.
Qed.

Lemma digitByte_digit (k : Z) :
  0 <= k <= 9 -> isDigitByte (digitByte k) = true /\ digitVal (digitByte k) = k.
Proof.
  intros Hk. assert (H : In k (map Z.of_nat (seq 0 10))) by (apply in_range; lia).
  clear Hk. enum H. all: split; reflexivity.
Qed.

(** A number below 10000 and a number below 100 as [appendInt] writes
    them with four and with two digits. *)
Lemma appendInt_year (y : Z) :
  0 <= y <= 9999 ->
  exists a b c e,
    appendInt y 4 = [a; b; c; e]
    /\ isDigitByte a = true /\ isDigitByte b = true
    /\ isDigitByte c = true /\ isDigitByte e = true
    /\ val4 a b c e = y.
Proof.
  intros Hy.
  destruct (digitByte_digit (y / 1000)) as [Ha Va];
    [Z.to_euclidean_division_equations; lia|].
  destruct (digitByte_digit (y / 100 mod 10)) as [Hb Vb];
    [Z.to_euclidean_division_equations; lia|].
  destruct (digitByte_digit (y / 10 mod 10)) as [Hc Vc];
    [Z.to_euclidean_division_equations; lia|].
  destruct (digitByte_digit (y mod 10)) as [He Ve];
    [Z.to_euclidean_division_equations; lia|].
  assert (Hval : val4 (digitByte (y / 1000)) (digitByte (y / 100 mod 10))
                   (digitByte (y / 10 mod 10)) (digitByte (y mod 10)) = y).
  { unfold val4. rewrite Va, Vb, Vc, Ve.
    Z.to_euclidean_division_equations. lia. }
  exists (digitByte (y / 1000)), (digitByte (y / 100 mod 10)),
    (digitByte (y / 10 mod 10)), (digitByte (y mod 10)).
  split; [|repeat split; assumption].
  rewrite <- Hval at 1. now apply appendInt_four.
Qed.

Lemma appendInt_pair (n : Z) :
  0 <= n <= 99 ->
  exists a b,
    appendInt n 2 = [a; b]
    /\ isDigitByte a = true /\ isDigitByte b = true /\ val2 a b = n.
Proof.
  intros Hn.
  destruct (digitByte_digit (n / 10)) as [Ha Va];
    [Z.to_euclidean_division_equations; lia|].
  destruct (digitByte_digit (n mod 10)) as [Hb Vb];
    [Z.to_euclidean_division_equations; lia|].
  assert (Hval : val2 (digitByte (n / 10)) (digitByte (n mod 10)) = n).
  { unfold val2. rewrite Va, Vb. Z.to_euclidean_division_equations. lia. }
  exists (digitByte (n / 10)), (digitByte (n mod 10)).
  split; [|repeat split; assumption].
  rewrite <- Hval at 1. now apply appendInt_two.
Qed.

Lemma Format_dateLayout (y m d : Z) :
  Format (Date y m d) dateLayout
  = appendInt y 4 ++ B "-" ++ appendInt m 2 ++ B "-" ++ appendInt d 2.
Proof. rewrite <- (app_nil_r (appendInt d 2)). reflexivity. Qed.

Lemma skip_dash (rest : bytes) : skip ("-"%char :: rest) (B "-") = Some rest.
Proof. reflexivity. Qed.

Lemma skip_dash_inv (value rest : bytes) :
  skip value (B "-") = Some rest -> value = "-"%char :: rest.
Proof.
  unfold skip. destruct value as [|c value]; [discriminate|].
  simpl. destruct (Ascii.eqb_spec c "-"); [|discriminate].
  intros [= <-]. now subst.
Qed.

Lemma getnum_fixed (a b : ascii) (rest : bytes) :
  isDigitByte a = true -> isDigitByte b = true ->
  getnum (a :: b :: rest) true = Some (val2 a b, rest).
Proof. intros Ha Hb. unfold getnum. now rewrite Ha, Hb. Qed.

Lemma getnum_fixed_inv (value rest : bytes) (n : Z) :
  getnum value true = Some (n, rest) ->
  exists a b, value = a :: b :: rest
              /\ isDigitByte a = true /\ isDigitByte b = true /\ n = val2 a b.
Proof.
  unfold getnum. destruct value as [|a [|b value]]; try discriminate.
  - destruct (isDigitByte a); discriminate.
  - destruct (isDigitByte a) eqn:Ha; [|discriminate].
    destruct (isDigitByte b) eqn:Hb; [|discriminate].
    intros [= <- <-]. now exists a, b.
Qed.

Lemma getyear_digits (a b c e : ascii) (rest : bytes) :
  isDigitByte a = true -> isDigitByte b = true ->
  isDigitByte c = true -> isDigitByte e = true ->
  getyear (a :: b :: c :: e :: rest) = Some (val4 a b c e, rest).
Proof. intros Ha Hb Hc He. unfold getyear. now rewrite Ha, Hb, Hc, He. Qed.

Lemma getyear_inv (value rest : bytes) (y : Z) :
  getyear value = Some (y, rest) ->
  exists a b c e,
    value = a :: b :: c :: e :: rest
    /\ isDigitByte a = true /\ isDigitByte b = true
    /\ isDigitByte c = true /\ isDigitByte e = true
    /\ y = val4 a b c e.
Proof.
  destruct value as [|a [|b [|c [|e v]]]]; try discriminate.
  cbn [getyear].
  destruct (isDigitByte a) eqn:Ha; [|discriminate].
  destruct (isDigitByte b) eqn:Hb; [|discriminate].
  destruct (isDigitByte c) eqn:Hc; [|discriminate].
  destruct (isDigitByte e) eqn:He; [|discriminate].
  intros [= <- <-]. now exists a, b, c, e.
Qed.

(** X2.  The [date] field of the upload form round-trips: a day that
    exists, written in the layout ["2006-01-02"], is read back by
    [time.Parse] with that layout as the same day. *)
Theorem upload_date_round_trip (y m d : Z) :
  validDate y m d ->
  Parse dateLayout (Format (Date y m d) dateLayout) = Some (Date y m d).
Proof.
  intros Hvalid. pose proof (finish_valid y m d Hvalid) as Hfin.
  destruct Hvalid as (Hy & Hm & Hd).
  assert (Hd31 : 1 <= d <= 31).
  { split; [lia|]. unfold daysIn in Hd.
    repeat match type of Hd with
           | context [if ?b then _ else _] => destruct b
           end; lia. }
  destruct (appendInt_year y Hy) as (a & b & c & e & Ey & Ha & Hb & Hc & He & Vy).
  destruct (appendInt_pair m) as (m0 & m1 & Em & Hm0 & Hm1 & Vm); [lia|].
  destruct (appendInt_pair d) as (d0 & d1 & Ed & Hd0 & Hd1 & Vd); [lia|].
  rewrite Format_dateLayout, Ey, Em, Ed. unfold dateLayout.
  start. turn. rewrite skip_nil. cbn [app B list_ascii_of_string].
  rewrite getyear_digits by assumption.
  turn. rewrite skip_dash, getnum_fixed by assumption.
  rewrite Vm. replace ((m <=? 0) || (12 <? m)) with false by lia.
  turn. rewrite skip_dash, getnum_fixed by assumption.
  turn. rewrite skip_nil. now rewrite Vy, Vd.
Qed.

(** X3.  The [date] field is accepted in one form only: a text that
    [time.Parse] reads with the layout ["2006-01-02"] has ten bytes and
    is what [Format] writes for the day read, four digits, two and two
    with the dashes between them; and that day exists. *)
Theorem upload_date_canonical (value : bytes) (t : Time) :
  Parse dateLayout value = Some t ->
  Format t dateLayout = value
  /\ List.length value = 10%nat
  /\ validDate (Year t) (Month t) (Day t).
Proof.
  intros H. pose proof (Parse_valid _ _ _ H) as (Hvalid & _ & _).
  assert (Hshape : exists a b c e m0 m1 d0 d1,
            value = [a; b; c; e; "-"; m0; m1; "-"; d0; d1]%char
            /\ isDigitByte a = true /\ isDigitByte b = true
            /\ isDigitByte c = true /\ isDigitByte e = true
            /\ isDigitByte m0 = true /\ isDigitByte m1 = true
            /\ isDigitByte d0 = true /\ isDigitByte d1 = true
            /\ finish (mkFields (val4 a b c e) (val2 m0 m1) (val2 d0 d1))
               = Some t).
  { revert H. unfold dateLayout. start. turn. rewrite skip_nil.
    destruct (getyear value) as [[y v1]|] eqn:Ey.
    2:{ intros Hn. cbv beta iota in Hn. discriminate Hn. }
    apply getyear_inv in Ey as (a & b & c & e & -> & Ha & Hb & Hc & He & ->).
    turn.
    destruct (skip v1 _) as [v2|] eqn:Es1.
    2:{ intros Hn. cbv beta iota in Hn. discriminate Hn. }
    apply skip_dash_inv in Es1 as ->.
    destruct (getnum v2 true) as [[m v3]|] eqn:Em.
    2:{ intros Hn. cbv beta iota in Hn. discriminate Hn. }
    apply getnum_fixed_inv in Em as (m0 & m1 & -> & Hm0 & Hm1 & ->).
    destruct ((val2 m0 m1 <=? 0) || (12 <? val2 m0 m1)) eqn:Hrange.
    { intros Hn. cbv beta iota in Hn. discriminate Hn. }
    turn.
    destruct (skip v3 _) as [v4|] eqn:Es2.
    2:{ intros Hn. cbv beta iota in Hn. discriminate Hn. }
    apply skip_dash_inv in Es2 as ->.
    destruct (getnum v4 true) as [[d v5]|] eqn:Ed.
    2:{ intros Hn. cbv beta iota in Hn. discriminate Hn. }
    apply getnum_fixed_inv in Ed as (d0 & d1 & -> & Hd0 & Hd1 & ->).
    turn. rewrite skip_nil.
    destruct v5 as [|x v5].
    2:{ intros Hn. cbv beta iota in Hn. discriminate Hn. }
    intros Hfin. exists a, b, c, e, m0, m1, d0, d1.
    repeat split; assumption. }
  destruct Hshape
    as (a & b & c & e & m0 & m1 & d0 & d1 & -> & Ha & Hb & Hc & He
        & Hm0 & Hm1 & Hd0 & Hd1 & Hfin).
  split; [|split; [reflexivity | exact Hvalid]].
  unfold finish in Hfin. cbn [f_year f_month f_day] in Hfin.
  pose proof (digitVal_range _ Hm0). pose proof (digitVal_range _ Hm1).
  pose proof (digitVal_range _ Hd0). pose proof (digitVal_range _ Hd1).
  replace (val2 m0 m1 <? 0) with false in Hfin by (unfold val2; lia).
  replace (val2 d0 d1 <? 0) with false in Hfin by (unfold val2; lia).
  destruct (_ || _) in Hfin; [discriminate|]. injection Hfin as <-.
  rewrite Format_dateLayout, appendInt_four, !appendInt_two by assumption.
  reflexivity.
Qed.

End DateProofs.

(* ================================================================= *)
(** ** More about the trimming and the extraction *)

Module ExtractMore.
Import GoStrings GoTime Dom Types Main Notions StringFacts DateProofs.

Lemma stripPrefix_some (p s rest : bytes) :
  stripPrefix p s = Some rest -> s = p ++ rest.
Proof.
  revert s. induction p as [|c p IH]; intros s; simpl.
  - now intros [= ->].
  - destruct s as [|d s]; [discriminate|].
    destruct (Ascii.eqb_spec c d) as [->|]; [|discriminate].
    intros H. now rewrite (IH _ H).
Qed.

Lemma firstStrip_some (tab : list bytes) (s rest : bytes) :
  firstStrip tab s = Some rest -> exists t, In t tab /\ s = t ++ rest.
Proof.
  induction tab as [|p tab IH]; [discriminate|]. simpl.
  destruct (stripPrefix p s) as [r|] eqn:E.
  - intros [= <-]. exists p. split; [now left | now apply stripPrefix_some].
  - intros H. destruct (IH H) as (t & Hin & Hs). exists t. split; [now right | exact Hs].
Qed.

Lemma firstStrip_app (tab : list bytes) (s x rest : bytes) :
  firstStrip tab s = Some rest -> firstStrip tab (s ++ x) <> None.
Proof.
  induction tab as [|p tab IH]; [discriminate|]. simpl.
  destruct (stripPrefix p s) as [r|] eqn:E.
  - intros _. apply stripPrefix_some in E as ->.
    rewrite <- app_assoc, stripPrefix_app. discriminate.
  - intros H. destruct (stripPrefix p (s ++ x)); [discriminate | now apply IH].
Qed.

Section TrimLoopEnd.
Variable step : bytes -> option bytes.
Hypothesis step_shrinks :
  forall s rest, step s = Some rest ->
                 (List.length rest < List.length s)%nat
                 /\ exists t, s = t ++ rest.

(** With fuel for every byte the loop runs until [step] stops, and it
    returns an end of the string. *)
Lemma trimLoop_end (fuel : nat) (s : bytes) :
  (List.length s <= fuel)%nat ->
  step (trimLoop step fuel s) = None
  /\ exists removed, s = removed ++ trimLoop step fuel s.
Proof.
  revert s. induction fuel as [|fuel IH]; intros s Hfuel.
  - destruct s; [|simpl in Hfuel; lia]. simpl. split; [|now exists []].
    destruct (step []) as [rest|] eqn:E; [|reflexivity].
    apply step_shrinks in E as [E _]. simpl in E. lia.
  - simpl. destruct (step s) as [rest|] eqn:E.
    + destruct (step_shrinks _ _ E) as (Hlen & t & ->).
      destruct (IH rest) as (Hstop & removed & Hrest); [lia|].
      split; [exact Hstop|]. exists (t ++ removed).
      rewrite <- app_assoc. now rewrite <- Hrest.
    + split; [exact E | now exists []].
Qed.

Lemma trimLoop_fixed (fuel : nat) (s : bytes) :
  step s = None -> trimLoop step fuel s = s.
Proof. intros H. destruct fuel; simpl; [reflexivity | now rewrite H]. Qed.
End TrimLoopEnd.

Lemma firstStrip_shrinks (tab : list bytes) :
  Forall (fun t => t <> []) tab ->
  forall s rest, firstStrip tab s = Some rest ->
                 (List.length rest < List.length s)%nat
                 /\ exists t, s = t ++ rest.
Proof.
  intros Htab s rest H. apply firstStrip_some in H as (t & Hin & ->).
  rewrite Forall_forall in Htab. specialize (Htab t Hin).
  split; [|now exists t]. rewrite length_app.
  destruct t; [contradiction | simpl; lia].
Qed.

Lemma dropSpace_shrinks (s rest : bytes) :
  dropSpace s = Some rest ->
  (List.length rest < List.length s)%nat /\ exists t, s = t ++ rest.
Proof.
  apply firstStrip_shrinks. unfold spaceEncodings.
  repeat constructor; discriminate.
Qed.

Lemma dropSpaceRev_shrinks (s rest : bytes) :
  dropSpaceRev s = Some rest ->
  (List.length rest < List.length s)%nat /\ exists t, s = t ++ rest.
Proof.
  apply firstStrip_shrinks. unfold spaceEncodings. simpl.
  repeat constructor; discriminate.
Qed.

(** What [TrimSpace] returns has no white space at its start or at its
    end, and is a part of the text. *)
Lemma TrimSpace_trimmed (s : bytes) :
  dropSpace (TrimSpace s) = None
  /\ dropSpaceRev (rev (TrimSpace s)) = None
  /\ exists before after, s = before ++ TrimSpace s ++ after.
Proof.
  unfold TrimSpace, TrimRightSpace.
  destruct (trimLoop_end dropSpace dropSpace_shrinks (List.length s) s)
    as (Hl & before & Hs); [lia|].
  fold (TrimLeftSpace s) in Hl, Hs. set (l := TrimLeftSpace s) in *.
  destruct (trimLoop_end dropSpaceRev dropSpaceRev_shrinks (List.length l) (rev l))
    as (Hr & after & Hrev); [rewrite length_rev; lia|].
  set (q := trimLoop dropSpaceRev (List.length l) (rev l)) in *.
  assert (Hlq : l = rev q ++ rev after).
  { rewrite <- (rev_involutive l), Hrev, rev_app_distr. reflexivity. }
  split; [|split].
  - destruct (dropSpace (rev q)) as [rest|] eqn:E; [|reflexivity].
    exfalso. apply (firstStrip_app _ _ (rev after)) in E.
    unfold dropSpace in Hl. rewrite Hlq in Hl. contradiction.
  - now rewrite rev_involutive.
  - exists before, (rev after). rewrite Hs at 1. now rewrite Hlq at 1.
Qed.

Lemma TrimSpace_idempotent (s : bytes) : TrimSpace (TrimSpace s) = TrimSpace s.
Proof.
  destruct (TrimSpace_trimmed s) as (Hl & Hr & _).
  set (r := TrimSpace s) in *. unfold TrimSpace, TrimLeftSpace.
  rewrite trimLoop_fixed by exact Hl.
  unfold TrimRightSpace. rewrite trimLoop_fixed by exact Hr.
  apply rev_involutive.
Qed.

Section Extract.
Variable ParseFloat : bytes -> option float64.
Variable NewDocumentFromReader : bytes -> result Node.

Local Abbreviation parseFloat := (Main.parseFloat ParseFloat).
Local Abbreviation rowFund := (Main.rowFund ParseFloat).
Local Abbreviation parseHTML :=
  (Main.parseHTML ParseFloat NewDocumentFromReader).

(** X4.  [parseFloat] and [parseDate] give on a text the result they give
    on the trimmed text: [TrimSpace] done twice is [TrimSpace] done once.
    So for the dates and the numbers of a row it makes no difference that
    [cleanText] trims the cell text before they do. *)
Theorem normalizers_ignore_trimming (text : bytes) :
  TrimSpace (TrimSpace text) = TrimSpace text
  /\ parseFloat (TrimSpace text) = parseFloat text
  /\ parseDate (TrimSpace text) = parseDate text
  /\ (forall columns idx,
        parseFloat (cleanText columns idx) = parseFloat (Text (Eq columns idx))
        /\ parseDate (cleanText columns idx) = parseDate (Text (Eq columns idx))).
Proof.
  assert (Hf : forall s, parseFloat (TrimSpace s) = parseFloat s)
    by (intros s; unfold Main.parseFloat; now rewrite TrimSpace_idempotent).
  assert (Hd : forall s, parseDate (TrimSpace s) = parseDate s)
    by (intros s; unfold parseDate; now rewrite TrimSpace_idempotent).
  split; [apply TrimSpace_idempotent|]. split; [apply Hf|]. split; [apply Hd|].
  intros columns idx. unfold cleanText. split; [apply Hf | apply Hd].
Qed.

Lemma Eq_app (a b : list Node) (idx : nat) :
  (idx < List.length a)%nat -> Eq (a ++ b) idx = Eq a idx.
Proof. intros H. unfold Eq. now rewrite nth_error_app1. Qed.

Lemma cleanText_app (a b : list Node) (idx : nat) :
  (idx < List.length a)%nat -> cleanText (a ++ b) idx = cleanText a idx.
Proof. intros H. unfold cleanText. now rewrite Eq_app. Qed.

(** X5.  The snapshot of a row is made of its first twelve cells: cells
    after the twelfth change nothing. *)
Theorem rowFund_first_twelve (uploadDate : Time) (columns : list Node) :
  (12 <= List.length columns)%nat ->
  rowFund uploadDate columns = rowFund uploadDate (firstn 12 columns)
  /\ forall more, rowFund uploadDate (columns ++ more) = rowFund uploadDate columns.
Proof.
  intros H.
  assert (Happ : forall a b, (12 <= List.length a)%nat ->
                             rowFund uploadDate (a ++ b) = rowFund uploadDate a).
  { intros a b Ha. unfold Main.rowFund.
    rewrite !cleanText_app by lia. reflexivity. }
  split; [|intros more; now apply Happ].
  rewrite <- (firstn_skipn 12 columns) at 1.
  apply Happ. rewrite length_firstn. lia.
Qed.

Lemma flat_map_length_in {A B} (f : A -> list B) (l : list A) (k : A) :
  In k l -> (List.length (f k) <= List.length (flat_map f l))%nat.
Proof.
  induction l as [|x l IH]; [contradiction|].
  simpl. rewrite length_app. intros [->|H]; [lia|].
  specialize (IH H). lia.
Qed.

Lemma MatchAll_children (m : Matcher) (n k : Node) :
  In k (Children n) ->
  (List.length (MatchAll m k) <= List.length (MatchAll m n))%nat.
Proof.
  destruct n as [type data attr children]. cbn [Children MatchAll].
  intros H. rewrite length_app.
  pose proof (flat_map_length_in (MatchAll m) children k H). lia.
Qed.

Lemma MatchAll_within (m : Matcher) (c n : Node) :
  Within c n -> (List.length (MatchAll m c) <= List.length (MatchAll m n))%nat.
Proof.
  induction 1 as [n|c k n Hk _ IH]; [lia|].
  pose proof (MatchAll_children m n k Hk). lia.
Qed.

Lemma Find_MatchAll (m : Matcher) (n : Node) :
  (List.length (Find n m) <= List.length (MatchAll m n))%nat.
Proof.
  destruct n as [type data attr children]. unfold Find. cbn [Children MatchAll].
  rewrite length_app.
  assert (H : (List.length (flat_map (fun c => if isElement c then MatchAll m c else [])
                              children)
               <= List.length (flat_map (MatchAll m) children))%nat).
  { induction children as [|c children IH]; [simpl; lia|].
    simpl. rewrite !length_app. destruct (isElement c); simpl; lia. }
  lia.
Qed.

(** X6.  The cells of a row are counted over all its descendants: a row
    that encloses a qualifying row (a report nested in a cell of an outer
    table) has at least as many cells and qualifies too. *)
Theorem enclosing_row_qualifies (inner outer : Node) :
  Inside inner outer ->
  (List.length (Find inner sel_td) <= List.length (Find outer sel_td))%nat
  /\ (qualifies inner = true -> qualifies outer = true).
Proof.
  intros (k & Hk & Helem & Hwithin).
  assert (H : (List.length (Find inner sel_td)
               <= List.length (Find outer sel_td))%nat).
  { pose proof (Find_MatchAll sel_td inner).
    pose proof (MatchAll_within sel_td inner k Hwithin).
    pose proof (flat_map_length_in
                  (fun c => if isElement c then MatchAll sel_td c else [])
                  (Children outer) k Hk) as Hf.
    cbv beta in Hf. rewrite Helem in Hf. unfold Find at 2. lia. }
  split; [exact H|]. unfold qualifies. intros Hq.
  apply Nat.leb_le in Hq. apply Nat.leb_le. lia.
Qed.

(** X7.  In every snapshot that [parseHTML] returns the launch date and
    the validity date are absent or days that exist, at midnight UTC. *)
Theorem snapshot_dates_valid (htmlContent : bytes) (uploadDate : Time)
    (funds : list Fund) (fund : Fund) :
  parseHTML htmlContent uploadDate = Ok funds ->
  In fund funds ->
  forall t, LaunchDate fund = Some t \/ ValidityDate fund = Some t ->
            validDate (Year t) (Month t) (Day t)
            /\ Clock t = 0 /\ Offset t = 0.
Proof.
  intros Hparse Hin t Ht.
  destruct (NewDocumentFromReader htmlContent) as [doc|e] eqn:Hdoc.
  - rewrite (ExtractProofs.parseHTML_document _ _ _ _ _ Hdoc) in Hparse.
    injection Hparse as <-.
    apply in_map_iff in Hin as (row & <- & _).
    cbn [LaunchDate ValidityDate Main.rowFund] in Ht.
    destruct Ht as [Ht|Ht]; unfold parseDate in Ht;
      (destruct (TrimSpace _); [discriminate|]);
      apply parseDateLoop_some in Ht as (layout & _ & Ht);
      now apply Parse_valid in Ht.
  - unfold Main.parseHTML in Hparse. rewrite Hdoc in Hparse. discriminate.
Qed.
End Extract.

End ExtractMore.

(* ================================================================= *)
(** ** More about the persistence layer *)

Module StoreMore.
Import GoStrings GoTime Types Main Notions StoreProofs.

Lemma fold_max_ge (l : list Z) (a : Z) :
  a <= fold_left Z.max l a /\ forall x, In x l -> x <= fold_left Z.max l a.
Proof.
  revert a. induction l as [|y l IH]; intros a; simpl.
  - split; [lia | contradiction].
  - destruct (IH (Z.max a y)) as [H1 H2]. split; [lia|].
    intros x [->|Hx]; [lia | now apply H2].
Qed.

Lemma fold_max_bound (l : list Z) (a : Z) :
  (forall x, In x l -> x <= a) -> fold_left Z.max l a = a.
Proof.
  revert a. induction l as [|y l IH]; intros a H; simpl; [reflexivity|].
  replace (Z.max a y) with a by (specialize (H y (or_introl eq_refl)); lia).
  apply IH. intros x Hx. apply H. now right.
Qed.

(** The next id is above the counter and above every id of the table. *)
Lemma nextId_above (w : Table) :
  sequence w < nextId w
  /\ forall i v, In (i, v) (rows w) -> i < nextId w.
Proof.
  unfold nextId.
  destruct (fold_max_ge (map fst (rows w)) (sequence w)) as [H1 H2].
  split; [lia|]. intros i v Hin.
  specialize (H2 i (in_map fst _ _ Hin)). lia.
Qed.

Lemma nextId_insertRow (w : Table) (v : Values) :
  nextId (insertRow w v) = nextId w + 1.
Proof.
  unfold insertRow. set (i := nextId w).
  unfold nextId at 1. cbn [rows sequence].
  rewrite map_app, fold_left_app. cbn [map fold_left fst].
  rewrite fold_max_bound; [lia|].
  intros x Hx. apply in_map_iff in Hx as ([j u] & <- & Hin).
  destruct (nextId_above w) as [_ H]. specialize (H j u Hin).
  cbn [fst]. unfold i. lia.
Qed.

Section Store.
Variable FormatRFC3339 : Time -> bytes.
Variable begin_fails : Table -> option bytes.
Variable prepare_fails : Table -> option bytes.
Variable exec_fails : Table -> Values -> option bytes.
Variable commit_fails : Table -> option bytes.

Local Abbreviation fundValues := (Main.fundValues FormatRFC3339).
Local Abbreviation insertLoop := (Main.insertLoop FormatRFC3339 exec_fails).
Local Abbreviation execAll := (Main.execAll FormatRFC3339 exec_fails).
Local Abbreviation storedRows := (Main.storedRows FormatRFC3339).
Local Abbreviation storeFunds :=
  (Main.storeFunds FormatRFC3339 begin_fails prepare_fails exec_fails
     commit_fails).

Lemma storedRows_length (funds : list Fund) :
  List.length (storedRows funds) = List.length funds.
Proof. apply length_map. Qed.

(** The inserts of a batch append its rows as the engine keeps them,
    numbered from the next id. *)
Lemma execAll_rows (funds : list Fund) (w w' : Table) :
  execAll w funds = Some w' ->
  rows w' = rows w ++ numbered (nextId w) (storedRows funds)
  /\ nextId w' = nextId w + Z.of_nat (List.length funds).
Proof.
  revert w. induction funds as [|fund funds IH]; intros w.
  - intros [= <-]. cbn. rewrite app_nil_r. split; [reflexivity | lia].
  - cbn [Main.execAll]. destruct (exec_fails w (fundValues fund)); [discriminate|].
    intros H. destruct (IH _ H) as [Hrows Hnext]. split.
    + rewrite Hrows, nextId_insertRow.
      cbn [insertRow rows Main.storedRows map numbered].
      now rewrite <- app_assoc.
    + rewrite Hnext, nextId_insertRow. cbn [List.length]. lia.
Qed.

Lemma insertLoop_ok (funds : list Fund) (c w0 w : Table) :
  execAll w0 funds = Some w ->
  insertLoop (mkDB c (Some w0)) funds = (mkDB c (Some w), None).
Proof.
  revert w0. induction funds as [|fund funds IH]; intros w0.
  - now intros [= <-].
  - cbn [Main.execAll Main.insertLoop]. unfold Main.ExecContext. cbn [tx committed].
    destruct (exec_fails w0 (fundValues fund)); [discriminate|]. apply IH.
Qed.

(** A call that returns no error has committed the working copy that the
    inserts left. *)
Lemma storeFunds_ok (d d' : DB) (funds : list Fund) :
  storeFunds d funds = (d', None) ->
  exists w, execAll (committed d) funds = Some w /\ d' = mkDB w None.
Proof.
  unfold Main.storeFunds, Main.BeginTx.
  destruct (begin_fails (committed d)); [discriminate|].
  unfold Main.PrepareContext. cbn [tx].
  destruct (prepare_fails (committed d)); [discriminate|].
  destruct (insertLoop _ funds) as [d1 [e|]] eqn:Hloop; [discriminate|].
  apply insertLoop_success in Hloop as (w & Hall & ->).
  unfold Main.Commit. cbn [tx].
  destruct (commit_fails w); [discriminate|].
  intros [= <-]. now exists w.
Qed.

Lemma storeFunds_runs (d : DB) (funds : list Fund) (w : Table) :
  begin_fails (committed d) = None ->
  prepare_fails (committed d) = None ->
  execAll (committed d) funds = Some w ->
  commit_fails w = None ->
  storeFunds d funds = (mkDB w None, None).
Proof.
  intros Hb Hp Hall Hc. unfold Main.storeFunds, Main.BeginTx. rewrite Hb.
  unfold Main.PrepareContext. cbn [tx]. rewrite Hp.
  rewrite (insertLoop_ok _ _ _ _ Hall).
  unfold Main.Commit. cbn [tx]. now rewrite Hc.
Qed.

Lemma numbered_ids (values : list Values) (n i : Z) (v : Values) :
  In (i, v) (numbered n values) ->
  n <= i < n + Z.of_nat (List.length values).
Proof.
  revert n. induction values as [|u values IH]; intros n; [contradiction|].
  cbn [numbered List.length]. intros [[= <- <-]|H]; [lia|].
  apply IH in H. lia.
Qed.

Lemma numbered_NoDup (values : list Values) (n : Z) :
  NoDup (map fst (numbered n values)).
Proof.
  revert n. induction values as [|u values IH]; intros n; [constructor|].
  cbn [numbered map fst]. constructor; [|apply IH].
  intros Hin. apply in_map_iff in Hin as ([j x] & Hj & Hin).
  cbn [fst] in Hj. subst j. apply numbered_ids in Hin. lia.
Qed.

Lemma numbered_values (values : list Values) (n : Z) :
  map snd (numbered n values) = values.
Proof.
  revert n. induction values as [|u values IH]; intros n; [reflexivity|].
  cbn [numbered map snd]. now rewrite IH.
Qed.

Lemma numbered_length (values : list Values) (n : Z) :
  List.length (numbered n values) = List.length values.
Proof.
  revert n. induction values as [|u values IH]; intros n; [reflexivity|].
  cbn [numbered List.length]. now rewrite IH.
Qed.

(** X8.  A call of [storeFunds] that returns no error has appended one
    row for each snapshot of the batch, in the order of the batch, after
    the rows that were there, which it leaves as they were; a new row holds
    the values bound for its snapshot as the engine keeps them (a NaN as
    NULL, the negative zero as zero, all else as bound); the new rows get
    the ids that follow the largest id ever used, one after the other; and
    no transaction is left open. *)
Theorem storeFunds_success_appends (d d' : DB) (funds : list Fund) :
  storeFunds d funds = (d', None) ->
  tx d' = None
  /\ rows (committed d')
     = rows (committed d)
       ++ numbered (nextId (committed d))
            (map (fun fund => storedValues (fundValues fund)) funds)
  /\ List.length (rows (committed d'))
     = (List.length (rows (committed d)) + List.length funds)%nat
  /\ (forall i v, In (i, v) (rows (committed d)) -> i < nextId (committed d)).
Proof.
  intros H. apply storeFunds_ok in H as (w & Hall & ->).
  apply execAll_rows in Hall as [Hrows _]. cbn [tx committed].
  split; [reflexivity|]. split; [exact Hrows|]. split.
  - rewrite Hrows, length_app, numbered_length, storedRows_length. reflexivity.
  - apply nextId_above.
Qed.

(** X9.  The ids of the table stay distinct: whatever a call of
    [storeFunds] returns, a table whose ids are distinct before the call
    has distinct ids after it. *)
Theorem storeFunds_ids_distinct (d : DB) (funds : list Fund) :
  NoDup (map fst (rows (committed d))) ->
  NoDup (map fst (rows (committed (fst (storeFunds d funds))))).
Proof.
  intros Hnd. destruct (storeFunds d funds) as [d' [err|]] eqn:E; cbn [fst].
  - now rewrite (storeFunds_error _ _ _ _ _ _ _ _ _ E).
  - apply storeFunds_ok in E as (w & Hall & ->).
    apply execAll_rows in Hall as [Hrows _]. cbn [committed].
    rewrite Hrows, map_app. apply NoDup_app.
    + exact Hnd.
    + apply numbered_NoDup.
    + intros i Hold Hnew.
      apply in_map_iff in Hold as ([j v] & <- & Hold).
      apply in_map_iff in Hnew as ([k u] & Hk & Hnew). cbn [fst] in *. subst k.
      apply numbered_ids in Hnew.
      destruct (nextId_above (committed d)) as [_ H].
      specialize (H j v Hold). lia.
Qed.

(** X10.  Nothing is checked against the rows that are there: on an
    engine that does not fail, storing the same batch twice succeeds
    twice and leaves the row of every snapshot of the batch (its bound
    values as the engine keeps them) in the table twice. *)
Theorem storeFunds_twice_keeps_both (d : DB) (funds : list Fund) :
  (forall t, begin_fails t = None) ->
  (forall t, prepare_fails t = None) ->
  (forall t v, exec_fails t v = None) ->
  (forall t, commit_fails t = None) ->
  exists d1 d2,
    storeFunds d funds = (d1, None)
    /\ storeFunds d1 funds = (d2, None)
    /\ map snd (rows (committed d2))
       = map snd (rows (committed d))
         ++ map (fun fund => storedValues (fundValues fund)) funds
         ++ map (fun fund => storedValues (fundValues fund)) funds.
Proof.
  intros Hb Hp He Hc.
  assert (Hall : forall fs w, exists w', execAll w fs = Some w').
  { induction fs as [|f fs IH]; intros w; [now exists w|].
    cbn [Main.execAll]. rewrite He. apply IH. }
  destruct (Hall funds (committed d)) as (w1 & H1).
  destruct (Hall funds w1) as (w2 & H2).
  exists (mkDB w1 None), (mkDB w2 None).
  split; [now apply storeFunds_runs|]. split; [now apply storeFunds_runs|].
  apply execAll_rows in H1 as [R1 _]. apply execAll_rows in H2 as [R2 _].
  cbn [committed]. rewrite R2, R1, !map_app, !numbered_values.
  now rewrite <- app_assoc.
Qed.

(** X11.  [storeFunds] stores all of a batch or nothing of it, and ends
    its transaction: after a call made when no transaction is open, none
    is open, and the table has as many rows as before when an error is
    returned, and as many more as the batch has snapshots when none is. *)
Theorem storeFunds_all_or_nothing (d : DB) (funds : list Fund) :
  tx d = None ->
  tx (fst (storeFunds d funds)) = None
  /\ match snd (storeFunds d funds) with
     | Some _ => committed (fst (storeFunds d funds)) = committed d
     | None =>
         List.length (rows (committed (fst (storeFunds d funds))))
         = (List.length (rows (committed d)) + List.length funds)%nat
     end.
Proof.
  intros Htx.
  assert (Hclosed : tx (fst (storeFunds d funds)) = None).
  { unfold Main.storeFunds, Main.BeginTx.
    destruct (begin_fails (committed d)); [exact Htx|].
    match goal with
    | |- context [let '(_, _) := ?x in _] => destruct x as [d0 r0]
    end.
    reflexivity. }
  destruct (storeFunds d funds) as [d' [err|]] eqn:E; cbn [fst snd] in *.
  - split; [exact Hclosed|]. now apply (storeFunds_error _ _ _ _ _ _ _ _ _ E).
  - apply storeFunds_ok in E as (w & Hall & ->).
    apply execAll_rows in Hall as [Hrows _]. cbn [tx committed].
    split; [reflexivity|].
    rewrite Hrows, length_app, numbered_length, storedRows_length. reflexivity.
Qed.
End Store.

End StoreMore.

(* ================================================================= *)
(** ** More about the ingestion endpoint and the start-up *)

Module UploadMore.
Import GoStrings GoTime Dom Types Main Notions Startup.
Import StringFacts DateProofs ExtractProofs StoreProofs StoreMore UploadProofs.

Ltac cases H :=
  repeat match type of H with
         | context [match ?x with _ => _ end] => destruct x eqn:?
         end.

Section Upload.
Variable ParseFloat : bytes -> option float64.
Variable NewDocumentFromReader : bytes -> result Node.
Variable FormatRFC3339 : Time -> bytes.
Variable begin_fails : Table -> option bytes.
Variable prepare_fails : Table -> option bytes.
Variable exec_fails : Table -> Values -> option bytes.
Variable commit_fails : Table -> option bytes.
Variable UnescapeString : bytes -> bytes.
Variable ParseMultipartForm : Request -> Z -> result Form.
Variable jsonEncode : list Fund -> result bytes.

Local Abbreviation fundValues := (Main.fundValues FormatRFC3339).
Local Abbreviation parseHTML :=
  (Main.parseHTML ParseFloat NewDocumentFromReader).
Local Abbreviation storeFunds :=
  (Main.storeFunds FormatRFC3339 begin_fails prepare_fails exec_fails
     commit_fails).
Local Abbreviation uploadHandler :=
  (Main.uploadHandler ParseFloat NewDocumentFromReader FormatRFC3339
     begin_fails prepare_fails exec_fails commit_fails UnescapeString
     ParseMultipartForm jsonEncode).

Lemma parseHTML_upload_dates (htmlContent : bytes) (uploadDate : Time)
    (funds : list Fund) :
  parseHTML htmlContent uploadDate = Ok funds ->
  Forall (fun fund => UploadDate fund = uploadDate) funds.
Proof.
  intros H. destruct (NewDocumentFromReader htmlContent) as [doc|e] eqn:Hdoc.
  - rewrite (parseHTML_document _ _ _ _ _ Hdoc) in H. injection H as <-.
    apply Forall_forall. intros fund Hin.
    apply in_map_iff in Hin as (row & <- & _). reflexivity.
  - unfold Main.parseHTML in H. rewrite Hdoc in H. discriminate.
Qed.

(** The two ways a request ends: rejected before anything is stored, or
    answered after [storeFunds] was called on what was extracted. *)
Lemma uploadHandler_ends (s : Server) (now : Time) (r : Request)
    (s' : Server) (resp : Response) :
  uploadHandler s now r = (s', resp) ->
  (s' = s
   /\ exists msg code,
        resp = httpError msg code /\ In code [400; 401; 405; 413; 500]
        /\ msg <> B "Failed to generate response")
  \/ (exists form fileHeader uploadDate funds d res,
        ParseMultipartForm r maxFileSize = Ok form
        /\ FormFile form (B "file") = Ok fileHeader
        /\ match FormValue form (B "date") with
           | [] => Some now
           | _ :: _ => Parse dateLayout (FormValue form (B "date"))
           end = Some uploadDate
        /\ parseHTML (UnescapeString (Content fileHeader)) uploadDate = Ok funds
        /\ funds <> []
        /\ storeFunds (db s) funds = (d, res)
        /\ s' = setDb s d
        /\ match res with
           | Some err =>
               resp = httpError (B "Failed to store funds in database: " ++ err) 500
           | None =>
               match jsonEncode funds with
               | Err _ => resp = httpError (B "Failed to generate response") 500
               | Ok out => resp = mkResponse 200 (B "application/json") out
               end
           end).
Proof.
  intros H. unfold Main.uploadHandler in H.
  destruct (negb (bytes_eqb (Header r (B "X-API-Key")) (APIKey (config s)))).
  { injection H as <- <-. left. split; [reflexivity|].
    eexists _, _. split; [reflexivity|]. split; [simpl; tauto | discriminate]. }
  destruct (negb (bytes_eqb (Method r) (B "POST"))).
  { injection H as <- <-. left. split; [reflexivity|].
    eexists _, _. split; [reflexivity|]. split; [simpl; tauto | discriminate]. }
  destruct (ParseMultipartForm r maxFileSize) as [form|] eqn:Hform.
  2:{ injection H as <- <-. left. split; [reflexivity|].
      eexists _, _. split; [reflexivity|]. split; [simpl; tauto | discriminate]. }
  destruct (FormFile form (B "file")) as [fileHeader|] eqn:Hfile.
  2:{ injection H as <- <-. left. split; [reflexivity|].
      eexists _, _. split; [reflexivity|]. split; [simpl; tauto | discriminate]. }
  destruct (match FormValue form (B "date") with
            | [] => Some now
            | _ :: _ => Parse (B "2006-01-02") (FormValue form (B "date"))
            end) as [uploadDate|] eqn:Hdate.
  2:{ injection H as <- <-. left. split; [reflexivity|].
      eexists _, _. split; [reflexivity|]. split; [simpl; tauto | discriminate]. }
  destruct (maxFileSize <? Size fileHeader) eqn:Hsize.
  { injection H as <- <-. left. split; [reflexivity|].
    eexists _, _. split; [reflexivity|]. split; [simpl; tauto | discriminate]. }
  unfold readLimited in H.
  destruct (ReadErr fileHeader).
  { injection H as <- <-. left. split; [reflexivity|].
    eexists _, _. split; [reflexivity|]. split; [simpl; tauto | discriminate]. }
  rewrite take_all in H by (unfold Size in Hsize; lia).
  destruct (parseHTML (UnescapeString (Content fileHeader)) uploadDate)
    as [funds|err] eqn:Hparse.
  2:{ injection H as <- <-. left. split; [reflexivity|].
      eexists _, _. split; [reflexivity|]. split; [simpl; tauto | discriminate]. }
  destruct funds as [|fund funds].
  { injection H as <- <-. left. split; [reflexivity|].
    eexists _, _. split; [reflexivity|]. split; [simpl; tauto | discriminate]. }
  right. destruct (storeFunds (db s) (fund :: funds)) as [d res] eqn:Hstore.
  exists form, fileHeader, uploadDate, (fund :: funds), d, res.
  repeat (split; [first [assumption | discriminate | reflexivity]|]).
  destruct res as [err|].
  - injection H as <- <-. split; reflexivity.
  - destruct (jsonEncode (fund :: funds)); injection H as <- <-;
      split; reflexivity.
Qed.

(** X12.  [uploadHandler] answers with one of six status codes: 200 with
    a JSON body, or 400, 401, 405, 413 or 500 with a plain text message
    that ends with a line feed. *)
Theorem uploadHandler_statuses (s : Server) (now : Time) (r : Request) :
  let resp := snd (uploadHandler s now r) in
  In (StatusCode resp) uploadStatuses
  /\ (StatusCode resp = 200 -> ContentType resp = B "application/json")
  /\ (StatusCode resp <> 200 ->
      exists msg, resp = httpError msg (StatusCode resp)
                  /\ ResponseBody resp = msg ++ newline).
Proof.
  destruct (uploadHandler s now r) as [s' resp] eqn:E. cbn [snd].
  apply uploadHandler_ends in E
    as [(_ & msg & code & -> & Hcode & _)
       |(form & fh & uploadDate & funds & d & res & _ & _ & _ & _ & _ & _ & _ & Hresp)].
  - cbn [StatusCode httpError]. split; [|split].
    + unfold uploadStatuses. simpl in *. tauto.
    + intros ->. simpl in Hcode. lia.
    + intros _. now exists msg.
  - destruct res as [err|]; [|destruct (jsonEncode funds)]; subst resp;
      cbn [StatusCode httpError ContentType].
    + split; [unfold uploadStatuses; simpl; tauto|].
      split; [intros [=] | intros _; now eexists].
    + split; [unfold uploadStatuses; simpl; tauto|].
      split; [reflexivity | intros Hne; now contradiction Hne].
    + split; [unfold uploadStatuses; simpl; tauto|].
      split; [intros [=] | intros _; now eexists].
Qed.

(** X13.  The table changes only when [storeFunds] has committed: the
    configuration is never touched; when the answer is 200, or is the 500
    of the JSON encoder (which comes after the commit), the table has got
    the rows of the snapshots that [parseHTML] extracted from the
    unescaped content of the uploaded file, for the upload date of the
    request: their bound values as the engine keeps them, in the order of
    the extraction, numbered from the next id; on every other answer the
    table is what it was. *)
Theorem uploadHandler_table_changes (s : Server) (now : Time) (r : Request)
    (s' : Server) (resp : Response) :
  uploadHandler s now r = (s', resp) ->
  config s' = config s
  /\ (StatusCode resp = 200
      \/ resp = httpError (B "Failed to generate response") 500 ->
      exists form fileHeader uploadDate funds,
        ParseMultipartForm r maxFileSize = Ok form
        /\ FormFile form (B "file") = Ok fileHeader
        /\ match FormValue form (B "date") with
           | [] => Some now
           | _ :: _ => Parse dateLayout (FormValue form (B "date"))
           end = Some uploadDate
        /\ parseHTML (UnescapeString (Content fileHeader)) uploadDate = Ok funds
        /\ funds <> []
        /\ rows (committed (db s'))
           = rows (committed (db s))
             ++ numbered (nextId (committed (db s)))
                  (map (fun fund => storedValues (fundValues fund)) funds))
  /\ (~ (StatusCode resp = 200
         \/ resp = httpError (B "Failed to generate response") 500) ->
      committed (db s') = committed (db s)).
Proof.
  intros E. apply uploadHandler_ends in E
    as [(-> & msg & code & -> & Hcode & Hmsg)
       |(form & fh & uploadDate & funds & d & res & Hform & Hfile & Hdate
         & Hparse & Hne & Hstore & -> & Hresp)].
  - split; [reflexivity|]. split; [|reflexivity].
    intros [H|H].
    + cbn [StatusCode httpError] in H. subst code. simpl in Hcode.
      exfalso. lia.
    + exfalso. apply Hmsg. apply (f_equal ResponseBody) in H.
      cbn [ResponseBody httpError] in H. now apply app_inv_tail in H.
  - split; [reflexivity|]. cbn [db setDb]. destruct res as [err|].
    + subst resp. split.
      * intros [H|H]; [discriminate H|].
        unfold httpError in H. injection H as H. discriminate H.
      * intros _. now apply (storeFunds_error _ _ _ _ _ _ _ _ _ Hstore).
    + apply storeFunds_ok in Hstore as (w & Hall & ->).
      apply execAll_rows in Hall as [Hrows _]. cbn [committed].
      split.
      * intros _. exists form, fh, uploadDate, funds.
        repeat (split; [assumption|]). exact Hrows.
      * intros Hnot. exfalso. apply Hnot.
        destruct (jsonEncode funds); subst resp; [left | right]; reflexivity.
Qed.

(** X14.  A request only appends rows, it appends some exactly when its
    answer is 200 or the 500 of the JSON encoder, and the rows that it
    appends carry one upload date: the time of the request when the form
    has no [date] field or an empty one, and otherwise the day written in
    the field, which then exists and is taken at midnight UTC. *)
Theorem uploadHandler_upload_date (s : Server) (now : Time) (r : Request)
    (s' : Server) (resp : Response) :
  uploadHandler s now r = (s', resp) ->
  exists new,
    rows (committed (db s')) = rows (committed (db s)) ++ new
    /\ (StatusCode resp = 200
        \/ resp = httpError (B "Failed to generate response") 500
        <-> new <> [])
    /\ (new <> [] ->
        exists form uploadDate,
          ParseMultipartForm r maxFileSize = Ok form
          /\ (FormValue form (B "date") = [] -> uploadDate = now)
          /\ (FormValue form (B "date") <> [] ->
              Parse dateLayout (FormValue form (B "date")) = Some uploadDate
              /\ validDate (Year uploadDate) (Month uploadDate) (Day uploadDate)
              /\ Clock uploadDate = 0 /\ Offset uploadDate = 0)
          /\ Forall
               (fun row => v_upload_date (snd row) = FormatRFC3339 uploadDate)
               new).
Proof.
  intros E. apply uploadHandler_ends in E
    as [(-> & msg & code & -> & Hcode & Hmsg)
       |(form & fh & uploadDate & funds & d & res & Hform & _ & Hdate & Hparse
         & Hne & Hstore & -> & Hresp)].
  - exists []. split; [now rewrite app_nil_r|]. split; [split|].
    + intros [H|H]; exfalso.
      * cbn [StatusCode httpError] in H. subst code. simpl in Hcode. lia.
      * apply Hmsg. apply (f_equal ResponseBody) in H.
        cbn [ResponseBody httpError] in H. now apply app_inv_tail in H.
    + intros H. now contradiction H.
    + intros H. now contradiction H.
  - cbn [db setDb]. destruct res as [err|].
    + exists []. rewrite (storeFunds_error _ _ _ _ _ _ _ _ _ Hstore).
      split; [now rewrite app_nil_r|]. subst resp. split; [split|].
      * intros [H|H]; [discriminate H|].
        unfold httpError in H. injection H as H. discriminate H.
      * intros H. now contradiction H.
      * intros H. now contradiction H.
    + apply storeFunds_ok in Hstore as (w & Hall & ->).
      apply execAll_rows in Hall as [Hrows _]. cbn [committed].
      exists (numbered (nextId (committed (db s)))
                (Main.storedRows FormatRFC3339 funds)).
      assert (Hnew : numbered (nextId (committed (db s)))
                       (Main.storedRows FormatRFC3339 funds) <> []).
      { destruct funds; [contradiction | discriminate]. }
      split; [exact Hrows|]. split; [split|].
      * intros _. exact Hnew.
      * intros _.
        destruct (jsonEncode funds); subst resp; [left | right]; reflexivity.
      * intros _. exists form, uploadDate.
        split; [exact Hform|]. split; [|split].
        -- intros Hempty. rewrite Hempty in Hdate. now injection Hdate.
        -- intros Hset. destruct (FormValue form (B "date")); [contradiction|].
           split; [exact Hdate|]. now apply Parse_valid in Hdate.
        -- apply parseHTML_upload_dates in Hparse.
           apply Forall_forall. intros [i v] Hin.
           assert (Hv : In v (Main.storedRows FormatRFC3339 funds)).
           { rewrite <- (numbered_values (Main.storedRows FormatRFC3339 funds)
                           (nextId (committed (db s)))).
             now apply (in_map snd) in Hin. }
           apply in_map_iff in Hv as (fund & <- & Hfund).
           rewrite Forall_forall in Hparse.
           cbn [snd v_upload_date Main.fundValues Main.storedValues].
           now rewrite (Hparse fund Hfund).
Qed.

(** X15.  [main] warns about the default API key exactly when [API_KEY]
    is unset or is set to the default itself; a variable that is set
    wins over the fallback of [getEnv] even when its value is empty. *)
Theorem default_key_warning (environ : Environ) :
  (warnsDefaultKey (mainConfig environ) = true <->
   environ (B "API_KEY") = None
   \/ environ (B "API_KEY") = Some defaultAPIKey)
  /\ (forall key value fallback,
        environ key = Some value -> getEnv environ key fallback = value)
  /\ (forall key fallback,
        environ key = None -> getEnv environ key fallback = fallback).
Proof.
  split; [|split].
  - unfold warnsDefaultKey, mainConfig, getEnv. cbn [APIKey].
    rewrite bytes_eqb_eq. destruct (environ (B "API_KEY")) as [v|]; split.
    + intros ->. now right.
    + intros [H|[= ->]]; [discriminate | reflexivity].
    + now left.
    + reflexivity.
  - intros key value fallback H. unfold getEnv. now rewrite H.
  - intros key fallback H. unfold getEnv. now rewrite H.
Qed.

(** X16.  With [API_KEY] set to the empty string [main] raises no warning
    and [uploadHandler] lets a request without the [X-API-Key] header
    pass the key check: its answer is never 401. *)
Theorem empty_key_accepts_missing_header (environ : Environ) (d : DB)
    (now : Time) (r : Request) :
  environ (B "API_KEY") = Some [] ->
  Header r (B "X-API-Key") = [] ->
  warnsDefaultKey (mainConfig environ) = false
  /\ StatusCode (snd (uploadHandler (mkServer (mainConfig environ) d) now r))
     <> 401.
Proof.
  intros Henv Hheader. split.
  - unfold warnsDefaultKey, mainConfig, getEnv. cbn [APIKey].
    now rewrite Henv.
  - destruct (uploadHandler _ now r) as [s' resp] eqn:E. cbn [snd].
    unfold Main.uploadHandler in E. cbn [config APIKey mainConfig] in E.
    unfold getEnv in E. rewrite Henv, Hheader in E.
    change (negb (bytes_eqb [] [])) with false in E. cbv iota in E.
    cases E. all: injection E as <- <-; cbn [StatusCode httpError]; lia.
Qed.
End Upload.

End UploadMore.

(* ================================================================= *)
(** ** The further theorems on the samples *)

Module OnMoreSamples.
Import GoStrings GoTime Dom Types Main Notions Startup.

Local Abbreviation parseHTML :=
  (Main.parseHTML Samples.ParseFloat Samples.NewDocumentFromReader).
Local Abbreviation fundValues := (Main.fundValues Samples.FormatRFC3339).
Local Abbreviation storeOk :=
  (Main.storeFunds Samples.FormatRFC3339 Samples.begin_fails
     Samples.prepare_fails MoreSamples.exec_ok Samples.commit_fails).
Local Abbreviation uploadHandler :=
  (Main.uploadHandler Samples.ParseFloat Samples.NewDocumentFromReader
     Samples.FormatRFC3339 Samples.begin_fails Samples.prepare_fails
     Samples.exec_fails Samples.commit_fails Samples.UnescapeString
     Samples.ParseMultipartForm Samples.jsonEncode).
Local Abbreviation uploadNoJson :=
  (Main.uploadHandler Samples.ParseFloat Samples.NewDocumentFromReader
     Samples.FormatRFC3339 Samples.begin_fails Samples.prepare_fails
     Samples.exec_fails Samples.commit_fails Samples.UnescapeString
     Samples.ParseMultipartForm MoreSamples.jsonFails).

(** 29 February 2024 exists. *)
Lemma parseDate_valid_witness :
  parseDate (B "Feb 29, 2024") = Some (Date 2024 2 29)
  /\ validDate 2024 2 29
  /\ parseDate (B "Feb 29, 2023") = None
  /\ parseDate (B "Feb 30, 2024") = None.
Proof.
  assert (H : parseDate (B "Feb 29, 2024") = Some (Date 2024 2 29))
    by reflexivity.
  split; [exact H|].
  split; [exact (proj1 (DateProofs.parseDate_valid _ _ H))|].
  split; reflexivity.
Defined.

Lemma upload_date_round_trip_witness :
  validDate 2024 3 1
  /\ Format (Date 2024 3 1) dateLayout = B "2024-03-01"
  /\ Parse dateLayout (Format (Date 2024 3 1) dateLayout)
     = Some (Date 2024 3 1).
Proof.
  assert (H : validDate 2024 3 1)
    by (unfold validDate; change (daysIn 3 2024) with 31; lia).
  split; [exact H|]. split; [reflexivity|].
  exact (DateProofs.upload_date_round_trip 2024 3 1 H).
Defined.

Lemma upload_date_canonical_witness :
  Parse dateLayout (B "2024-03-01") = Some (Date 2024 3 1)
  /\ Format (Date 2024 3 1) dateLayout = B "2024-03-01"
  /\ Parse dateLayout (B "2024-3-1") = None
  /\ Parse dateLayout (B "2024-03-01 ") = None.
Proof.
  assert (H : Parse dateLayout (B "2024-03-01") = Some (Date 2024 3 1))
    by reflexivity.
  split; [exact H|].
  split; [exact (proj1 (DateProofs.upload_date_canonical _ _ H))|].
  split; reflexivity.
Defined.

(** A thirteenth cell after the twelve of the data row. *)
Lemma rowFund_first_twelve_witness :
  let columns := Find Samples.dataRow sel_td in
  (12 <= List.length columns)%nat
  /\ Main.rowFund Samples.ParseFloat Samples.now (columns ++ [Samples.td "extra"])
     = Main.rowFund Samples.ParseFloat Samples.now columns.
Proof.
  intros columns.
  assert (H : (12 <= List.length columns)%nat) by (vm_compute; lia).
  split; [exact H|].
  exact (proj2 (ExtractMore.rowFund_first_twelve Samples.ParseFloat
                  Samples.now columns H) [Samples.td "extra"]).
Defined.

(** The data row inside a cell of an outer row. *)
Lemma enclosing_row_qualifies_witness :
  Inside Samples.dataRow MoreSamples.outerRow
  /\ qualifies Samples.dataRow = true
  /\ qualifies MoreSamples.outerRow = true
  /\ List.length (Find MoreSamples.outerRow sel_td) = 13%nat
  /\ qualifyingRows MoreSamples.nestedDoc
     = [MoreSamples.outerRow; Samples.dataRow].
Proof.
  assert (H : Inside Samples.dataRow MoreSamples.outerRow).
  { eexists. split; [left; reflexivity|]. split; [reflexivity|].
    eapply Within_child; [left; reflexivity|].
    eapply Within_child; [left; reflexivity|].
    eapply Within_child; [left; reflexivity|].
    apply Within_self. }
  assert (Hq : qualifies Samples.dataRow = true) by reflexivity.
  split; [exact H|]. split; [exact Hq|].
  split; [|split; reflexivity].
  exact (proj2 (ExtractMore.enclosing_row_qualifies _ _ H) Hq).
Defined.

Lemma snapshot_dates_valid_witness :
  let fund := Main.rowFund Samples.ParseFloat (Date 2024 3 1)
                (Find Samples.dataRow sel_td) in
  parseHTML Samples.report (Date 2024 3 1) = Ok [fund]
  /\ In fund [fund]
  /\ LaunchDate fund = Some (Date 2009 6 15)
  /\ validDate 2009 6 15.
Proof.
  intros fund.
  assert (H1 : parseHTML Samples.report (Date 2024 3 1) = Ok [fund])
    by (vm_compute; reflexivity).
  assert (H2 : In fund [fund]) by (left; reflexivity).
  assert (H3 : LaunchDate fund = Some (Date 2009 6 15))
    by (vm_compute; reflexivity).
  split; [exact H1|]. split; [exact H2|]. split; [exact H3|].
  exact (proj1 (ExtractMore.snapshot_dates_valid Samples.ParseFloat
                  Samples.NewDocumentFromReader Samples.report (Date 2024 3 1)
                  [fund] fund H1 H2 (Date 2009 6 15) (or_introl H3))).
Defined.

(** Two snapshots stored in a table whose counter is at 9: ids 10 and
    11.  The NaN of the second is kept as [NULL] and its negative zero as
    zero; its infinity is kept. *)
Lemma storeFunds_success_appends_witness :
  let d := mkDB MoreSamples.oldTable None in
  let d' := fst (storeOk d MoreSamples.oddBatch) in
  storeOk d MoreSamples.oddBatch = (d', None)
  /\ map fst (rows (committed d')) = [3; 7; 10; 11]
  /\ map (fun row => (v_nav (snd row), v_mtd (snd row), v_fytd (snd row)))
       (skipn 3 (rows (committed d')))
     = [(None, Some PrimFloat.zero, Some PrimFloat.infinity)]
  /\ tx d' = None
  /\ rows (committed d')
     = rows MoreSamples.oldTable
       ++ numbered 10
            (map (fun fund => storedValues (fundValues fund))
               MoreSamples.oddBatch).
Proof.
  intros d d'.
  assert (H : storeOk d MoreSamples.oddBatch = (d', None)) by reflexivity.
  split; [exact H|]. split; [reflexivity|]. split; [reflexivity|].
  destruct (StoreMore.storeFunds_success_appends Samples.FormatRFC3339
              Samples.begin_fails Samples.prepare_fails MoreSamples.exec_ok
              Samples.commit_fails d d' MoreSamples.oddBatch H)
    as (Htx & Hrows & _).
  split; [exact Htx | exact Hrows].
Defined.

Lemma storeFunds_ids_distinct_witness :
  let d := mkDB MoreSamples.oldTable None in
  NoDup (map fst (rows (committed d)))
  /\ NoDup (map fst (rows (committed (fst (storeOk d MoreSamples.batch))))).
Proof.
  intros d.
  assert (H : NoDup (map fst (rows (committed d)))).
  { simpl. repeat constructor; simpl; intuition discriminate. }
  split; [exact H|].
  exact (StoreMore.storeFunds_ids_distinct Samples.FormatRFC3339
           Samples.begin_fails Samples.prepare_fails MoreSamples.exec_ok
           Samples.commit_fails d MoreSamples.batch H).
Defined.

Lemma storeFunds_twice_keeps_both_witness :
  let d := mkDB Samples.emptyTable None in
  (forall t, Samples.begin_fails t = None)
  /\ (forall t, Samples.prepare_fails t = None)
  /\ (forall t v, MoreSamples.exec_ok t v = None)
  /\ (forall t, Samples.commit_fails t = None)
  /\ exists d1 d2,
       storeOk d MoreSamples.oddBatch = (d1, None)
       /\ storeOk d1 MoreSamples.oddBatch = (d2, None)
       /\ map snd (rows (committed d2))
          = map snd (rows (committed d))
            ++ map (fun fund => storedValues (fundValues fund))
                 MoreSamples.oddBatch
            ++ map (fun fund => storedValues (fundValues fund))
                 MoreSamples.oddBatch.
Proof.
  intros d.
  assert (H1 : forall t, Samples.begin_fails t = None) by reflexivity.
  assert (H2 : forall t, Samples.prepare_fails t = None) by reflexivity.
  assert (H3 : forall t v, MoreSamples.exec_ok t v = None) by reflexivity.
  assert (H4 : forall t, Samples.commit_fails t = None) by reflexivity.
  repeat (split; [assumption|]).
  exact (StoreMore.storeFunds_twice_keeps_both Samples.FormatRFC3339
           Samples.begin_fails Samples.prepare_fails MoreSamples.exec_ok
           Samples.commit_fails d MoreSamples.oddBatch H1 H2 H3 H4).
Defined.

(** The batch with the fund that the sample engine refuses: nothing of
    it is stored. *)
Lemma storeFunds_all_or_nothing_witness :
  let d := mkDB MoreSamples.oldTable None in
  let funds := [Samples.fundNamed "Meezan Cash Fund";
                Samples.fundNamed "Broken Fund"] in
  let run := Main.storeFunds Samples.FormatRFC3339 Samples.begin_fails
               Samples.prepare_fails Samples.exec_fails Samples.commit_fails
               d funds in
  tx d = None
  /\ tx (fst run) = None
  /\ committed (fst run) = MoreSamples.oldTable
  /\ snd run <> None.
Proof.
  intros d funds run.
  assert (H : tx d = None) by reflexivity.
  split; [exact H|].
  destruct (StoreMore.storeFunds_all_or_nothing Samples.FormatRFC3339
              Samples.begin_fails Samples.prepare_fails Samples.exec_fails
              Samples.commit_fails d funds H) as [Htx _].
  split; [exact Htx|]. split; [reflexivity | discriminate].
Defined.

Lemma uploadHandler_statuses_witness :
  In (StatusCode (snd (uploadHandler Samples.server Samples.now Samples.upload)))
     uploadStatuses
  /\ StatusCode (snd (uploadHandler Samples.server Samples.now Samples.upload))
     = 200
  /\ ContentType (snd (uploadHandler Samples.server Samples.now Samples.upload))
     = B "application/json".
Proof.
  destruct (UploadMore.uploadHandler_statuses Samples.ParseFloat
              Samples.NewDocumentFromReader Samples.FormatRFC3339
              Samples.begin_fails Samples.prepare_fails Samples.exec_fails
              Samples.commit_fails Samples.UnescapeString
              Samples.ParseMultipartForm Samples.jsonEncode
              Samples.server Samples.now Samples.upload) as (H1 & H2 & _).
  split; [exact H1|].
  assert (H : StatusCode (snd (uploadHandler Samples.server Samples.now
                                 Samples.upload)) = 200)
    by (vm_compute; reflexivity).
  split; [exact H | exact (H2 H)].
Defined.

(** The sample upload with an encoder that fails: the answer is 500, and
    the row of the report is in the table. *)
Lemma uploadHandler_table_changes_witness :
  let s' := fst (uploadNoJson Samples.server Samples.now Samples.upload) in
  let resp := httpError (B "Failed to generate response") 500 in
  uploadNoJson Samples.server Samples.now Samples.upload = (s', resp)
  /\ config s' = config Samples.server
  /\ List.length (rows (committed (db s'))) = 1%nat
  /\ exists form fileHeader uploadDate funds,
       Samples.ParseMultipartForm Samples.upload maxFileSize = Ok form
       /\ FormFile form (B "file") = Ok fileHeader
       /\ match FormValue form (B "date") with
          | [] => Some Samples.now
          | _ :: _ => Parse dateLayout (FormValue form (B "date"))
          end = Some uploadDate
       /\ parseHTML (Samples.UnescapeString (Content fileHeader)) uploadDate
          = Ok funds
       /\ funds <> []
       /\ rows (committed (db s'))
          = rows (committed (db Samples.server))
            ++ numbered (nextId (committed (db Samples.server)))
                 (map (fun fund => storedValues (fundValues fund)) funds).
Proof.
  intros s' resp.
  assert (H : uploadNoJson Samples.server Samples.now Samples.upload
              = (s', resp)) by (vm_compute; reflexivity).
  split; [exact H|].
  destruct (UploadMore.uploadHandler_table_changes Samples.ParseFloat
              Samples.NewDocumentFromReader Samples.FormatRFC3339
              Samples.begin_fails Samples.prepare_fails Samples.exec_fails
              Samples.commit_fails Samples.UnescapeString
              Samples.ParseMultipartForm MoreSamples.jsonFails
              Samples.server Samples.now Samples.upload s' resp H)
    as (Hconfig & Hadded & _).
  split; [exact Hconfig|]. split; [vm_compute; reflexivity|].
  exact (Hadded (or_intror eq_refl)).
Defined.

(** The sample upload carries the date 2024-03-01 in its form; with an
    encoder that fails the answer is 500, and the row that is stored
    carries the date all the same. *)
Lemma uploadHandler_upload_date_witness :
  let run := uploadNoJson Samples.server Samples.now Samples.upload in
  snd run = httpError (B "Failed to generate response") 500
  /\ map (fun row => v_upload_date (snd row)) (rows (committed (db (fst run))))
     = [B "2024-03-01T00:00:00Z"]
  /\ exists new,
       rows (committed (db (fst run)))
       = rows (committed (db Samples.server)) ++ new
       /\ (StatusCode (snd run) = 200
           \/ snd run = httpError (B "Failed to generate response") 500
           <-> new <> [])
       /\ (new <> [] ->
           exists form uploadDate,
             Samples.ParseMultipartForm Samples.upload maxFileSize = Ok form
             /\ (FormValue form (B "date") = [] -> uploadDate = Samples.now)
             /\ (FormValue form (B "date") <> [] ->
                 Parse dateLayout (FormValue form (B "date")) = Some uploadDate
                 /\ validDate (Year uploadDate) (Month uploadDate)
                      (Day uploadDate)
                 /\ Clock uploadDate = 0 /\ Offset uploadDate = 0)
             /\ Forall (fun row => v_upload_date (snd row)
                                   = Samples.FormatRFC3339 uploadDate) new).
Proof.
  intros run.
  split; [vm_compute; reflexivity|]. split; [vm_compute; reflexivity|].
  exact (UploadMore.uploadHandler_upload_date Samples.ParseFloat
           Samples.NewDocumentFromReader Samples.FormatRFC3339
           Samples.begin_fails Samples.prepare_fails Samples.exec_fails
           Samples.commit_fails Samples.UnescapeString
           Samples.ParseMultipartForm MoreSamples.jsonFails
           Samples.server Samples.now Samples.upload (fst run) (snd run)
           (surjective_pairing run)).
Defined.

Lemma default_key_warning_witness :
  warnsDefaultKey (mainConfig MoreSamples.noEnviron) = true
  /\ warnsDefaultKey (mainConfig MoreSamples.emptyKeyEnviron) = false
  /\ APIKey (mainConfig MoreSamples.emptyKeyEnviron) = [].
Proof.
  destruct (UploadMore.default_key_warning MoreSamples.noEnviron)
    as ([_ H] & _ & _).
  split; [exact (H (or_introl eq_refl))|].
  split; reflexivity.
Defined.

(** The sample upload without its key header, on a server started with
    an empty [API_KEY]: the answer is 200. *)
Lemma empty_key_accepts_missing_header_witness :
  let s := mkServer (mainConfig MoreSamples.emptyKeyEnviron)
             (mkDB Samples.emptyTable None) in
  MoreSamples.emptyKeyEnviron (B "API_KEY") = Some []
  /\ Header Samples.anonymousUpload (B "X-API-Key") = []
  /\ warnsDefaultKey (mainConfig MoreSamples.emptyKeyEnviron) = false
  /\ StatusCode (snd (uploadHandler s Samples.now Samples.anonymousUpload)) <> 401
  /\ StatusCode (snd (uploadHandler s Samples.now Samples.anonymousUpload)) = 200.
Proof.
  intros s.
  assert (H1 : MoreSamples.emptyKeyEnviron (B "API_KEY") = Some [])
    by reflexivity.
  assert (H2 : Header Samples.anonymousUpload (B "X-API-Key") = [])
    by reflexivity.
  split; [exact H1|]. split; [exact H2|].
  destruct (UploadMore.empty_key_accepts_missing_header Samples.ParseFloat
              Samples.NewDocumentFromReader Samples.FormatRFC3339
              Samples.begin_fails Samples.prepare_fails Samples.exec_fails
              Samples.commit_fails Samples.UnescapeString
              Samples.ParseMultipartForm Samples.jsonEncode
              MoreSamples.emptyKeyEnviron (mkDB Samples.emptyTable None)
              Samples.now Samples.anonymousUpload H1 H2) as [Hw Hs].
  split; [exact Hw|]. split; [exact Hs|]. vm_compute. reflexivity.
Defined.

End OnMoreSamples.

(* ================================================================= *)
(** ** What the selectors select *)

Module SelectorProofs.
Import GoStrings GoTime Dom Types Main Notions DateProofs.

(** [MatchAll] returns nodes that match. *)
Lemma MatchAll_sound (m : Matcher) :
  forall n x, In x (MatchAll m n) -> m x = true.
Proof.
  fix IH 1. intros [type data attr children] x. cbn [MatchAll].
  intros Hin. apply in_app_or in Hin as [Hin|Hin].
  - destruct (m (mkNode type data attr children)) eqn:E; [|contradiction].
    destruct Hin as [<-|[]]. exact E.
  - induction children as [|c children IHc]; [contradiction|].
    cbn [flat_map] in Hin. apply in_app_or in Hin as [Hin|Hin].
    + exact (IH c x Hin).
    + exact (IHc Hin).
Qed.

Lemma Find_sound (m : Matcher) (n x : Node) : In x (Find n m) -> m x = true.
Proof.
  unfold Find. intros Hin. apply in_flat_map in Hin as (c & _ & Hin).
  destruct (isElement c); [|contradiction].
  now apply (MatchAll_sound m c).
Qed.

(** X17.  Only what the selectors select is extracted: every candidate row
    is a [tr] element with an attribute [align] whose value is exactly
    ["center"], and every cell counted and read in a row is a [td]
    element. *)
Theorem candidate_rows_selected (doc row : Node) :
  In row (candidateRows doc) ->
  Type_ row = ElementNode
  /\ Data row = B "tr"
  /\ (exists a, In a (Attr row) /\ Key a = B "align" /\ Val a = B "center")
  /\ (forall cell, In cell (Find row sel_td) ->
        Type_ cell = ElementNode /\ Data cell = B "td").
Proof.
  intros Hrow. apply Find_sound in Hrow.
  unfold sel_tr_align_center, compoundSelector in Hrow. cbn [forallb] in Hrow.
  apply andb_true_iff in Hrow as [Htag Hattr].
  apply andb_true_iff in Hattr as [Hattr _].
  unfold tagSelector in Htag. apply andb_true_iff in Htag as [Helem Hdata].
  unfold attributeEqualsSelector in Hattr.
  apply andb_true_iff in Hattr as [_ Hattr].
  apply existsb_exists in Hattr as (a & Ha & Hkv).
  apply andb_true_iff in Hkv as [Hkey Hval].
  apply bytes_eqb_eq in Hdata, Hkey, Hval.
  assert (Helement : forall n, isElement n = true -> Type_ n = ElementNode).
  { intros n. unfold isElement. destruct (Type_ n); congruence. }
  split; [now apply Helement|]. split; [exact Hdata|].
  split; [now exists a|].
  intros cell Hcell. apply Find_sound in Hcell.
  unfold sel_td, tagSelector in Hcell.
  apply andb_true_iff in Hcell as [Hce Hcd]. apply bytes_eqb_eq in Hcd.
  split; [now apply Helement | exact Hcd].
Qed.

(** The rows of the sample report. *)
Lemma candidate_rows_selected_witness :
  In Samples.dataRow (candidateRows Samples.reportDoc)
  /\ Type_ Samples.dataRow = ElementNode
  /\ Data Samples.dataRow = B "tr"
  /\ (exists a, In a (Attr Samples.dataRow)
                /\ Key a = B "align" /\ Val a = B "center")
  /\ (forall cell, In cell (Find Samples.dataRow sel_td) ->
        Type_ cell = ElementNode /\ Data cell = B "td").
Proof.
  assert (H : In Samples.dataRow (candidateRows Samples.reportDoc))
    by (left; reflexivity).
  split; [exact H|].
  exact (candidate_rows_selected Samples.reportDoc Samples.dataRow H).
Defined.

End SelectorProofs.
